(** * Filtering, grouping and PDF export of Grist records

    A shallow embedding of the filter evaluator and the grouping engine of
    [grist_client.py], of the file-name generation, the date formatter and the
    column-width allocation of [pdf_generator.py], and of the record lookup of
    the attachment upload in [app.py]; and, further, of the columns of a
    table with their types, their labels and their cache, of the lookup of
    a record by its key, of the cells of the table of a document and of its
    date columns, of the test of an uploaded file name and of the
    configuration of a document in [config.py], and of the two routes of
    [app.py] that count the documents and attach them to the records.

    Python strings are modelled by [string] (a sequence of bytes, read as the
    UTF-8 encoding of the text).  Every pattern the program searches for or
    replaces is ASCII, and an ASCII byte never occurs inside the encoding of
    another character, so searching and replacing on bytes agrees with
    searching and replacing on characters. *)

From Stdlib Require Import ZArith QArith Lqa Floats Uint63 List Sorted Bool Ascii String Lia Permutation.
Import ListNotations.

Local Open Scope string_scope.
Local Open Scope Z_scope.

(* ================================================================== *)
(** * Python's string primitives                                      *)
(* ================================================================== *)

Module PyStr.

(** [s.startswith(p)] *)
Definition startswith (s p : string) : bool := String.prefix p s.

(** [s[n:]] *)
Fixpoint drop (n : nat) (s : string) : string :=
  match n, s with
  | O, _ => s
  | S _, EmptyString => EmptyString
  | S k, String _ s' => drop k s'
  end.

(** [s.endswith(p)] *)
Definition endswith (s p : string) : bool :=
  (String.length p <=? String.length s)%nat
  && String.eqb (drop (String.length s - String.length p) s) p.

(** [p in s] *)
Fixpoint contains (s p : string) : bool :=
  String.prefix p s
  || match s with
     | EmptyString => false
     | String _ s' => contains s' p
     end.

(** [s.replace(old, new)] for a non-empty [old]: the occurrences of [old]
    are found from left to right and do not overlap; [skip] counts the
    characters of an occurrence that was just replaced and are still to
    be passed over. *)
Fixpoint replace_skip (old new : string) (skip : nat) (s : string) : string :=
  match s with
  | EmptyString => EmptyString
  | String c s' =>
      match skip with
      | S k => replace_skip old new k s'
      | O =>
          if String.prefix old s
          then new ++ replace_skip old new (String.length old - 1) s'
          else String c (replace_skip old new O s')
      end
  end.

(** [s.replace("", new)] puts [new] before every character and at the end. *)
Fixpoint interleave (new s : string) : string :=
  match s with
  | EmptyString => new
  | String c s' => new ++ String c (interleave new s')
  end.

Definition replace (s old new : string) : string :=
  match old with
  | EmptyString => interleave new s
  | String _ _ => replace_skip old new O s
  end.

Definition lower_char (c : ascii) : ascii :=
  let n := nat_of_ascii c in
  if ((65 <=? n) && (n <=? 90))%nat then ascii_of_nat (n + 32) else c.

(** [s.lower()] on ASCII letters. *)
Fixpoint lower (s : string) : string :=
  match s with
  | EmptyString => EmptyString
  | String c s' => String (lower_char c) (lower s')
  end.

Definition digit (n : Z) : ascii := ascii_of_nat (48 + Z.to_nat (n mod 10)).

Fixpoint digits_fuel (fuel : nat) (n : Z) (acc : string) : string :=
  match fuel with
  | O => acc
  | S f =>
      let acc' := String (digit n) acc in
      if n <? 10 then acc' else digits_fuel f (n / 10) acc'
  end.

(** [str(z)] for an integer: a number has no more decimal digits than
    binary digits. *)
Definition of_Z (z : Z) : string :=
  let a := Z.abs z in
  let s := digits_fuel (S (Z.to_nat (Z.log2 a))) a EmptyString in
  if z <? 0 then "-" ++ s else s.

(** [str(n)] for a natural number. *)
Definition of_nat (n : nat) : string := of_Z (Z.of_nat n).

Fixpoint zeros (n : nat) : string :=
  match n with
  | O => EmptyString
  | S k => String "0" (zeros k)
  end.

(** A number printed on at least [w] digits, as [%02d] or [%04d] do. *)
Definition pad (w n : nat) : string :=
  let s := of_nat n in zeros (w - String.length s) ++ s.

End PyStr.

(* ================================================================== *)
(** * Floating-point numbers of integral value                         *)
(* ================================================================== *)

Module PyFloat.

(** [float(z)]: the binary64 number nearest to the integer [z], a tie
    going to the even significand of 53 binary digits; the result is
    the integer it holds.  (Integers of 2^1024 and more, which no
    floating-point number is near to, are not considered.) *)
Definition round_binary64 (z : Z) : Z :=
  let a := Z.abs z in
  let shift := Z.log2 a + 1 - 53 in
  if shift <=? 0 then z
  else
    let ulp := 2 ^ shift in
    let q := a / ulp in
    let r := a mod ulp in
    let half := ulp / 2 in
    let q := if r <? half then q
             else if half <? r then q + 1
             else if Z.even q then q else q + 1 in
    Z.sgn z * (q * ulp).

(** The number of decimal digits of a natural number. *)
Definition ndigits (a : Z) : Z := Z.of_nat (String.length (PyStr.of_Z a)).

(** [a], a number of [k] digits, cut to its first [n] digits: rounded
    down and rounded up. *)
Definition cut (a k n : Z) : Z * Z :=
  let s := 10 ^ (k - n) in
  ((a / s) * s, (a / s + 1) * s).

(** The decimal number of fewest digits that is read back as the
    floating-point number [a], and the nearest to [a] of those: 17 digits
    are always enough. *)
Fixpoint shortest_from (fuel : nat) (a k n : Z) : Z :=
  match fuel with
  | O => a
  | S f =>
      let '(lo, hi) := cut a k n in
      let ok_lo := round_binary64 lo =? a in
      let ok_hi := round_binary64 hi =? a in
      if ok_lo && ok_hi then (if a - lo <=? hi - a then lo else hi)
      else if ok_lo then lo
      else if ok_hi then hi
      else shortest_from f a k (n + 1)
  end.

Definition shortest (a : Z) : Z := shortest_from 17 a (ndigits a) 1.

Fixpoint strip_zeros_rev (s : list ascii) : list ascii :=
  match s with
  | "0"%char :: r => strip_zeros_rev r
  | _ => s
  end.

(** The digits of a number without its last zeros. *)
Definition strip_zeros (s : string) : string :=
  string_of_list_ascii (rev (strip_zeros_rev (rev (list_ascii_of_string s)))).

(** [repr(x)] for the floating-point number [x] of integral value [z]:
    the digits and [.0] below 1e16, and from there on the fewest digits
    that tell [x] from its neighbours, with the exponent of ten. *)
Definition repr (z : Z) : string :=
  let a := Z.abs z in
  let sign := if z <? 0 then "-" else "" in
  if a <? 10 ^ 16 then sign ++ PyStr.of_Z a ++ ".0"
  else
    let c := shortest a in
    let exponent := ndigits c - 1 in
    match strip_zeros (PyStr.of_Z c) with
    | EmptyString => sign ++ "0.0"
    | String d EmptyString => sign ++ String d ("e+" ++ PyStr.of_Z exponent)
    | String d rest => sign ++ String d ("." ++ rest ++ "e+" ++ PyStr.of_Z exponent)
    end.

End PyFloat.

(* ================================================================== *)
(** * Calendar dates and [strftime]                                   *)
(* ================================================================== *)

Record datetime := mk_datetime {
  year : nat; month : nat; day : nat;
  hour : nat; minute : nat; second : nat
}.

(** [d.strftime('%d/%m/%Y')] *)
Definition strftime_dmY (d : datetime) : string :=
  PyStr.pad 2 (day d) ++ "/" ++ PyStr.pad 2 (month d) ++ "/" ++ PyStr.pad 4 (year d).

(** [d.strftime("%Y%m%d")] *)
Definition strftime_Ymd (d : datetime) : string :=
  PyStr.pad 4 (year d) ++ PyStr.pad 2 (month d) ++ PyStr.pad 2 (day d).

(** [d.strftime("%Y%m%d_%H%M%S")] *)
Definition strftime_Ymd_HMS (d : datetime) : string :=
  strftime_Ymd d ++ "_" ++
  PyStr.pad 2 (hour d) ++ PyStr.pad 2 (minute d) ++ PyStr.pad 2 (second d).

(* ================================================================== *)
(** * File names of the exported documents ([export_filtered_pdfs])    *)
(* ================================================================== *)

Module Filename.

(** [str(filter_value).replace("/", "_").replace("\\", "_").replace(" ", "_")] *)
Definition safe_filter_value (filter_value : string) : string :=
  PyStr.replace (PyStr.replace (PyStr.replace filter_value "/" "_") "\" "_") " " "_".

(** The [replacements] dictionary, in its insertion order. *)
Definition replacements (filter_value table_id : string) (current_date : datetime)
  : list (string * string) :=
  [ ("{filter_value}", safe_filter_value filter_value);
    ("{timestamp}", strftime_Ymd_HMS current_date);
    ("{date}", strftime_Ymd current_date);
    ("{table_name}", table_id);
    ("{user}", "user") ].

(** [for old, new in replacements.items(): filename = filename.replace(old, new)] *)
Definition substitute (filename : string) (reps : list (string * string)) : string :=
  fold_left (fun f r => PyStr.replace f (fst r) (snd r)) reps filename.

(** The name of one group's file: the body of the loop over the groups,
    up to [filepath]. *)
Definition export_filename
    (filename_pattern filter_value table_id : string) (current_date : datetime)
  : string :=
  let filename :=
    substitute filename_pattern (replacements filter_value table_id current_date) in
  let filename := PyStr.replace (PyStr.replace filename "__" "_") "--" "-" in
  if PyStr.endswith filename ".pdf" then filename else filename ++ ".pdf".

End Filename.

(* ================================================================== *)
(** * Cell values                                                      *)
(* ================================================================== *)

(** The values a Grist cell holds once decoded from JSON and placed in a
    pandas frame.  [VNaN] is the missing value pandas puts where a record has
    no such key; [VInt z] is the Python integer [z]; [VFloat z] is the
    floating-point number of integral value [z], which is what an integer
    becomes in a column that also has missing values.  Floating-point
    numbers that have a fractional part are not represented, nor are the
    integers of numpy, which are no instances of [int]. *)
#[local] Unset Elimination Schemes.
Inductive value : Type :=
| VNone
| VNaN
| VBool (b : bool)
| VInt (z : Z)
| VFloat (z : Z)
| VStr (s : string)
| VList (l : list value).
#[local] Set Elimination Schemes.

Module PyVal.

(** [pd.isna(v)] on a scalar. *)
Definition isna (v : value) : bool :=
  match v with VNone | VNaN => true | _ => false end.

Definition is_list (v : value) : bool :=
  match v with VList _ => true | _ => false end.

(** The number a value stands for in a comparison, if it is one. *)
Definition num (v : value) : option Z :=
  match v with
  | VBool b => Some (if b then 1 else 0)
  | VInt z | VFloat z => Some z
  | _ => None
  end.

Definition hex_digit (n : nat) : ascii :=
  if (n <? 10)%nat then ascii_of_nat (48 + n) else ascii_of_nat (87 + n).

(** One character inside the quotes of [repr(s)]. *)
Definition repr_char (quote : ascii) (c : ascii) : string :=
  let n := nat_of_ascii c in
  if Ascii.eqb c "\" then "\\"
  else if Ascii.eqb c quote then String "\" (String c "")
  else if (n =? 10)%nat then "\n"
  else if (n =? 13)%nat then "\r"
  else if (n =? 9)%nat then "\t"
  else if ((n <? 32) || (n =? 127))%nat
       then "\x" ++ String (hex_digit (n / 16)) (String (hex_digit (n mod 16)) "")
  else String c "".

Fixpoint repr_chars (quote : ascii) (s : string) : string :=
  match s with
  | EmptyString => EmptyString
  | String c s' => repr_char quote c ++ repr_chars quote s'
  end.

(** The double quote. *)
Definition dquote : ascii := "034"%char.

(** [repr(s)]: double quotes when [s] has a single quote and no double
    quote, single quotes otherwise. *)
Definition repr_str (s : string) : string :=
  if PyStr.contains s "'" && negb (PyStr.contains s (String dquote EmptyString))
  then String dquote (repr_chars dquote s ++ String dquote EmptyString)
  else "'" ++ repr_chars "'" s ++ "'".

(** [repr(v)] *)
Fixpoint repr (v : value) : string :=
  match v with
  | VNone => "None"
  | VNaN => "nan"
  | VBool true => "True"
  | VBool false => "False"
  | VInt z => PyStr.of_Z z
  | VFloat z => PyFloat.repr z
  | VStr s => repr_str s
  | VList l =>
      "[" ++
      (fix items (l : list value) : string :=
         match l with
         | [] => ""
         | x :: r => repr x ++ match r with [] => "" | _ :: _ => ", " ++ items r end
         end) l
      ++ "]"
  end.

(** [str(v)] *)
Definition str (v : value) : string :=
  match v with
  | VStr s => s
  | _ => repr v
  end.

(** [a == b] between two values, neither of them missing. *)
Fixpoint eq (a b : value) : bool :=
  match a, b with
  | VStr s, VStr t => String.eqb s t
  | VList l, VList m =>
      (fix all2 (l m : list value) : bool :=
         match l, m with
         | [], [] => true
         | x :: l', y :: m' => eq x y && all2 l' m'
         | _, _ => false
         end) l m
  | VNone, VNone => true
  | _, _ =>
      match num a, num b with
      | Some x, Some y => x =? y
      | _, _ => false
      end
  end.

End PyVal.

(* ================================================================== *)
(** * Instants                                                         *)
(* ================================================================== *)

Module Instant.

(** The calendar date of a day counted from 1970-01-01, in the proleptic
    Gregorian calendar. *)
Definition civil_from_days (days : Z) : Z * Z * Z :=
  let z := days + 719468 in
  let era := z / 146097 in
  let doe := z - era * 146097 in
  let yoe := (doe - doe / 1460 + doe / 36524 - doe / 146096) / 365 in
  let doy := doe - (365 * yoe + yoe / 4 - yoe / 100) in
  let mp := (5 * doy + 2) / 153 in
  let d := doy - (153 * mp + 2) / 5 + 1 in
  let m := if mp <? 10 then mp + 3 else mp - 9 in
  let y := yoe + era * 400 + (if m <=? 2 then 1 else 0) in
  (y, m, d).

(** The instant [secs] seconds after the epoch, in UTC. *)
Definition of_seconds (secs : Z) : datetime :=
  let '(y, m, d) := civil_from_days (secs / 86400) in
  let r := secs mod 86400 in
  mk_datetime (Z.to_nat y) (Z.to_nat m) (Z.to_nat d)
              (Z.to_nat (r / 3600)) (Z.to_nat ((r mod 3600) / 60)) (Z.to_nat (r mod 60)).

(** pandas keeps an instant as a signed 64-bit count of nanoseconds: the
    seconds it can hold. *)
Definition in_bounds (secs : Z) : bool :=
  (-9223372036 <=? secs) && (secs <=? 9223372036).

(** [ts.date()] as a triple that compares like the date. *)
Definition date (d : datetime) : nat * nat * nat := (year d, month d, day d).

Definition date_eqb (a b : nat * nat * nat) : bool :=
  let '(y1, m1, d1) := a in
  let '(y2, m2, d2) := b in
  ((y1 =? y2) && (m1 =? m2) && (d1 =? d2))%nat.

Definition date_ltb (a b : nat * nat * nat) : bool :=
  let '(y1, m1, d1) := a in
  let '(y2, m2, d2) := b in
  ((y1 <? y2) || ((y1 =? y2) && ((m1 <? m2) || ((m1 =? m2) && (d1 <? d2)))))%nat.

End Instant.

(* ================================================================== *)
(** * Exceptions, frames and the library interface                     *)
(* ================================================================== *)

(** The exception classes the program tells apart: [except (ValueError,
    TypeError)] catches the first two, [except Exception] and a bare
    [except] catch all three. *)
Inductive exn : Type := ValueError | TypeError | OtherError.

Inductive result (A : Type) : Type :=
| Ok (a : A)
| Raise (e : exn).
Arguments Ok {A} a.
Arguments Raise {A} e.

Definition bind {A B : Type} (r : result A) (k : A -> result B) : result B :=
  match r with
  | Ok a => k a
  | Raise e => Raise e
  end.

Notation "x <- r ;; k" := (bind r (fun x => k))
  (at level 61, r at next level, right associativity).

(** Runs [f] on every element, stopping at the first exception. *)
Fixpoint mapM {A B : Type} (f : A -> result B) (l : list A) : result (list B) :=
  match l with
  | [] => Ok []
  | x :: r => y <- f x ;; ys <- mapM f r ;; Ok (y :: ys)
  end.

(** A Python dictionary with string keys, in insertion order. *)
Definition dict (A : Type) : Type := list (string * A).

Fixpoint get {A : Type} (d : dict A) (k : string) : option A :=
  match d with
  | [] => None
  | (k', v) :: r => if String.eqb k' k then Some v else get r k
  end.

(** [x in l] for strings. *)
Definition mem (x : string) (l : list string) : bool :=
  existsb (String.eqb x) l.

(** A pandas frame: the column labels in order, and the rows in order, each
    with its index label. *)
Record DataFrame : Type := mk_frame {
  columns : list string;
  rows : list (nat * dict value)
}.

(** [row[col]]: a cell the row has no value for is missing. *)
Definition cell (row : dict value) (col : string) : value :=
  match get row col with
  | Some v => v
  | None => VNaN
  end.

(** [df[col]]: the cells of one column, in row order. *)
Definition series (df : DataFrame) (col : string) : list value :=
  map (fun r => cell (snd r) col) (rows df).

(** [df.empty] *)
Definition empty (df : DataFrame) : bool :=
  match rows df, columns df with
  | [], _ | _, [] => true
  | _, _ => false
  end.

(** The elements of [l] at the positions where [mask] holds. *)
Fixpoint select {A : Type} (l : list A) (mask : list bool) : list A :=
  match l, mask with
  | x :: l', b :: mask' => if b then x :: select l' mask' else select l' mask'
  | _, _ => []
  end.

(** [df[mask]] for a boolean series [mask] over the rows of [df]. *)
Definition loc_mask (df : DataFrame) (mask : list bool) : DataFrame :=
  mk_frame (columns df) (select (rows df) mask).

(** [pd.Series([True] * len(df), index=df.index)] *)
Definition all_true (df : DataFrame) : list bool :=
  map (fun _ => true) (rows df).

(** [a | b] on two boolean series over the same index. *)
Fixpoint mask_or (a b : list bool) : list bool :=
  match a, b with
  | x :: a', y :: b' => (x || y) :: mask_or a' b'
  | _, _ => []
  end.

(** A floating-point number that is not NaN: the rational number it is,
    or an infinity. *)
Inductive number : Type :=
| Finite (q : Q)
| Infinity (negative : bool).

Definition Qltb (x y : Q) : bool := negb (Qle_bool y x).

(** [a < b] on numbers. *)
Definition number_ltb (a b : number) : bool :=
  match a, b with
  | Finite x, Finite y => Qltb x y
  | Finite _, Infinity negative => negb negative
  | Infinity negative, Finite _ => negative
  | Infinity n1, Infinity n2 => n1 && negb n2
  end.

(** What the program asks of pandas, dateutil and [re] and this development
    does not define: the parsers of text, and the conversions of cells that
    are neither numbers nor missing.  Every statement below holds for all
    behaviours of these operations, unless it names an instance.

    An instant that is absent ([None]) stands for the parse raising, and for
    the missing instant [NaT], whose [date()] and [strftime()] raise. *)
Record Pandas : Type := {
  (** [re.compile(pat, re.IGNORECASE).search]; [None] when [pat] is not a
      regular expression *)
  re_compile_icase : string -> option (string -> bool);
  (** [pd.to_datetime(s, format=fmt)] *)
  to_datetime_format : string -> string -> option datetime;
  (** [pd.to_datetime(s, dayfirst=True)] *)
  to_datetime_dayfirst : string -> option datetime;
  (** [pd.to_datetime(v)] on one value that is neither a number, nor
      missing, nor a list *)
  to_datetime_scalar : value -> option datetime;
  (** [format_date_value] on a list other than a list of two scalars or
      more: the text it returns, or the exception it raises *)
  format_date_list : list value -> result string;
  (** [pd.to_datetime(series, unit='s', errors='coerce')] on a series with a
      cell that is neither a number nor missing *)
  to_datetime_unit_s_object : list value -> result (list (option datetime));
  (** [pd.to_datetime(series, errors='coerce')] *)
  to_datetime_coerce : list value -> result (list (option datetime));
  (** [float(s)]: [None] is [ValueError], [Some None] is NaN *)
  py_float : string -> option (option number);
  (** the number [pd.to_numeric(..., errors='coerce')] reads in a text cell;
      [None] is NaN *)
  to_numeric_str : string -> option number;
  (** what comparing a list cell with a number comes to after
      [pd.to_numeric(..., errors='coerce')] *)
  to_numeric_list : list value -> result (option number);
  (** a converted series has one instant, or the missing instant, per cell *)
  to_datetime_unit_s_object_length :
    forall series converted,
      to_datetime_unit_s_object series = Ok converted ->
      List.length converted = List.length series;
  to_datetime_coerce_length :
    forall series converted,
      to_datetime_coerce series = Ok converted ->
      List.length converted = List.length series
}.

(** The client's view of the document: for a table, the dictionary
    [get_table_columns_with_types] returns (column to type), or the
    exception of the request. *)
Record GristClient : Type := {
  get_table_columns_with_types : string -> result (dict string)
}.

(** [GristClient.is_date_column] *)
Definition is_date_column (client : GristClient) (table_id column_name : string)
  : result bool :=
  column_types <- get_table_columns_with_types client table_id ;;
  let col_type :=
    match get column_types column_name with
    | Some t => t
    | None => "Text"
    end in
  Ok (mem col_type ["Date"; "DateTime"]).

(** [is_date_column = False; if table_id: is_date_column =
    self.is_date_column(table_id, column)] *)
Definition date_column_test (client : GristClient) (table_id : option string)
    (column : string) : result bool :=
  match table_id with
  | None | Some EmptyString => Ok false
  | Some t => is_date_column client t column
  end.

(* ================================================================== *)
(** * The filter evaluator ([grist_client.py])                          *)
(* ================================================================== *)

(** One cell under [pd.to_datetime(series, unit='s', errors='coerce')]: a
    number is a count of seconds, and an instant pandas cannot hold
    becomes the missing instant. *)
Definition timestamp_cell (v : value) : option datetime :=
  match v with
  | VInt z | VFloat z =>
      if Instant.in_bounds z then Some (Instant.of_seconds z) else None
  | _ => None
  end.

Definition numeric_or_missing (v : value) : bool :=
  match v with
  | VInt _ | VFloat _ | VNone | VNaN => true
  | _ => false
  end.

(** [pd.to_datetime(series, unit='s', errors='coerce')] *)
Definition to_datetime_unit_s (lib : Pandas) (series : list value)
  : result (list (option datetime)) :=
  if forallb numeric_or_missing series
  then Ok (map timestamp_cell series)
  else to_datetime_unit_s_object lib series.

(** [GristClient._convert_timestamp_to_datetime] *)
Definition _convert_timestamp_to_datetime (lib : Pandas) (series : list value)
  : result (list (option datetime)) :=
  match to_datetime_unit_s lib series with
  | Ok converted => Ok converted
  | Raise _ => to_datetime_coerce lib series
  end.

Definition formats : list string :=
  ["%d/%m/%Y"; "%d-%m-%Y"; "%Y-%m-%d"; "%d/%m/%y"; "%d.%m.%Y"].

(** The loop of [_parse_date_filter] over the formats: the first that parses. *)
Fixpoint first_format (lib : Pandas) (date_string : string) (fmts : list string)
  : option datetime :=
  match fmts with
  | [] => None
  | fmt :: rest =>
      match to_datetime_format lib date_string fmt with
      | Some parsed => Some parsed
      | None => first_format lib date_string rest
      end
  end.

(** [GristClient._parse_date_filter] *)
Definition _parse_date_filter (lib : Pandas) (date_string : string) : result datetime :=
  match first_format lib date_string formats with
  | Some parsed => Ok parsed
  | None =>
      match to_datetime_dayfirst lib date_string with
      | Some parsed => Ok parsed
      | None => Raise ValueError
      end
  end.

(** [date_col.dt.date <op> filter_date.date()] on one cell: a missing
    instant is different from every date and neither before nor after it. *)
Definition date_cell (op : nat * nat * nat -> nat * nat * nat -> bool) (missing : bool)
    (filter_date : datetime) (c : option datetime) : bool :=
  match c with
  | Some d => op (Instant.date d) (Instant.date filter_date)
  | None => missing
  end.

(** The branch of [_create_filter_mask] for a date column, from the inner
    [try] on. *)
Definition date_filter_mask (lib : Pandas) (df : DataFrame)
    (date_col : list (option datetime)) (operator value : string) : list bool :=
  match _parse_date_filter lib value with
  | Ok filter_date =>
      if String.eqb operator "equals" then
        map (date_cell Instant.date_eqb false filter_date) date_col
      else if String.eqb operator "not_equals" then
        map (date_cell (fun a b => negb (Instant.date_eqb a b)) true filter_date) date_col
      else if String.eqb operator "greater_than" then
        map (date_cell (fun a b => Instant.date_ltb b a) false filter_date) date_col
      else if String.eqb operator "less_than" then
        map (date_cell Instant.date_ltb false filter_date) date_col
      else all_true df
  | Raise _ => all_true df
  end.

(** One cell under [pd.to_numeric(..., errors='coerce')], as the
    comparison with the floating-point bound reads it; [None] is NaN.  An
    integer is compared as the floating-point number nearest to it, which
    is the integer itself up to 2^53. *)
Definition to_numeric_cell (lib : Pandas) (v : value) : result (option number) :=
  match v with
  | VNone | VNaN => Ok None
  | VBool b => Ok (Some (Finite (if b then 1%Q else 0%Q)))
  | VInt z | VFloat z => Ok (Some (Finite (inject_Z (PyFloat.round_binary64 z))))
  | VStr s => Ok (to_numeric_str lib s)
  | VList l => to_numeric_list lib l
  end.

(** [(numeric_col <op> bound).fillna(False)] on one cell: a comparison
    with NaN does not hold. *)
Definition numeric_cell (op : number -> number -> bool) (bound : option number)
    (c : option number) : bool :=
  match c, bound with
  | Some x, Some b => op x b
  | _, _ => false
  end.

(** The [try] of the [greater_than] and [less_than] branches. *)
Definition numeric_filter_try (lib : Pandas) (op : number -> number -> bool)
    (col : list value) (value : string) : result (list bool) :=
  numeric_col <- mapM (to_numeric_cell lib) col ;;
  match py_float lib value with
  | Some bound => Ok (map (numeric_cell op bound) numeric_col)
  | None => Raise ValueError
  end.

(** The [try ... except (ValueError, TypeError)] of these branches. *)
Definition numeric_filter_mask (lib : Pandas) (op : number -> number -> bool)
    (df : DataFrame) (column value : string) : result (list bool) :=
  match numeric_filter_try lib op (series df column) value with
  | Ok mask => Ok mask
  | Raise ValueError | Raise TypeError => Ok (all_true df)
  | Raise OtherError => Raise OtherError
  end.

(** [df[column].astype(str)] *)
Definition astype_str (df : DataFrame) (column : string) : list string :=
  map PyVal.str (series df column).

(** [GristClient._create_filter_mask] *)
Definition _create_filter_mask (lib : Pandas) (client : GristClient)
    (df : DataFrame) (column operator value : string) (table_id : option string)
  : result (list bool) :=
  is_date <- date_column_test client table_id column ;;
  if is_date : bool then
    date_col <- _convert_timestamp_to_datetime lib (series df column) ;;
    Ok (date_filter_mask lib df date_col operator value)
  else if String.eqb operator "equals" then
    Ok (map (fun s => String.eqb s value) (astype_str df column))
  else if String.eqb operator "contains" then
    match re_compile_icase lib value with
    | Some search => Ok (map search (astype_str df column))
    | None => Raise OtherError
    end
  else if String.eqb operator "starts_with" then
    Ok (map (fun s => PyStr.startswith s value) (astype_str df column))
  else if String.eqb operator "ends_with" then
    Ok (map (fun s => PyStr.endswith s value) (astype_str df column))
  else if String.eqb operator "not_equals" then
    Ok (map (fun s => negb (String.eqb s value)) (astype_str df column))
  else if String.eqb operator "greater_than" then
    numeric_filter_mask lib (fun x bound => number_ltb bound x) df column value
  else if String.eqb operator "less_than" then
    numeric_filter_mask lib number_ltb df column value
  else Ok (all_true df).

(** One filter of the payload: a dictionary whose keys ['column'],
    ['operator'] and ['value'] may be absent. *)
Record filter_config : Type := mk_filter {
  f_column : option string;
  f_operator : option string;
  f_value : option string
}.

(** The two shapes of the payload: a bare list of filters, or a dictionary
    whose keys ['mode'] and ['filters'] may be absent. *)
Inductive filters_payload : Type :=
| Legacy (filters : list filter_config)
| Payload (mode : option string) (filters : option (list filter_config)).

(** [not s] for an optional string: absent or empty. *)
Definition falsy (s : option string) : bool :=
  match s with
  | None | Some EmptyString => true
  | Some _ => false
  end.

(** [not column or not operator or value is None or value == ''] *)
Definition incomplete (f : filter_config) : bool :=
  falsy (f_column f) || falsy (f_operator f) || falsy (f_value f).

Definition text (s : option string) : string :=
  match s with
  | Some t => t
  | None => EmptyString
  end.

(** The mask of one filter over [df], when the filter is complete and its
    column is one of [df]; [None] when the loop passes over the filter
    ([continue]), be it incomplete, on an unknown column, or raising. *)
Definition filter_mask (lib : Pandas) (client : GristClient) (df : DataFrame)
    (table_id : option string) (f : filter_config) : option (list bool) :=
  if incomplete f then None
  else if negb (mem (text (f_column f)) (columns df)) then None
  else
    match _create_filter_mask lib client df (text (f_column f)) (text (f_operator f))
                              (text (f_value f)) table_id with
    | Ok mask => Some mask
    | Raise _ => None
    end.

(** The loop of the AND mode: each filter narrows the frame the next one
    is evaluated on. *)
Fixpoint and_loop (lib : Pandas) (client : GristClient) (table_id : option string)
    (filters : list filter_config) (filtered_df : DataFrame) : DataFrame :=
  match filters with
  | [] => filtered_df
  | f :: rest =>
      match filter_mask lib client filtered_df table_id f with
      | Some mask => and_loop lib client table_id rest (loc_mask filtered_df mask)
      | None => and_loop lib client table_id rest filtered_df
      end
  end.

(** The loop of the OR mode: [all_masks], every mask taken on [df]. *)
Fixpoint or_loop (lib : Pandas) (client : GristClient) (table_id : option string)
    (df : DataFrame) (filters : list filter_config) : list (list bool) :=
  match filters with
  | [] => []
  | f :: rest =>
      match filter_mask lib client df table_id f with
      | Some mask => mask :: or_loop lib client table_id df rest
      | None => or_loop lib client table_id df rest
      end
  end.

(** [apply_advanced_filters]; the fuel bounds the depth of its calls to
    itself. *)
Fixpoint apply_advanced_filters_fuel (fuel : nat) (lib : Pandas) (client : GristClient)
    (df : DataFrame) (filters_data : filters_payload) (table_id : option string)
  : option DataFrame :=
  match fuel with
  | O => None
  | S fuel' =>
      let no_data :=
        match filters_data with
        | Legacy [] | Payload None None => true
        | _ => false
        end in
      if no_data || empty df then Some df
      else
        let '(mode, filters) :=
          match filters_data with
          | Payload mode filters =>
              (match mode with Some m => m | None => "and" end,
               match filters with Some l => l | None => [] end)
          | Legacy filters => ("and", filters)
          end in
        match filters with
        | [] => Some df
        | _ :: _ =>
            if String.eqb mode "and" then
              Some (and_loop lib client table_id filters df)
            else if String.eqb mode "or" then
              match or_loop lib client table_id df filters with
              | [] => Some df
              | first :: others =>
                  let combined_mask := fold_left mask_or others first in
                  Some (loc_mask df combined_mask)
              end
            else
              apply_advanced_filters_fuel fuel' lib client df
                (Payload (Some "and") (Some filters)) table_id
        end
  end.

(** [GristClient.apply_advanced_filters]: two levels of calls are all the
    program ever makes (see [apply_advanced_filters_fuel_enough]). *)
Definition apply_advanced_filters := apply_advanced_filters_fuel 2.

(* ================================================================== *)
(** * The grouping engine ([filter_data_by_column])                     *)
(* ================================================================== *)

(** A record as the API returns it, with its identifier and its fields, or
    a bare dictionary of fields. *)
Inductive record : Type :=
| Wrapped (id : Z) (fields : dict value)
| Bare (fields : dict value).

(** [record["fields"] if "fields" in record else record] *)
Definition fields_of (r : record) : dict value :=
  match r with
  | Wrapped _ fields => fields
  | Bare fields => fields
  end.

(** The keys of the dictionaries, each once, in the order they first appear. *)
Fixpoint keys_from (seen : list string) (ks : list string) : list string :=
  match ks with
  | [] => []
  | k :: r => if mem k seen then keys_from seen r else k :: keys_from (k :: seen) r
  end.

Definition is_float (v : value) : bool :=
  match v with VFloat _ => true | _ => false end.

Definition is_int (v : value) : bool :=
  match v with VInt _ => true | _ => false end.

Definition is_none (v : value) : bool :=
  match v with VNone => true | _ => false end.

Definition is_nan (v : value) : bool :=
  match v with VNaN => true | _ => false end.

(** The integers pandas checks the range of while it reads a column: those
    it meets before the first [None]. *)
Fixpoint ints_before_none (cells : list value) : list Z :=
  match cells with
  | [] => []
  | VNone :: _ => []
  | VInt z :: r => z :: ints_before_none r
  | _ :: r => ints_before_none r
  end.

(** Integers that no one 64-bit type holds: one is out of the range from
    -2^63 to 2^64 - 1, or one is negative and another is 2^63 or more. *)
Definition beyond_64_bits (zs : list Z) : bool :=
  existsb (fun z => (z <? - 2 ^ 63) || (2 ^ 64 <=? z)) zs
  || (existsb (fun z => 2 ^ 63 <=? z) zs && existsb (fun z => z <? 0) zs).

(** The type pandas gives a column of a new frame.  A column of integers,
    floating-point numbers and missing values that has a floating-point
    number, a NaN, or an integer and a [None], is a column of
    floating-point numbers: each integer becomes the floating-point number
    nearest to it and each [None] becomes NaN.  Every other column keeps
    its values, and so does a column whose integers, met before the first
    [None], go beyond 64 bits. *)
Definition infer_column (cells : list value) : list value :=
  if forallb numeric_or_missing cells
     && (existsb is_float cells || existsb is_nan cells
         || (existsb is_int cells && existsb is_none cells))
     && negb (beyond_64_bits (ints_before_none cells))
  then map (fun v => match v with
                     | VInt z => VFloat (PyFloat.round_binary64 z)
                     | VNone => VNaN
                     | _ => v
                     end) cells
  else cells.

(** The cell at position [i] of each column, as the row's dictionary. *)
Definition row_of_columns (cols : list (string * list value)) (i : nat) : dict value :=
  map (fun c => (fst c, nth i (snd c) VNaN)) cols.

(** [pd.DataFrame(list_of_dicts)]: one row per dictionary, indexed from 0;
    one column per key. *)
Definition frame_of_dicts (dicts : list (dict value)) : DataFrame :=
  let cols := keys_from [] (flat_map (map fst) dicts) in
  let typed := map (fun c => (c, infer_column (map (fun d => cell d c) dicts))) cols in
  mk_frame cols (map (fun i => (i, row_of_columns typed i)) (seq 0 (List.length dicts))).

(** [series.dropna().unique()]: the values that are not missing, each once,
    in the order they first appear; values are the same when they are
    equal. *)
Fixpoint unique_from (seen : list value) (l : list value) : list value :=
  match l with
  | [] => []
  | x :: r =>
      if PyVal.isna x then unique_from seen r
      else if existsb (PyVal.eq x) seen then unique_from seen r
      else x :: unique_from (x :: seen) r
  end.

(** A list cannot be hashed: [unique()] raises on a column that has one. *)
Definition dropna_unique (l : list value) : result (list value) :=
  if existsb PyVal.is_list l then Raise TypeError else Ok (unique_from [] l).

(** [df[col] == value] on one cell. *)
Definition cell_eq (value c : value) : bool :=
  if PyVal.isna c then false else PyVal.eq c value.

(** [df[cols]]: the frame restricted to the columns [cols], in that order. *)
Definition loc_columns (df : DataFrame) (cols : list string) : DataFrame :=
  mk_frame cols (map (fun r => (fst r, map (fun c => (c, cell (snd r) c)) cols)) (rows df)).

(** [if selected_columns: group_df = group_df[[col for col in
    selected_columns if col in group_df.columns]]] *)
Definition keep_selected (group_df : DataFrame) (selected_columns : list string)
  : DataFrame :=
  match selected_columns with
  | [] => group_df
  | _ :: _ =>
      loc_columns group_df (filter (fun col => mem col (columns group_df)) selected_columns)
  end.

(** [df[name] = cells]: the column is replaced in place, or added last. *)
Fixpoint set_key (d : dict value) (k : string) (v : value) : dict value :=
  match d with
  | [] => [(k, v)]
  | (k', v') :: r => if String.eqb k' k then (k, v) :: r else (k', v') :: set_key r k v
  end.

Fixpoint set_cells (rs : list (nat * dict value)) (k : string) (cells : list value)
  : list (nat * dict value) :=
  match rs, cells with
  | (i, d) :: rs', c :: cells' => (i, set_key d k c) :: set_cells rs' k cells'
  | _, _ => rs
  end.

Definition assign (df : DataFrame) (name : string) (cells : list value) : DataFrame :=
  mk_frame (if mem name (columns df) then columns df else columns df ++ [name])
           (set_cells (rows df) name cells).

(** [df.drop(columns=names)]; a name that is no column raises [KeyError]. *)
Definition drop_columns (df : DataFrame) (names : list string) : result DataFrame :=
  if forallb (fun n => mem n (columns df)) names
  then Ok (loc_columns df (filter (fun c => negb (mem c names)) (columns df)))
  else Raise OtherError.

(** The groups of the rows of [df] on the column [key_column], one per value
    of [values]: the loop body shared by the two branches, up to the
    selection of the columns. *)
Definition group_of (df : DataFrame) (key_column : string)
    (selected_columns : list string) (value : value) : DataFrame :=
  keep_selected (loc_mask df (map (cell_eq value) (series df key_column)))
                selected_columns.

(** [GristClient.filter_data_by_column] *)
Definition filter_data_by_column (lib : Pandas) (client : GristClient)
    (data : list record) (filter_column : string) (selected_columns : list string)
    (table_id : option string) : result (list (string * DataFrame)) :=
  let df := frame_of_dicts (map fields_of data) in
  if negb (mem filter_column (columns df)) then Raise ValueError
  else
    is_date_col <- date_column_test client table_id filter_column ;;
    if is_date_col : bool then
      date_temp <- _convert_timestamp_to_datetime lib (series df filter_column) ;;
      (* the instants of [_date_temp] are never read back: its cells stand
         for them *)
      let df := assign df "_date_temp" (map (fun _ => VNaN) date_temp) in
      let df := assign df "_date_formatted"
                  (map (fun c => match c with
                                 | Some d => VStr (strftime_dmY d)
                                 | None => VNaN
                                 end) date_temp) in
      values <- dropna_unique (series df "_date_formatted") ;;
      mapM (fun date_value =>
              let group_df := group_of df "_date_formatted" selected_columns date_value in
              group_df <-
                (if mem "_date_temp" (columns group_df)
                 then drop_columns group_df ["_date_temp"; "_date_formatted"]
                 else Ok group_df) ;;
              Ok (PyVal.str date_value, group_df))
           values
    else
      values <- dropna_unique (series df filter_column) ;;
      Ok (map (fun value =>
                 (PyVal.str value, group_of df filter_column selected_columns value))
              values).

(* ================================================================== *)
(** * The date formatter ([PDFGenerator.format_date_value])             *)
(* ================================================================== *)

(** [pd.to_datetime(z, unit='s')]: raises out of the bounds of an instant. *)
Definition to_datetime_seconds (z : Z) : option datetime :=
  if Instant.in_bounds z then Some (Instant.of_seconds z) else None.

(** [pd.to_datetime(z)] on a number: a count of nanoseconds, within 64
    bits; the least 64-bit integer stands for the missing instant. *)
Definition to_datetime_nanoseconds (z : Z) : option datetime :=
  if (- 2 ^ 63 <? z) && (z <? 2 ^ 63)
  then Some (Instant.of_seconds (z / 1000000000))
  else None.

(** [pd.to_datetime(value)] *)
Definition to_datetime (lib : Pandas) (value : value) : option datetime :=
  match value with
  | VInt z | VFloat z => to_datetime_nanoseconds z
  | _ => to_datetime_scalar lib value
  end.

(** The number [value] is when it lies strictly between the two bounds of
    the formatter: [isinstance(value, (int, float))] and
    [1000000000 < value < 10000000000]. *)
Definition plausible_seconds (value : value) : option Z :=
  match PyVal.num value with
  | Some z => if (1000000000 <? z) && (z <? 10000000000) then Some z else None
  | None => None
  end.

(** The body of the [try]: the instant read in [value], if any. *)
Definition date_obj (lib : Pandas) (value : value) : option datetime :=
  match plausible_seconds value with
  | Some z => to_datetime_seconds z
  | None => to_datetime lib value
  end.

(** [PDFGenerator.format_date_value].  On a list [pd.isna] answers with an
    array, one answer per element, and the [if] raises on an array of two
    elements or more. *)
Definition format_date_value (lib : Pandas) (value : value) : result string :=
  match value with
  | VList l =>
      if (2 <=? List.length l)%nat && forallb (fun x => negb (PyVal.is_list x)) l
      then Raise ValueError
      else format_date_list lib l
  | _ =>
      if PyVal.isna value then Ok ""
      else
        match date_obj lib value with
        | Some d => Ok (strftime_dmY d)
        | None => Ok (PyVal.str value)
        end
  end.

(* ================================================================== *)
(** * The record a document is attached to ([upload_pdfs_to_grist])     *)
(* ================================================================== *)

(** [record.get('fields', {}).get(filter_column)] *)
Definition field_value (r : record) (filter_column : string) : value :=
  match r with
  | Wrapped _ fields =>
      match get fields filter_column with
      | Some v => v
      | None => VNone
      end
  | Bare _ => VNone
  end.

(** [str(converted_date.dt.strftime('%d/%m/%Y').iloc[0])]: the missing
    instant formats to NaN. *)
Definition formatted_date (c : option datetime) : string :=
  match c with
  | Some d => strftime_dmY d
  | None => "nan"
  end.

(** The comparison of one record with the group key: the body of the loop
    over [all_records]. *)
Definition record_matches (lib : Pandas) (is_date_column : bool)
    (filter_column filter_value : string) (r : record) : bool :=
  let field_value := field_value r filter_column in
  if is_date_column then
    match _convert_timestamp_to_datetime lib [field_value] with
    | Ok (c :: _) => String.eqb (formatted_date c) filter_value
    | Ok [] | Raise _ => String.eqb (PyVal.str field_value) filter_value
    end
  else String.eqb (PyVal.str field_value) filter_value.

(** [target_record]: the loop over [all_records], left at the first match. *)
Fixpoint target_record (lib : Pandas) (is_date_column : bool)
    (filter_column filter_value : string) (all_records : list record)
  : option record :=
  match all_records with
  | [] => None
  | r :: rest =>
      if record_matches lib is_date_column filter_column filter_value r
      then Some r
      else target_record lib is_date_column filter_column filter_value rest
  end.

(* ================================================================== *)
(** * The widths of the columns of the table ([create_pdf])             *)
(* ================================================================== *)

(** The numbers the widths are computed with, and their operations.  The
    program computes with binary floating-point numbers ([binary64]
    below); the same computation is also read with rational numbers
    ([exact]). *)
Record arithmetic : Type := {
  num : Type;
  of_int : Z -> num;
  (** the number written [m / 10^k] in decimal digits, as [0.15] is *)
  decimal_lit : Z -> nat -> num;
  add : num -> num -> num;
  sub : num -> num -> num;
  mul : num -> num -> num;
  div : num -> num -> num;
  ltb : num -> num -> bool;
  eqb : num -> num -> bool
}.

(** [len(s)]: the characters of a text, one per byte that does not
    continue the encoding of a character. *)
Fixpoint py_len (s : string) : Z :=
  match s with
  | EmptyString => 0
  | String c s' =>
      let n := nat_of_ascii c in
      (if ((128 <=? n) && (n <? 192))%nat then 0 else 1) + py_len s'
  end.

Section Widths.

Variable A : arithmetic.

Notation "x + y" := (add A x y).
Notation "x - y" := (sub A x y).
Notation "x * y" := (mul A x y).
Notation "x / y" := (div A x y).

(** [max(a, b)] and [min(a, b)]: the first argument unless the second is
    strictly beyond it. *)
Definition py_max (a b : num A) : num A := if ltb A a b then b else a.
Definition py_min (a b : num A) : num A := if ltb A b a then b else a.

(** [reportlab.lib.units] and [reportlab.lib.pagesizes] *)
Definition inch : num A := of_int A 72.
Definition cm : num A := inch / decimal_lit A 254 2.
Definition mm : num A := cm * decimal_lit A 1 1.
Definition A4 : num A * num A := (of_int A 210 * mm, of_int A 297 * mm).

Definition landscape (pagesize : num A * num A) : num A * num A :=
  let '(a, b) := pagesize in
  if ltb A a b then (b, a) else (a, b).

Definition page_size : num A * num A := landscape A4.

(** [available_width = page_size[0] - 2*cm] *)
Definition available_width : num A := fst page_size - of_int A 2 * cm.

(** [sum(col_widths)], added from the left, from 0. *)
Definition py_sum (l : list (num A)) : num A := fold_left (add A) l (of_int A 0).

(** [max_content_length] of one column; [date_columns] is what
    [detect_date_columns] answered. *)
Definition max_content_length (data : DataFrame) (date_columns : list string)
    (col : string) : Z :=
  if mem col (columns data) then
    if mem col date_columns then 12
    else fold_left Z.max (map py_len (astype_str data col)) (py_len col)
  else py_len col.

(** The width of one column before the widths are rescaled. *)
Definition width (base_col_width : num A) (max_content_length : Z) : num A :=
  py_min (py_max (base_col_width * decimal_lit A 6 1)
                 (of_int A max_content_length * decimal_lit A 15 2 * cm))
         (base_col_width * decimal_lit A 15 1).

(** The widths of [create_pdf], from [if not data.empty] to the rescaling;
    dividing by the number of columns raises when there is none. *)
Definition col_widths (data : DataFrame) (columns : list string)
    (date_columns : list string) : result (list (num A)) :=
  match columns with
  | [] => Raise OtherError
  | _ :: _ =>
      let num_columns := Z.of_nat (List.length columns) in
      let base_col_width := available_width / of_int A num_columns in
      let col_widths :=
        map (fun col => width base_col_width (max_content_length data date_columns col))
            columns in
      let total_width := py_sum col_widths in
      if negb (eqb A total_width available_width) then
        let scale := available_width / total_width in
        Ok (map (fun w => w * scale) col_widths)
      else Ok col_widths
  end.

End Widths.


(** Rational numbers. *)
Definition exact : arithmetic :=
  {| num := Q;
     of_int := inject_Z;
     decimal_lit := fun m k => Qmake m (Pos.of_nat (Nat.pow 10 k));
     add := Qplus;
     sub := Qminus;
     mul := Qmult;
     div := Qdiv;
     ltb := Qltb;
     eqb := Qeq_bool |}.

(* ================================================================== *)
(** * The terms of the statements                                      *)
(* ================================================================== *)

(** ** Of the filter evaluator *)

(** What [apply_advanced_filters] comes to for a mode and a list of filters
    (see [apply_advanced_filters_payload]): the frame itself when it is
    empty, the union of the masks in the OR mode, and the sequence of
    selections in every other mode. *)
Definition evaluate (lib : Pandas) (client : GristClient) (df : DataFrame)
    (table_id : option string) (mode : string) (filters : list filter_config)
  : DataFrame :=
  if empty df then df
  else if String.eqb mode "or" then
    match or_loop lib client table_id df filters with
    | [] => df
    | first :: others => loc_mask df (fold_left mask_or others first)
    end
  else and_loop lib client table_id filters df.

(** The index labels of a frame. *)
Definition index (df : DataFrame) : list nat := map fst (rows df).

(** [i in df.index] *)
Definition in_index (i : nat) (df : DataFrame) : bool :=
  existsb (Nat.eqb i) (index df).

(** The same, on the rows of a frame. *)
Definition label_in (i : nat) (l : list (nat * dict value)) : bool :=
  existsb (Nat.eqb i) (map fst l).

(** A filter resolves on [df] when the loop takes its mask: it is complete,
    its column is one of [df], and building its mask raises nothing. *)
Definition resolves (lib : Pandas) (client : GristClient) (df : DataFrame)
    (table_id : option string) (f : filter_config) : bool :=
  match filter_mask lib client df table_id f with
  | Some _ => true
  | None => false
  end.

(** The match set of one filter: the rows of [df] that the mask built for
    the filter on [df], by [_create_filter_mask], holds for; building the
    mask is all that is done with the filter, and when it raises the
    filter matches no row. *)
Definition match_set (lib : Pandas) (client : GristClient) (df : DataFrame)
    (table_id : option string) (f : filter_config) : list (nat * dict value) :=
  match _create_filter_mask lib client df (text (f_column f)) (text (f_operator f))
                            (text (f_value f)) table_id with
  | Ok mask => select (rows df) mask
  | Raise _ => []
  end.

(** The labels of the rows returned when one filter is evaluated alone on
    [df], through [apply_advanced_filters] in the OR mode. *)
Definition in_match_set (lib : Pandas) (client : GristClient) (df : DataFrame)
    (table_id : option string) (f : filter_config) (i : nat) : bool :=
  match apply_advanced_filters lib client df (Payload (Some "or") (Some [f])) table_id with
  | Some matched => in_index i matched
  | None => false
  end.

(** The operators [_create_filter_mask] knows on a date column. *)
Definition date_operator (operator : string) : bool :=
  mem operator ["equals"; "not_equals"; "greater_than"; "less_than"].

(** A filter with its three keys. *)
Definition on (column operator value : string) : filter_config :=
  mk_filter (Some column) (Some operator) (Some value).

(** ** Of the record lookup *)

(** The group key a Unix timestamp stands for: the date of the instant,
    written DD/MM/YYYY. *)
Definition key_of_timestamp (v : value) : option string :=
  option_map strftime_dmY (timestamp_cell v).

(** The record holds a timestamp of the day of the key. *)
Definition has_key (filter_column filter_value : string) (r : record) : bool :=
  match key_of_timestamp (field_value r filter_column) with
  | Some key => String.eqb key filter_value
  | None => false
  end.

(** ** Of the grouping engine *)

(** What a value that is neither missing nor a list is compared by: its
    number, or its text. *)
Inductive key : Type :=
| KNum (z : Z)
| KStr (s : string).

Definition key_of (v : value) : option key :=
  match v with
  | VBool b => Some (KNum (if b then 1 else 0))
  | VInt z | VFloat z => Some (KNum z)
  | VStr s => Some (KStr s)
  | _ => None
  end.

(** A value that is neither missing nor a list. *)
Definition present (v : value) : bool :=
  negb (PyVal.isna v) && negb (PyVal.is_list v).

(** The rows of [l] whose cell of the column is equal to [v]. *)
Definition members (col : string) (l : list (nat * dict value)) (v : value)
  : list (nat * dict value) :=
  filter (fun r => cell_eq v (cell (snd r) col)) l.

(** The label of the first of them. *)
Definition first_label (col : string) (l : list (nat * dict value)) (v : value) : nat :=
  hd 0%nat (map fst (members col l v)).

(** The columns a group keeps: the selected columns that the frame has, in
    the order of the selection, and every column when nothing is selected. *)
Definition kept_columns (df : DataFrame) (selected_columns : list string) : list string :=
  match selected_columns with
  | [] => columns df
  | _ :: _ => filter (fun col => mem col (columns df)) selected_columns
  end.

(** A row of the frame as a group holds it. *)
Definition kept_row (df : DataFrame) (selected_columns : list string)
    (r : nat * dict value) : nat * dict value :=
  match selected_columns with
  | [] => r
  | _ :: _ => (fst r, map (fun c => (c, cell (snd r) c)) (kept_columns df selected_columns))
  end.

(** ** Of the widths *)

(** The width the text of a column asks for. *)
Definition estimated_width (A : arithmetic) (data : DataFrame)
    (date_columns : list string) (col : string) : num A :=
  mul A (mul A (of_int A (max_content_length data date_columns col)) (decimal_lit A 15 2))
        (cm A).




(* ================================================================== *)
(** * An instance of the library, and the tables of the examples       *)
(* ================================================================== *)

(** Search of a plain word, whatever the case of its ASCII letters: what
    [re.compile(pat, re.IGNORECASE).search] does when [pat] has no
    character that is special in a regular expression. *)
Definition search_word (pat s : string) : bool :=
  PyStr.contains (PyStr.lower s) (PyStr.lower pat).

Definition is_digit (c : ascii) : bool :=
  let n := nat_of_ascii c in ((48 <=? n) && (n <=? 57))%nat.

(** The number written by a string of decimal digits. *)
Fixpoint digits_value (acc : Z) (s : string) : option Z :=
  match s with
  | EmptyString => Some acc
  | String c s' =>
      if is_digit c
      then digits_value (10 * acc + Z.of_nat (nat_of_ascii c - 48)) s'
      else None
  end.

(** A whole number in decimal digits, with or without a minus sign, read
    as a floating-point number. *)
Definition decimal (s : string) : option Q :=
  match s with
  | EmptyString => None
  | String "-" s' =>
      match s' with
      | EmptyString => None
      | _ => option_map (fun z => inject_Z (PyFloat.round_binary64 (- z)))
                        (digits_value 0 s')
      end
  | _ => option_map (fun z => inject_Z (PyFloat.round_binary64 z)) (digits_value 0 s)
  end.

(** The instance answers as the library does on the inputs of the examples
    of this file: words without special characters, whole numbers in
    decimal digits, and texts that are no dates.  It converts no series
    but those of numbers, which [to_datetime_unit_s] converts itself. *)
Definition plain : Pandas :=
  {| re_compile_icase := fun pat => Some (search_word pat);
     to_datetime_format := fun _ _ => None;
     to_datetime_dayfirst := fun _ => None;
     to_datetime_scalar := fun _ => None;
     format_date_list := fun _ => Raise TypeError;
     to_datetime_unit_s_object := fun _ => Raise TypeError;
     to_datetime_coerce := fun _ => Raise TypeError;
     py_float := fun s => option_map (fun q => Some (Finite q)) (decimal s);
     to_numeric_str := fun s => option_map Finite (decimal s);
     to_numeric_list := fun _ => Raise TypeError;
     to_datetime_unit_s_object_length :=
       fun series converted (H : Raise TypeError = Ok converted) =>
         match H in _ = r return match r with
                                 | Ok c => List.length c = List.length series
                                 | Raise _ => True
                                 end
         with eq_refl => I end;
     to_datetime_coerce_length :=
       fun series converted (H : Raise TypeError = Ok converted) =>
         match H in _ = r return match r with
                                 | Ok c => List.length c = List.length series
                                 | Raise _ => True
                                 end
         with eq_refl => I end |}.

(** A client that was given no table: the requests are never made. *)
Definition no_client : GristClient :=
  {| get_table_columns_with_types := fun _ => Raise OtherError |}.

(** Three records whose towns are Paris, Lyon and Paris. *)
Definition villes : list record :=
  [ Wrapped 1 [("Nom", VStr "Dupont"); ("Ville", VStr "Paris"); ("Score", VInt 85)];
    Wrapped 2 [("Nom", VStr "Martin"); ("Ville", VStr "Lyon"); ("Score", VInt 92)];
    Wrapped 3 [("Nom", VStr "Bernard"); ("Ville", VStr "Paris"); ("Score", VInt 78)] ].

(** The table of [test_apply_advanced_filters]: three people, their age
    and their town. *)
Definition people : DataFrame :=
  mk_frame ["Nom"; "Age"; "Ville"]
    [ (0%nat, [("Nom", VStr "Dupont"); ("Age", VInt 30); ("Ville", VStr "Paris")]);
      (1%nat, [("Nom", VStr "Martin"); ("Age", VInt 25); ("Ville", VStr "Lyon")]);
      (2%nat, [("Nom", VStr "Bernard"); ("Age", VInt 35); ("Ville", VStr "Paris")]) ].

(** A table with a date column, held as Unix seconds (14 and 15 November
    2023), and the client that knows its types. *)
Definition visits : DataFrame :=
  mk_frame ["Nom"; "Jour"]
    [ (0%nat, [("Nom", VStr "Alice"); ("Jour", VInt 1700000000)]);
      (1%nat, [("Nom", VStr "Bob"); ("Jour", VInt 1700086400)]) ].

Definition visits_client : GristClient :=
  {| get_table_columns_with_types := fun _ => Ok [("Nom", "Text"); ("Jour", "Date")] |}.

(** Three records of a date column: the second and the third are of
    15 January 2024, at 0 h and at 1 h. *)
Definition dated_records : list record :=
  [ Wrapped 11 [("Nom", VStr "Alice"); ("Jour", VInt 1700000000)];
    Wrapped 12 [("Nom", VStr "Bob"); ("Jour", VInt 1705276800)];
    Wrapped 13 [("Nom", VStr "Chloe"); ("Jour", VInt 1705280400)] ].


(* ================================================================== *)
(** * The records of a table ([grist_client.py])                       *)
(* ================================================================== *)

(** The records of the document: for a table, what [get_table_data]
    returns, or the exception of the request. *)
Record GristTables : Type := {
  get_table_data : string -> result (list record)
}.

(** [GristClient.get_table_records] *)
Definition get_table_records (tables : GristTables) (table_id : string)
  : result (list (dict value)) :=
  records <- get_table_data tables table_id ;;
  Ok (map fields_of records).

(** [record.get('id')] *)
Definition record_id (r : record) : value :=
  match r with
  | Wrapped id _ => VInt id
  | Bare fields =>
      match get fields "id" with
      | Some v => v
      | None => VNone
      end
  end.

(** The loop of [get_record_id_by_filter_value] over the records. *)
Fixpoint first_record_id (records : list record) (filter_column filter_value : string)
  : value :=
  match records with
  | [] => VNone
  | record :: rest =>
      if String.eqb (PyVal.str (field_value record filter_column)) filter_value
      then record_id record
      else first_record_id rest filter_column filter_value
  end.

(** [GristClient.get_record_id_by_filter_value] *)
Definition get_record_id_by_filter_value (tables : GristTables)
    (table_id filter_column filter_value : string) : result value :=
  records <- get_table_data tables table_id ;;
  Ok (first_record_id records filter_column filter_value).

(** The cell [update_record_attachment] and [upload_pdfs_to_grist] write in
    the attachment column: [['L'] + attachment_ids]. *)
Definition attachment_cell (attachment_ids : list Z) : value :=
  VList (VStr "L" :: map VInt attachment_ids).

(* ================================================================== *)
(** * The cells of the table of a document ([create_pdf])              *)
(* ================================================================== *)

(** [if v]: whether a value counts as true. *)
Definition truthy (v : value) : bool :=
  match v with
  | VNone => false
  | VNaN => true
  | VBool b => b
  | VInt z | VFloat z => negb (z =? 0)
  | VStr s => negb (String.eqb s "")
  | VList l => match l with [] => false | _ :: _ => true end
  end.

(** [sep.join(l)] *)
Fixpoint join (sep : string) (l : list string) : string :=
  match l with
  | [] => ""
  | x :: r =>
      match r with
      | [] => x
      | _ :: _ => x ++ sep ++ join sep r
      end
  end.

(** [col in data.columns] *)
Definition has_column (data : DataFrame) (col : string) : bool :=
  mem col (columns data).

(** [formatted_value] for the value [row[col]] of one cell: the body of
    the loop of [create_pdf] over the columns of a row. *)
Definition formatted_value (lib : Pandas) (date_columns : list string) (col : string)
    (value : value) : result string :=
  match value with
  | VList l =>
      let clean_values :=
        map PyVal.str
            (filter (fun v => truthy v && negb (String.eqb (PyVal.str v) "L")) l) in
      Ok (join ", " clean_values)
  | _ =>
      if mem col date_columns then format_date_value lib value
      else if PyVal.isna value then Ok ""
      else Ok (PyVal.str value)
  end.

(** [headers]: the label of each column of [columns] that the data have,
    or its identifier. *)
Definition headers (data : DataFrame) (columns : list string)
    (column_labels : option (dict string)) : list string :=
  map (fun col =>
         match column_labels with
         | Some ((_ :: _) as labels) =>
             match get labels col with
             | Some label => label
             | None => col
             end
         | _ => col
         end)
      (filter (has_column data) columns).

(** [row_data] for one row of [data.iterrows()], given as the value it has
    in each column. *)
Definition row_data (lib : Pandas) (date_columns : list string) (data : DataFrame)
    (columns : list string) (row : string -> value) : result (list string) :=
  mapM (fun col => formatted_value lib date_columns col (row col))
       (filter (has_column data) columns).

(* ================================================================== *)
(** * The date columns of a document ([detect_date_columns])            *)
(* ================================================================== *)

(** [PDFGenerator.detect_date_columns].  With the types of the columns the
    data are not looked at; without them, or with an empty dictionary of
    types, [heuristic] is the answer of the trials of conversion on the
    sample of a column. *)
Definition detect_date_columns (heuristic : DataFrame -> string -> bool)
    (data : DataFrame) (columns : list string) (column_types : option (dict string))
  : list string :=
  match column_types with
  | Some ((_ :: _) as column_types) =>
      filter (fun col =>
                match get column_types col with
                | Some t => mem t ["Date"; "DateTime"]
                | None => false
                end)
             columns
  | _ =>
      filter (fun col =>
                has_column data col
                && negb (match rows data with [] => true | _ :: _ => false end)
                && heuristic data col)
             columns
  end.

(* ================================================================== *)
(** * The columns of a table and their types ([grist_client.py])       *)
(* ================================================================== *)

(** [d[k] = v]: the value of a key the dictionary has is replaced where it
    stands, and a new key comes last. *)
Fixpoint set_item {A : Type} (d : dict A) (k : string) (v : A) : dict A :=
  match d with
  | [] => [(k, v)]
  | (k', v') :: r => if String.eqb k' k then (k, v) :: r else (k', v') :: set_item r k v
  end.

Module Columns.

(** One column of the answer of the API to [.../tables/{table_id}/columns]:
    a dictionary that may have the keys ['id'], ['colId'], ['fields'] and
    ['type'].  The identifiers, the types and the labels are texts, as
    Grist sends them; [fields] holds the entries of ['fields'] that are
    texts. *)
Record column : Type := mk_column {
  id : option string;
  colId : option string;
  fields : option (dict string);
  type : option string
}.

(** [not s]: a text that is absent or empty. *)
Definition empty_text (s : option string) : bool :=
  match s with
  | None | Some EmptyString => true
  | Some _ => false
  end.

(** [str(col_id).startswith('gristHelper_')] *)
Definition is_helper (col_id : string) : bool := PyStr.startswith col_id "gristHelper_".

(** [col_id] in [get_table_columns_with_types]: [col['id']] when the column
    has the key, [col['colId']] when it has that key and not the other. *)
Definition col_id_of (col : column) : option string :=
  match id col with
  | Some i => Some i
  | None => colId col
  end.

(** [col_type]: [col['fields'].get('type', 'Text')] when the column has
    the key ['fields'], [col['type']] when it has that key and not the
    other, ['Text'] otherwise. *)
Definition col_type_of (col : column) : string :=
  match fields col with
  | Some f =>
      match get f "type" with
      | Some t => t
      | None => "Text"
      end
  | None =>
      match type col with
      | Some t => t
      | None => "Text"
      end
  end.

(** The loop of [get_table_columns_with_types] over [columns_data]. *)
Definition column_types_of (columns_data : list column) : dict string :=
  fold_left
    (fun column_types col =>
       match col_id_of col with
       | Some col_id =>
           if empty_text (Some col_id) then column_types
           else if is_helper col_id then column_types
           else set_item column_types col_id (col_type_of col)
       | None => column_types
       end)
    columns_data [].

(** [col.get('id') or col.get('colId')] *)
Definition col_id_or (col : column) : option string :=
  if empty_text (id col) then colId col else id col.

(** [label]: [col.get('fields', {}).get('label', col_id)], and [col_id]
    when that is empty. *)
Definition label_of (col : column) (col_id : string) : string :=
  let label :=
    match fields col with
    | Some f =>
        match get f "label" with
        | Some l => l
        | None => col_id
        end
    | None => col_id
    end in
  if empty_text (Some label) then col_id else label.

(** The loop of [get_table_columns_with_labels] over [columns_data]. *)
Definition column_labels_of (columns_data : list column) : dict string :=
  fold_left
    (fun column_labels col =>
       match col_id_or col with
       | Some col_id =>
           if negb (empty_text (Some col_id)) && negb (is_helper col_id)
           then set_item column_labels col_id (label_of col col_id)
           else column_labels
       | None => column_labels
       end)
    columns_data [].

(** The client: the document it was made for, and its cache of the types
    of the columns. *)
Record client : Type := mk_client {
  doc_id : string;
  _column_types_cache : dict (dict string)
}.

(** [GristClient.get_table_columns_with_types]: the answer, and the client
    after the call.  [request] is the request to the API for the columns
    of a table: [columns_data], or the exception of the request. *)
Definition get_table_columns_with_types
    (request : string -> result (list column)) (self : client) (table_id : string)
  : result (dict string) * client :=
  let cache_key := doc_id self ++ "_" ++ table_id in
  match get (_column_types_cache self) cache_key with
  | Some column_types => (Ok column_types, self)
  | None =>
      match request table_id with
      | Raise e => (Raise e, self)
      | Ok columns_data =>
          let column_types := column_types_of columns_data in
          (Ok column_types,
           mk_client (doc_id self)
                     (set_item (_column_types_cache self) cache_key column_types))
      end
  end.

(** [GristClient.get_table_columns_with_labels]: no cache. *)
Definition get_table_columns_with_labels
    (request : string -> result (list column)) (table_id : string)
  : result (dict string) :=
  columns_data <- request table_id ;;
  Ok (column_labels_of columns_data).

(** [GristClient.get_table_columns] *)
Definition get_table_columns
    (request : string -> result (list column)) (self : client) (table_id : string)
  : result (list string) * client :=
  let '(column_types, self) := get_table_columns_with_types request self table_id in
  (types <- column_types ;; Ok (map fst types), self).

(** [GristClient.is_date_column], on the client with its cache. *)
Definition is_date_column
    (request : string -> result (list column)) (self : client)
    (table_id column_name : string) : result bool * client :=
  let '(column_types, self) := get_table_columns_with_types request self table_id in
  (types <- column_types ;;
   Ok (mem (match get types column_name with Some t => t | None => "Text" end)
           ["Date"; "DateTime"]),
   self).

End Columns.

(* ================================================================== *)
(** * The files a user may upload ([config.py], [app.py])              *)
(* ================================================================== *)

(** [s.rsplit(c, 1)]: the text cut at the last [c], or the text alone when
    it has none. *)
Fixpoint rsplit1 (c : ascii) (s : string) : list string :=
  match s with
  | EmptyString => [EmptyString]
  | String x s' =>
      match rsplit1 c s' with
      | [before; after] => [String x before; after]
      | _ => if Ascii.eqb x c then [EmptyString; s'] else [String x s']
      end
  end.

Definition ALLOWED_EXTENSIONS : list string := ["png"; "jpg"; "jpeg"].
Definition ALLOWED_LOGO_EXTENSIONS : list string := ["png"; "jpg"; "jpeg"; "svg"].

(** ['.' in filename and filename.rsplit('.', 1)[1].lower() in extensions];
    an index out of the list raises.  (No character but an ASCII letter
    becomes a letter of these extensions in lower case, so that putting the
    ASCII letters in lower case is enough.) *)
Definition allowed (extensions : list string) (filename : string) : result bool :=
  if PyStr.contains filename "." then
    match nth_error (rsplit1 "." filename) 1 with
    | Some extension => Ok (mem (PyStr.lower extension) extensions)
    | None => Raise OtherError
    end
  else Ok false.

(** [Config.allowed_file] *)
Definition allowed_file : string -> result bool := allowed ALLOWED_EXTENSIONS.

(** [Config.allowed_logo_file], and [allowed_logo_file] of [app.py] *)
Definition allowed_logo_file : string -> result bool := allowed ALLOWED_LOGO_EXTENSIONS.

(* ================================================================== *)
(** * The configuration of a document ([config.py])                    *)
(* ================================================================== *)

(** What the program asks of the file system: whether a path exists, and
    whether a number is an open file descriptor, which is what
    [os.path.exists] answers on a number. *)
Record Os : Type := {
  path_exists : string -> bool;
  fd_exists : Z -> bool
}.

(** [os.path.exists(path)]: [TypeError] on what is neither a text nor an
    integer. *)
Definition os_path_exists (os : Os) (path : value) : result bool :=
  match path with
  | VStr s => Ok (path_exists os s)
  | VInt z => Ok (fd_exists os z)
  | VBool b => Ok (fd_exists os (if b then 1 else 0))
  | _ => Raise TypeError
  end.

(** The fields of the data class [PDFConfig]; nothing checks the types
    they are declared with. *)
Record PDFConfig : Type := mk_config {
  service_name : value;
  signer_firstname : value;
  signer_name : value;
  signer_title : value;
  signature_path : value;
  logo_path : value
}.

(** [PDFConfig()]: the defaults of the class. *)
Definition default_config : PDFConfig :=
  mk_config (VStr "DRAAF SRFD Occitanie") (VStr "") (VStr "") (VStr "") VNone VNone.

(** [bool(self.signer_firstname or self.signer_name or self.signer_title)] *)
Definition has_signer_info (self : PDFConfig) : bool :=
  truthy (signer_firstname self) || truthy (signer_name self) || truthy (signer_title self).

(** [bool(path and os.path.exists(path))] *)
Definition present_file (os : Os) (path : value) : result bool :=
  if truthy path then os_path_exists os path else Ok false.

Definition has_signature (os : Os) (self : PDFConfig) : result bool :=
  present_file os (signature_path self).

Definition has_custom_logo (os : Os) (self : PDFConfig) : result bool :=
  present_file os (logo_path self).

(** [PDFConfig.to_dict] *)
Definition to_dict (os : Os) (self : PDFConfig) : result (dict value) :=
  signature <- has_signature os self ;;
  custom_logo <- has_custom_logo os self ;;
  Ok [ ("service_name", service_name self);
       ("signer_firstname", signer_firstname self);
       ("signer_name", signer_name self);
       ("signer_title", signer_title self);
       ("signature_path", signature_path self);
       ("logo_path", logo_path self);
       ("has_signer_info", VBool (has_signer_info self));
       ("has_signature", VBool signature);
       ("has_custom_logo", VBool custom_logo) ].

(** [data.get(key, default)] *)
Definition get_or (data : dict value) (key : string) (default : value) : value :=
  match get data key with
  | Some v => v
  | None => default
  end.

(** [PDFConfig.from_dict] *)
Definition from_dict (data : dict value) : PDFConfig :=
  mk_config (get_or data "service_name" (VStr "DRAAF SRFD Occitanie"))
            (get_or data "signer_firstname" (VStr ""))
            (get_or data "signer_name" (VStr ""))
            (get_or data "signer_title" (VStr ""))
            (get_or data "signature_path" VNone)
            (get_or data "logo_path" VNone).

(* ================================================================== *)
(** * The count of the documents ([count_pdfs] of [app.py])            *)
(* ================================================================== *)

(** [date_series.dt.date.unique()] without the missing instants: the
    dates of the instants, each once, in the order they first appear. *)
Fixpoint unique_dates (seen : list (nat * nat * nat)) (date_series : list (option datetime))
  : list (nat * nat * nat) :=
  match date_series with
  | [] => []
  | None :: r => unique_dates seen r
  | Some d :: r =>
      if existsb (Instant.date_eqb (Instant.date d)) seen then unique_dates seen r
      else Instant.date d :: unique_dates (Instant.date d :: seen) r
  end.

(** The answer of the route: the count with what goes with it, or an
    error with its status. *)
Inductive count_response : Type :=
| Counted (count : nat) (filter_column : string) (total_records : nat) (filter_mode : string)
| Refused (status : Z).

(** The body of the [try] of [count_pdfs], once the client and the
    parameters are there; an exception is answered with the status 500. *)
Definition count_pdfs_try (lib : Pandas) (client : GristClient) (tables : GristTables)
    (table_id filter_column : string) (advanced_filters_data : filters_payload)
  : result count_response :=
  records <- get_table_records tables table_id ;;
  let df := frame_of_dicts records in
  df <- match advanced_filters_data with
        | Legacy [] => Ok df
        | Legacy (_ :: _) => Raise OtherError      (* a list has no [get] *)
        | Payload _ (Some (_ :: _)) =>
            match apply_advanced_filters lib client df advanced_filters_data
                                         (Some table_id) with
            | Some filtered => Ok filtered
            | None => Raise OtherError
            end
        | Payload _ _ => Ok df
        end ;;
  if mem filter_column (columns df) then
    is_date_col <- is_date_column client table_id filter_column ;;
    count <-
      (if is_date_col : bool then
         date_series <- _convert_timestamp_to_datetime lib (series df filter_column) ;;
         Ok (List.length (unique_dates [] date_series))
       else
         unique_values <- dropna_unique (series df filter_column) ;;
         Ok (List.length unique_values)) ;;
    filter_mode <- match advanced_filters_data with
                   | Legacy _ => Raise OtherError  (* a list has no [get] *)
                   | Payload mode _ => Ok (match mode with Some m => m | None => "and" end)
                   end ;;
    Ok (Counted count filter_column (List.length (rows df)) filter_mode)
  else Ok (Refused 404).

(** [count_pdfs]: [grist_client] is the client of the session, if any;
    [table_id] and [filter_column] are read in the request, and
    [advanced_filters_data] too, the empty dictionary when absent. *)
Definition count_pdfs (lib : Pandas) (grist_client : option (GristClient * GristTables))
    (table_id filter_column : option string) (advanced_filters_data : filters_payload)
  : count_response :=
  match grist_client with
  | None => Refused 400
  | Some (client, tables) =>
      if falsy table_id || falsy filter_column then Refused 400
      else
        match count_pdfs_try lib client tables (text table_id) (text filter_column)
                             advanced_filters_data with
        | Ok response => response
        | Raise _ => Refused 500
        end
  end.

(* ================================================================== *)
(** * The upload of the documents ([upload_pdfs_to_grist] of [app.py]) *)
(* ================================================================== *)

Module Upload.

(** One entry of [pdf_files], with its two keys. *)
Record pdf_info : Type := mk_pdf_info {
  filter_value : string;
  filepath : string
}.

(** One entry of [results]: a document attached to a record, or an error. *)
Inductive outcome : Type :=
| Success (filter_value : string) (record_id : value) (attachment_id : Z)
| Failure (filter_value : string).

Definition is_success (o : outcome) : bool :=
  match o with
  | Success _ _ _ => true
  | Failure _ => false
  end.

Definition key (o : outcome) : string :=
  match o with
  | Success filter_value _ _ => filter_value
  | Failure filter_value => filter_value
  end.

(** What the route asks of the file system and of Grist, each call
    leaving the world in a new state: [os.path.exists],
    [grist_client.upload_attachment], and the request that writes the
    cell of attachments of a record. *)
Record Server (World : Type) : Type := {
  exists_ : World -> string -> bool;
  upload_attachment : World -> string -> result Z * World;
  patch : World -> string -> value -> string -> value -> result unit * World
}.
Arguments exists_ {World}.
Arguments upload_attachment {World}.
Arguments patch {World}.

(** [target_record['id']] *)
Definition getitem_id (r : record) : result value :=
  match r with
  | Wrapped id _ => Ok (VInt id)
  | Bare fields =>
      match get fields "id" with
      | Some v => Ok v
      | None => Raise OtherError
      end
  end.

Section Route.

Context {World : Type}.
Variable lib : Pandas.
Variable server : Server World.

(** The body of the loop over [pdf_files]: its [try], whose every
    exception is an error of the document. *)
Definition attach (is_date_column : bool) (table_id filter_column attachment_column : string)
    (all_records : list record) (w : World) (info : pdf_info) : outcome * World :=
  if negb (exists_ server w (filepath info)) then (Failure (filter_value info), w)
  else
    let '(attachment, w) := upload_attachment server w (filepath info) in
    match attachment with
    | Raise _ => (Failure (filter_value info), w)
    | Ok attachment_id =>
        match target_record lib is_date_column filter_column (filter_value info)
                            all_records with
        | None | Some (Bare []) => (Failure (filter_value info), w)
        | Some target =>
            match getitem_id target with
            | Raise _ => (Failure (filter_value info), w)
            | Ok record_id =>
                let '(patched, w) :=
                  patch server w table_id record_id attachment_column
                        (attachment_cell [attachment_id]) in
                match patched with
                | Raise _ => (Failure (filter_value info), w)
                | Ok _ => (Success (filter_value info) record_id attachment_id, w)
                end
            end
        end
    end.

(** The loop over [pdf_files], with its list of results and its two
    counters. *)
Fixpoint loop (is_date_column : bool) (table_id filter_column attachment_column : string)
    (all_records : list record) (pdf_files : list pdf_info) (w : World)
    (results : list outcome) (success_count error_count : nat)
  : list outcome * nat * nat * World :=
  match pdf_files with
  | [] => (results, success_count, error_count, w)
  | info :: rest =>
      let '(o, w) := attach is_date_column table_id filter_column attachment_column
                            all_records w info in
      if is_success o
      then loop is_date_column table_id filter_column attachment_column all_records rest w
                (results ++ [o]) (S success_count) error_count
      else loop is_date_column table_id filter_column attachment_column all_records rest w
                (results ++ [o]) success_count (S error_count)
  end.

(** The answer of the route: its report, or an error with its status. *)
Inductive response : Type :=
| Report (success_count error_count : nat) (results : list outcome)
| Error (status : Z).

(** [upload_pdfs_to_grist] *)
Definition upload_pdfs_to_grist (grist_client : option (GristClient * GristTables))
    (table_id filter_column attachment_column : option string)
    (pdf_files : list pdf_info) (w : World) : response * World :=
  match grist_client with
  | None => (Error 400, w)
  | Some (client, tables) =>
      if falsy table_id || falsy filter_column || falsy attachment_column
         || match pdf_files with [] => true | _ :: _ => false end
      then (Error 400, w)
      else
        match get_table_data tables (text table_id) with
        | Raise _ => (Error 500, w)
        | Ok all_records =>
            match is_date_column client (text table_id) (text filter_column) with
            | Raise _ => (Error 500, w)
            | Ok is_date_column =>
                let '(results, success_count, error_count, w) :=
                  loop is_date_column (text table_id) (text filter_column)
                       (text attachment_column) all_records pdf_files w [] 0 0 in
                (Report success_count error_count results, w)
            end
        end
  end.

End Route.

End Upload.

(* ================================================================== *)
(** * Further terms of the statements                                  *)
(* ================================================================== *)

(** ** Of the filter evaluator *)

(** The operators that compare the text of a cell with the value. *)
Definition text_operator (operator : string) : bool :=
  mem operator ["equals"; "contains"; "starts_with"; "ends_with"; "not_equals"].

(** The column of a filter is not known to be a date column: the client
    answers that it is none, or the request fails. *)
Definition no_date_column (client : GristClient) (table_id : option string)
    (column : string) : bool :=
  match date_column_test client table_id column with
  | Ok true => false
  | _ => true
  end.

(** A filter that compares texts. *)
Definition compares_text (client : GristClient) (table_id : option string)
    (f : filter_config) : bool :=
  text_operator (text (f_operator f)) && no_date_column client table_id (text (f_column f)).

(** The test such a filter makes on the text of one cell; [contains] makes
    none when its value is not a regular expression. *)
Definition text_test (lib : Pandas) (operator value : string) : option (string -> bool) :=
  if String.eqb operator "equals" then Some (fun s => String.eqb s value)
  else if String.eqb operator "contains" then re_compile_icase lib value
  else if String.eqb operator "starts_with" then Some (fun s => PyStr.startswith s value)
  else if String.eqb operator "ends_with" then Some (fun s => PyStr.endswith s value)
  else if String.eqb operator "not_equals" then Some (fun s => negb (String.eqb s value))
  else None.

(** The test a filter that compares texts makes on one row of a frame whose
    columns are [cols], when the loop takes its mask. *)
Definition row_test (lib : Pandas) (client : GristClient) (table_id : option string)
    (cols : list string) (f : filter_config) : option (nat * dict value -> bool) :=
  if incomplete f then None
  else if negb (mem (text (f_column f)) cols) then None
  else
    match date_column_test client table_id (text (f_column f)) with
    | Ok false =>
        option_map (fun t (r : nat * dict value) =>
                      t (PyVal.str (cell (snd r) (text (f_column f)))))
                   (text_test lib (text (f_operator f)) (text (f_value f)))
    | _ => None
    end.

(** A row passes a filter that makes no test. *)
Definition passes (t : option (nat * dict value -> bool)) (r : nat * dict value) : bool :=
  match t with
  | Some test => test r
  | None => true
  end.

(** A filter the loops pass over for its column or its operator: it lacks
    one of them, or its column is none of the frame. *)
Definition passed_over (df : DataFrame) (f : filter_config) : bool :=
  falsy (f_column f) || falsy (f_operator f)
  || negb (mem (text (f_column f)) (columns df)).

(** The operators [_create_filter_mask] knows on a column that is no date
    column. *)
Definition known_operator (operator : string) : bool :=
  mem operator ["equals"; "contains"; "starts_with"; "ends_with"; "not_equals";
                "greater_than"; "less_than"].

(** The two operators that compare numbers. *)
Definition numeric_operator (operator : string) : bool :=
  mem operator ["greater_than"; "less_than"].

(** A filter that cannot be evaluated as it is written: the types of the
    table cannot be fetched; or, on a date column, its operator is none of
    the four of dates or its value is no date; or, on another column, its
    operator is unknown, or compares numbers while its value is no number. *)
Definition degraded (lib : Pandas) (client : GristClient) (table_id : option string)
    (f : filter_config) : bool :=
  match date_column_test client table_id (text (f_column f)) with
  | Raise _ => true
  | Ok true =>
      negb (date_operator (text (f_operator f)))
      || match _parse_date_filter lib (text (f_value f)) with
         | Ok _ => false
         | Raise _ => true
         end
  | Ok false =>
      negb (known_operator (text (f_operator f)))
      || (numeric_operator (text (f_operator f))
          && match py_float lib (text (f_value f)) with
             | Some _ => false
             | None => true
             end)
  end.

(** The day a cell of a date column is of, counted from 1970-01-01, when
    the cell is a count of seconds pandas holds an instant for. *)
Definition day_of (v : value) : option Z :=
  match v with
  | VInt z | VFloat z => if Instant.in_bounds z then Some (z / 86400) else None
  | _ => None
  end.

(** The date of a day counted from 1970-01-01. *)
Definition date_of_day (days : Z) : nat * nat * nat :=
  let '(y, m, d) := Instant.civil_from_days days in
  (Z.to_nat y, Z.to_nat m, Z.to_nat d).

(** ** Of the file names *)

(** [c in s] for one character. *)
Definition has_char (c : ascii) (s : string) : bool :=
  existsb (Ascii.eqb c) (list_ascii_of_string s).

(** The two characters that separate the directories of a path. *)
Definition is_separator (c : ascii) : bool :=
  Ascii.eqb c "/" || Ascii.eqb c "\".

(** ** Of the columns of a table *)

(** An entry of the types of the columns is the identifier and the type of
    a column of the answer of the API; the identifier is not empty and is
    not that of a helper column. *)
Definition typed_entry (columns_data : list Columns.column) (entry : string * string)
  : Prop :=
  fst entry <> ""
  /\ Columns.is_helper (fst entry) = false
  /\ exists col,
       In col columns_data
       /\ Columns.col_id_of col = Some (fst entry)
       /\ Columns.col_type_of col = snd entry.

(** ** Of the grouping on a date column *)

(** The two columns [filter_data_by_column] adds to the frame. *)
Definition temporary : list string := ["_date_temp"; "_date_formatted"].

(** The row holds a timestamp of the day of the key. *)
Definition of_day (filter_column key : string) (r : nat * dict value) : bool :=
  match key_of_timestamp (cell (snd r) filter_column) with
  | Some k => String.eqb k key
  | None => false
  end.

(** The row holds a timestamp of the date (year, month, day). *)
Definition on_date (filter_column : string) (date : nat * nat * nat)
    (r : nat * dict value) : bool :=
  match timestamp_cell (cell (snd r) filter_column) with
  | Some d => Instant.date_eqb (Instant.date d) date
  | None => false
  end.

(** The columns a group of a date column keeps: the selected columns that
    the frame has, in the order of the selection, and every column but
    the two that were added when nothing is selected. *)
Definition date_kept_columns (df : DataFrame) (selected_columns : list string)
  : list string :=
  match selected_columns with
  | [] => filter (fun c => negb (mem c temporary)) (columns df)
  | _ :: _ => filter (fun c => mem c (columns df)) selected_columns
  end.

(** A row restricted to some columns. *)
Definition restricted (cols : list string) (r : nat * dict value) : nat * dict value :=
  (fst r, map (fun c => (c, cell (snd r) c)) cols).

(** [date.strftime('%d/%m/%Y')] on one cell of [_date_temp]: the missing
    instant gives the missing value. *)
Definition date_formatted (c : option datetime) : value :=
  match c with
  | Some d => VStr (strftime_dmY d)
  | None => VNaN
  end.

(** A row of the frame once the two columns are added to it. *)
Definition dated (filter_column : string) (r : nat * dict value) : nat * dict value :=
  (fst r,
   set_key (set_key (snd r) "_date_temp" VNaN) "_date_formatted"
           (date_formatted (timestamp_cell (cell (snd r) filter_column)))).

(* ================================================================== *)
(** * Further instances and tables of the examples                     *)
(* ================================================================== *)

(** The instance [plain], but for the date 15/11/2023, which it reads in
    the first format of [_parse_date_filter]. *)
Definition november : Pandas :=
  {| re_compile_icase := re_compile_icase plain;
     to_datetime_format := fun s fmt =>
       if String.eqb s "15/11/2023" && String.eqb fmt "%d/%m/%Y"
       then Some (mk_datetime 2023 11 15 0 0 0) else None;
     to_datetime_dayfirst := to_datetime_dayfirst plain;
     to_datetime_scalar := to_datetime_scalar plain;
     format_date_list := format_date_list plain;
     to_datetime_unit_s_object := to_datetime_unit_s_object plain;
     to_datetime_coerce := to_datetime_coerce plain;
     py_float := py_float plain;
     to_numeric_str := to_numeric_str plain;
     to_numeric_list := to_numeric_list plain;
     to_datetime_unit_s_object_length := to_datetime_unit_s_object_length plain;
     to_datetime_coerce_length := to_datetime_coerce_length plain |}.

(** An answer of the API for the columns of a table: a date column, a
    helper column of Grist, a column whose label is empty, and a column
    under the key ['colId'] with its type beside it. *)
Definition visit_columns : list Columns.column :=
  [ Columns.mk_column (Some "Jour") None (Some [("type", "Date"); ("label", "Jour de visite")])
                      None;
    Columns.mk_column (Some "gristHelper_Display") None (Some [("type", "Any")]) None;
    Columns.mk_column (Some "Nom") None (Some [("label", "")]) (Some "Choice");
    Columns.mk_column None (Some "Ville") None (Some "Text") ].

(** A client that has fetched nothing yet. *)
Definition new_client : Columns.client := Columns.mk_client "doc" [].

(** Two records, the second without a town. *)
Definition partial_records : list record :=
  [ Wrapped 21 [("Nom", VStr "Dupont"); ("Ville", VStr "Paris")];
    Wrapped 22 [("Nom", VStr "Martin")] ].

Definition partial_tables : GristTables :=
  {| get_table_data := fun _ => Ok partial_records |}.

(** The tables of a document whose one table has the records
    [dated_records]. *)
Definition dated_tables : GristTables :=
  {| get_table_data := fun _ => Ok dated_records |}.

(** A server where every file exists and every request succeeds; the
    world is the number of the attachments uploaded so far, and the
    identifier of an attachment is its rank. *)
Definition counting_server : Upload.Server Z :=
  {| Upload.exists_ := fun _ _ => true;
     Upload.upload_attachment := fun w _ => (Ok (w + 1), w + 1);
     Upload.patch := fun w _ _ _ _ => (Ok tt, w) |}.

(** A server where every file exists and every request succeeds; the
    world is the list of the cells written so far, each with its table,
    its record and its column, and the identifier of an attachment is one
    more than their number. *)
Definition recording_server : Upload.Server (list (string * value * string * value)) :=
  {| Upload.exists_ := fun _ _ => true;
     Upload.upload_attachment := fun w _ => (Ok (Z.of_nat (List.length w) + 1), w);
     Upload.patch := fun w table_id record_id column cell =>
                       (Ok tt, (w ++ [(table_id, record_id, column, cell)])%list) |}.

(* ================================================================== *)
(** * Properties of the filter evaluator                               *)
(* ================================================================== *)

Section Evaluator.

Variable lib : Pandas.
Variable client : GristClient.
Variable table_id : option string.

Lemma apply_advanced_filters_payload :
  forall df mode filters,
    apply_advanced_filters lib client df (Payload mode (Some filters)) table_id
    = Some (evaluate lib client df table_id
              (match mode with Some m => m | None => "and" end) filters).
Proof.
  intros df mode filters.
  unfold apply_advanced_filters, evaluate.
  cbn [apply_advanced_filters_fuel].
  assert (Hno : match Payload mode (Some filters) with
                | Legacy [] | Payload None None => true
                | _ => false
                end = false) by (destruct mode; reflexivity).
  rewrite Hno; cbn [orb].
  destruct (empty df) eqn:He; [reflexivity|].
  set (m := match mode with Some m => m | None => "and" end).
  destruct filters as [|f rest].
  - destruct (String.eqb m "or"); reflexivity.
  - destruct (String.eqb m "and") eqn:Hand.
    + apply String.eqb_eq in Hand. rewrite Hand. reflexivity.
    + destruct (String.eqb m "or") eqn:Hor.
      * destruct (or_loop lib client table_id df (f :: rest)); reflexivity.
      * reflexivity.
Qed.

Lemma apply_advanced_filters_legacy :
  forall df filters,
    apply_advanced_filters lib client df (Legacy filters) table_id
    = Some (evaluate lib client df table_id "and" filters).
Proof.
  intros df filters.
  unfold apply_advanced_filters, evaluate.
  cbn [apply_advanced_filters_fuel].
  destruct filters as [|f rest].
  - cbn. destruct (empty df); reflexivity.
  - cbn [orb]. destruct (empty df); reflexivity.
Qed.

(** More fuel changes nothing: the program never calls itself more than
    once. *)
Lemma apply_advanced_filters_fuel_enough :
  forall n df filters_data,
    apply_advanced_filters_fuel (S (S n)) lib client df filters_data table_id
    = apply_advanced_filters lib client df filters_data table_id.
Proof.
  intros n df filters_data.
  unfold apply_advanced_filters.
  cbn [apply_advanced_filters_fuel].
  destruct (_ || empty df) eqn:Hg; [reflexivity|].
  destruct filters_data as [l | mode l]; cbn.
  - destruct l; reflexivity.
  - destruct l as [l|]; [|reflexivity].
    destruct l as [|f rest]; [reflexivity|].
    destruct (String.eqb _ "and"); [reflexivity|].
    destruct (String.eqb _ "or"); [reflexivity|].
    reflexivity.
Qed.

(** ** Filters the loops pass over *)

Lemma filter_mask_without_value :
  forall df f, falsy (f_value f) = true -> filter_mask lib client df table_id f = None.
Proof.
  intros df f Hv. unfold filter_mask, incomplete.
  rewrite Hv, !orb_true_r. reflexivity.
Qed.

Lemma and_loop_skip :
  forall before after p df,
    falsy (f_value p) = true ->
    and_loop lib client table_id (before ++ p :: after) df
    = and_loop lib client table_id (before ++ after) df.
Proof.
  induction before as [|f before IH]; intros after p df Hv; cbn [app and_loop].
  - rewrite (filter_mask_without_value df p Hv). reflexivity.
  - destruct (filter_mask lib client df table_id f); apply IH; exact Hv.
Qed.

Lemma or_loop_skip :
  forall before after p df,
    falsy (f_value p) = true ->
    or_loop lib client table_id df (before ++ p :: after)
    = or_loop lib client table_id df (before ++ after).
Proof.
  induction before as [|f before IH]; intros after p df Hv; cbn [app or_loop].
  - rewrite (filter_mask_without_value df p Hv). reflexivity.
  - rewrite (IH after p df Hv). reflexivity.
Qed.

Lemma and_loop_without_values :
  forall filters df,
    forallb (fun f => falsy (f_value f)) filters = true ->
    and_loop lib client table_id filters df = df.
Proof.
  induction filters as [|f filters IH]; intros df Hall; cbn [and_loop].
  - reflexivity.
  - cbn [forallb] in Hall. apply andb_true_iff in Hall as [Hf Hrest].
    rewrite (filter_mask_without_value df f Hf). apply IH; exact Hrest.
Qed.

Lemma or_loop_without_values :
  forall filters df,
    forallb (fun f => falsy (f_value f)) filters = true ->
    or_loop lib client table_id df filters = [].
Proof.
  induction filters as [|f filters IH]; intros df Hall; cbn [or_loop].
  - reflexivity.
  - cbn [forallb] in Hall. apply andb_true_iff in Hall as [Hf Hrest].
    rewrite (filter_mask_without_value df f Hf). apply IH; exact Hrest.
Qed.

Lemma evaluate_skip :
  forall df mode before after p,
    falsy (f_value p) = true ->
    evaluate lib client df table_id mode (before ++ p :: after)
    = evaluate lib client df table_id mode (before ++ after).
Proof.
  intros df mode before after p Hv. unfold evaluate.
  rewrite (or_loop_skip before after p df Hv), (and_loop_skip before after p df Hv).
  reflexivity.
Qed.

Lemma evaluate_without_values :
  forall df mode filters,
    forallb (fun f => falsy (f_value f)) filters = true ->
    evaluate lib client df table_id mode filters = df.
Proof.
  intros df mode filters Hall. unfold evaluate.
  rewrite (or_loop_without_values filters df Hall),
          (and_loop_without_values filters df Hall).
  destruct (empty df); [reflexivity|]. destruct (String.eqb mode "or"); reflexivity.
Qed.

(** ** The length of a mask *)

(** Splits a goal on the conditional it tests. *)
Ltac break_if :=
  match goal with
  | |- context [if ?b then _ else _] => destruct b
  end.

(** Splits on the conditional the left side of the equation [H] tests. *)
Ltac break_if_in H :=
  match type of H with
  | (if ?b then _ else _) = _ => destruct b
  end.

Lemma mapM_length :
  forall (A B : Type) (f : A -> result B) (l : list A) (r : list B),
    mapM f l = Ok r -> List.length r = List.length l.
Proof.
  intros A B f. induction l as [|x l IH]; intros r H; cbn [mapM bind] in H.
  - injection H as <-. reflexivity.
  - destruct (f x) as [y|e]; [|discriminate H]. cbn [bind] in H.
    destruct (mapM f l) as [ys|e]; [|discriminate H]. cbn [bind] in H.
    injection H as <-. cbn [List.length]. f_equal. apply IH. reflexivity.
Qed.

Lemma all_true_length : forall df, List.length (all_true df) = List.length (rows df).
Proof. intros df. unfold all_true. apply length_map. Qed.

Lemma series_length :
  forall df column, List.length (series df column) = List.length (rows df).
Proof. intros df column. unfold series. apply length_map. Qed.

Lemma astype_str_length :
  forall df column, List.length (astype_str df column) = List.length (rows df).
Proof. intros df column. unfold astype_str. rewrite length_map. apply series_length. Qed.

Create HintDb masks.
#[local] Hint Resolve all_true_length series_length astype_str_length : masks.

Lemma convert_timestamp_length :
  forall series converted,
    _convert_timestamp_to_datetime lib series = Ok converted ->
    List.length converted = List.length series.
Proof.
  intros series converted H. unfold _convert_timestamp_to_datetime in H.
  destruct (to_datetime_unit_s lib series) as [c|e] eqn:Hu.
  - injection H as <-. unfold to_datetime_unit_s in Hu.
    destruct (forallb numeric_or_missing series).
    + injection Hu as <-. apply length_map.
    + apply (to_datetime_unit_s_object_length lib). exact Hu.
  - apply (to_datetime_coerce_length lib). exact H.
Qed.

Lemma date_filter_mask_length :
  forall df date_col operator value,
    List.length date_col = List.length (rows df) ->
    List.length (date_filter_mask lib df date_col operator value) = List.length (rows df).
Proof.
  intros df date_col operator value Hlen. unfold date_filter_mask.
  destruct (_parse_date_filter lib value); [|auto with masks].
  repeat break_if; rewrite ?length_map; auto with masks.
Qed.

Lemma numeric_filter_mask_length :
  forall op df column value mask,
    numeric_filter_mask lib op df column value = Ok mask ->
    List.length mask = List.length (rows df).
Proof.
  intros op df column value mask H. unfold numeric_filter_mask in H.
  destruct (numeric_filter_try lib op (series df column) value) as [m|e] eqn:Ht.
  - injection H as <-. unfold numeric_filter_try in Ht.
    destruct (mapM (to_numeric_cell lib) (series df column)) as [nc|e] eqn:Hm;
      [|discriminate Ht].
    cbn [bind] in Ht. destruct (py_float lib value); [|discriminate Ht].
    injection Ht as <-. rewrite length_map, (mapM_length _ _ _ _ _ Hm).
    apply series_length.
  - destruct e; try discriminate H; injection H as <-; apply all_true_length.
Qed.

Lemma create_filter_mask_length :
  forall df column operator value mask,
    _create_filter_mask lib client df column operator value table_id = Ok mask ->
    List.length mask = List.length (rows df).
Proof.
  intros df column operator value mask H. unfold _create_filter_mask in H.
  destruct (date_column_test client table_id column) as [is_date|e]; [|discriminate H].
  cbn [bind] in H. destruct is_date.
  - destruct (_convert_timestamp_to_datetime lib (series df column)) as [dc|e] eqn:Hc;
      [|discriminate H].
    cbn [bind] in H. injection H as <-.
    apply date_filter_mask_length.
    rewrite (convert_timestamp_length _ _ Hc). apply series_length.
  - repeat break_if_in H;
      try (injection H as <-; rewrite ?length_map;
           first [apply astype_str_length | apply all_true_length]);
      try (eapply numeric_filter_mask_length; exact H).
    destruct (re_compile_icase lib value); [|discriminate H].
    injection H as <-. rewrite length_map. apply astype_str_length.
Qed.

Lemma filter_mask_length :
  forall df f mask,
    filter_mask lib client df table_id f = Some mask ->
    List.length mask = List.length (rows df).
Proof.
  intros df f mask H. unfold filter_mask in H.
  destruct (incomplete f); [discriminate H|].
  destruct (negb _); [discriminate H|].
  destruct (_create_filter_mask _ _ _ _ _ _ _) as [m|e] eqn:Hm; [|discriminate H].
  injection H as <-. eapply create_filter_mask_length. exact Hm.
Qed.

End Evaluator.

(** ** Selections and index labels *)

Lemma mask_or_length :
  forall a b n, List.length a = n -> List.length b = n -> List.length (mask_or a b) = n.
Proof.
  induction a as [|x a IH]; intros b n Ha Hb; destruct b as [|y b]; cbn in *; subst;
    try discriminate; try reflexivity.
  f_equal. apply IH; [reflexivity|]. injection Hb as Hb. exact Hb.
Qed.

Lemma label_in_select_incl :
  forall l mask i, label_in i (select l mask) = true -> label_in i l = true.
Proof.
  induction l as [|r l IH]; intros mask i H; destruct mask as [|b mask]; cbn in *;
    try discriminate.
  destruct b; cbn in H.
  - apply orb_true_iff in H as [H|H]; apply orb_true_iff; [left; exact H|right].
    eapply IH; exact H.
  - apply orb_true_iff; right. eapply IH; exact H.
Qed.

Lemma label_in_In :
  forall i l, label_in i l = true <-> In i (map fst l).
Proof.
  intros i l. unfold label_in. rewrite existsb_exists. split.
  - intros [j [Hj He]]. apply Nat.eqb_eq in He. subst. exact Hj.
  - intros H. exists i. split; [exact H|apply Nat.eqb_refl].
Qed.

Lemma select_as_filter :
  forall l mask,
    NoDup (map fst l) ->
    List.length mask = List.length l ->
    select l mask = filter (fun r => label_in (fst r) (select l mask)) l.
Proof.
  induction l as [|r l IH]; intros mask Hnd Hlen; destruct mask as [|b mask];
    cbn in Hlen; try discriminate; [reflexivity|].
  injection Hlen as Hlen. cbn [map] in Hnd. inversion Hnd as [|x xs Hnotin Hnd']; subst.
  cbn [select filter]. destruct b.
  - assert (Hhead : label_in (fst r) (r :: select l mask) = true).
    { unfold label_in. cbn. rewrite Nat.eqb_refl. reflexivity. }
    rewrite Hhead. f_equal.
    rewrite (IH mask Hnd' Hlen) at 1.
    apply filter_ext_in. intros r' Hin.
    unfold label_in at 2. cbn [map existsb].
    destruct (Nat.eqb (fst r') (fst r)) eqn:He; [|reflexivity].
    apply Nat.eqb_eq in He. exfalso. apply Hnotin. rewrite <- He.
    apply in_map. exact Hin.
  - destruct (label_in (fst r) (select l mask)) eqn:Hhead.
    + exfalso. apply Hnotin. apply label_in_In.
      eapply label_in_select_incl. exact Hhead.
    + apply IH; assumption.
Qed.

Lemma label_in_select_or :
  forall l a b i,
    List.length a = List.length l ->
    List.length b = List.length l ->
    label_in i (select l (mask_or a b))
    = label_in i (select l a) || label_in i (select l b).
Proof.
  induction l as [|r l IH]; intros a b i Ha Hb; destruct a as [|x a]; destruct b as [|y b];
    cbn in Ha, Hb; try discriminate; [reflexivity|].
  injection Ha as Ha. injection Hb as Hb.
  cbn [mask_or select]. specialize (IH a b i Ha Hb).
  unfold label_in in *.
  destruct x, y; cbn [orb map existsb fst]; rewrite IH;
    destruct (Nat.eqb i (fst r)); cbn [orb];
    rewrite ?orb_true_r; try reflexivity.
Qed.

Lemma label_in_select_fold :
  forall l others first i,
    List.length first = List.length l ->
    Forall (fun m => List.length m = List.length l) others ->
    label_in i (select l (fold_left mask_or others first))
    = existsb (fun m => label_in i (select l m)) (first :: others).
Proof.
  intros l others. induction others as [|m others IH]; intros first i Hf Ho.
  - cbn. rewrite orb_false_r. reflexivity.
  - inversion Ho as [|m' ms Hm Ho']; subst. cbn [fold_left].
    rewrite (IH (mask_or first m) i (mask_or_length _ _ _ Hf Hm) Ho').
    cbn [existsb]. rewrite (label_in_select_or l first m i Hf Hm).
    rewrite orb_assoc. reflexivity.
Qed.

Lemma existsb_map_compose :
  forall (A B : Type) (g : B -> bool) (h : A -> B) (l : list A),
    existsb g (map h l) = existsb (fun x => g (h x)) l.
Proof.
  intros A B g h. induction l as [|x l IH]; cbn; [reflexivity|]. rewrite IH. reflexivity.
Qed.

Lemma NoDup_labels_filter :
  forall (P : nat * dict value -> bool) l,
    NoDup (map fst l) -> NoDup (map fst (filter P l)).
Proof.
  intros P. induction l as [|r l IH]; intros Hnd; cbn; [constructor|].
  cbn [map] in Hnd. inversion Hnd as [|x xs Hnotin Hnd']; subst.
  destruct (P r); cbn [map]; [|apply IH; exact Hnd'].
  constructor; [|apply IH; exact Hnd'].
  intros Hin. apply Hnotin. apply in_map_iff in Hin as [r' [He Hin]].
  apply filter_In in Hin as [Hin _]. rewrite <- He. apply in_map. exact Hin.
Qed.

Lemma filter_all :
  forall (A : Type) (P : A -> bool) (l : list A),
    (forall x, In x l -> P x = true) -> filter P l = l.
Proof.
  intros A P. induction l as [|x l IH]; intros H; cbn; [reflexivity|].
  rewrite (H x (or_introl eq_refl)). f_equal. apply IH.
  intros y Hy. apply H. right. exact Hy.
Qed.

Lemma or_loop_resolved :
  forall lib client table_id df filters,
    forallb (resolves lib client df table_id) filters = true ->
    exists masks,
      or_loop lib client table_id df filters = masks
      /\ map Some masks = map (filter_mask lib client df table_id) filters.
Proof.
  intros lib client table_id df. induction filters as [|f filters IH]; intros Hall.
  - exists []. split; reflexivity.
  - cbn [forallb] in Hall. apply andb_true_iff in Hall as [Hf Hrest].
    destruct (IH Hrest) as [masks [Hloop Hmasks]].
    unfold resolves in Hf. cbn [or_loop map].
    destruct (filter_mask lib client df table_id f) as [m|]; [|discriminate Hf].
    exists (m :: masks). rewrite Hloop. split; [reflexivity|].
    cbn [map]. rewrite Hmasks. reflexivity.
Qed.

Lemma in_match_set_resolved :
  forall lib client table_id df f mask i,
    empty df = false ->
    filter_mask lib client df table_id f = Some mask ->
    in_match_set lib client df table_id f i = label_in i (select (rows df) mask).
Proof.
  intros lib client table_id df f mask i He Hm. unfold in_match_set.
  rewrite apply_advanced_filters_payload. unfold evaluate.
  rewrite He. cbn [String.eqb Ascii.eqb Bool.eqb andb or_loop]. rewrite Hm.
  reflexivity.
Qed.

Lemma in_match_set_empty :
  forall lib client table_id df f i,
    empty df = true ->
    in_match_set lib client df table_id f i = label_in i (rows df).
Proof.
  intros lib client table_id df f i He. unfold in_match_set.
  rewrite apply_advanced_filters_payload. unfold evaluate. rewrite He. reflexivity.
Qed.

(** The match set of a filter the loop takes the mask of is what that
    mask selects. *)
Lemma match_set_resolved :
  forall lib client table_id df f mask,
    filter_mask lib client df table_id f = Some mask ->
    match_set lib client df table_id f = select (rows df) mask.
Proof.
  intros lib client table_id df f mask H. unfold filter_mask in H. unfold match_set.
  destruct (incomplete f); [discriminate H|].
  destruct (negb (mem (text (f_column f)) (columns df))); [discriminate H|].
  destruct (_create_filter_mask lib client df (text (f_column f)) (text (f_operator f))
              (text (f_value f)) table_id) as [m|e];
    [injection H as <-; reflexivity|discriminate H].
Qed.

(** A frame that has a column and is empty has no row. *)
Lemma resolves_empty :
  forall lib client table_id df f,
    resolves lib client df table_id f = true -> empty df = true -> rows df = [].
Proof.
  intros lib client table_id df f Hf He. unfold resolves, filter_mask in Hf.
  destruct (incomplete f); [discriminate Hf|].
  destruct (mem (text (f_column f)) (columns df)) eqn:Hc; [|discriminate Hf].
  unfold empty in He. destruct (rows df) as [|r rs]; [reflexivity|].
  destruct (columns df); [discriminate Hc|discriminate He].
Qed.

(** C2.  In the OR mode, when every filter of a specification that has one
    resolves, the evaluation returns the rows of the table that belong to
    the match set of at least one filter, the match set of a filter being
    what the mask built for that filter alone on the unfiltered table
    selects: the rows of the table are gone through in their order and each
    is kept or not, so the order is that of the table and no row comes
    twice. *)
Theorem or_mode_is_union_of_match_sets :
  forall lib client table_id df f rest,
    NoDup (index df) ->
    forallb (resolves lib client df table_id) (f :: rest) = true ->
    exists filtered_df,
      apply_advanced_filters lib client df (Payload (Some "or") (Some (f :: rest))) table_id
      = Some filtered_df
      /\ columns filtered_df = columns df
      /\ rows filtered_df
         = filter (fun r => existsb (fun g => label_in (fst r)
                                                       (match_set lib client df table_id g))
                                    (f :: rest))
                  (rows df)
      /\ NoDup (index filtered_df).
Proof.
  intros lib client table_id df f rest Hnd Hall.
  rewrite apply_advanced_filters_payload. eexists. split; [reflexivity|].
  unfold evaluate. destruct (empty df) eqn:He.
  - split; [reflexivity|]. split; [|exact Hnd].
    cbn [forallb] in Hall. apply andb_true_iff in Hall as [Hf _].
    rewrite (resolves_empty _ _ _ _ _ Hf He). reflexivity.
  - cbn [String.eqb Ascii.eqb Bool.eqb andb].
    destruct (or_loop_resolved _ _ _ _ _ Hall) as [masks [Hloop Hmasks]].
    rewrite Hloop. clear Hloop.
    assert (Hlens : Forall (fun m => List.length m = List.length (rows df)) masks).
    { apply Forall_forall. intros m Hm.
      assert (Hin : In (Some m) (map (filter_mask lib client df table_id) (f :: rest))).
      { rewrite <- Hmasks. apply in_map. exact Hm. }
      apply in_map_iff in Hin as [g [Hg _]].
      eapply filter_mask_length. exact Hg. }
    assert (Hsets : forall i,
               existsb (fun g => label_in i (match_set lib client df table_id g)) (f :: rest)
               = existsb (fun m => label_in i (select (rows df) m)) masks).
    { intros i. clear Hlens. revert masks Hmasks.
      generalize (f :: rest) as filters. clear Hall.
      induction filters as [|g filters IH]; intros masks Hmasks;
        destruct masks as [|m masks]; cbn [map] in Hmasks; try discriminate; [reflexivity|].
      injection Hmasks as Hm Hmasks. cbn [existsb].
      rewrite (match_set_resolved _ _ _ _ _ _ (eq_sym Hm)).
      rewrite (IH masks Hmasks). reflexivity. }
    destruct masks as [|first others]; [discriminate Hmasks|].
    inversion Hlens as [|m ms Hfirst Hothers]; subst.
    cbn [loc_mask columns rows]. split; [reflexivity|].
    assert (Hrows : select (rows df) (fold_left mask_or others first)
                    = filter (fun r => existsb
                                (fun g => label_in (fst r) (match_set lib client df table_id g))
                                (f :: rest)) (rows df)).
    { rewrite select_as_filter.
      - apply filter_ext. intros r. rewrite Hsets.
        apply label_in_select_fold; assumption.
      - exact Hnd.
      - clear Hsets Hmasks Hlens. revert first Hfirst.
        induction Hothers as [|m ms Hm Hms IH]; intros first Hfirst; cbn [fold_left].
        + exact Hfirst.
        + apply IH. apply mask_or_length; assumption. }
    split; [exact Hrows|].
    unfold index, loc_mask. cbn [rows]. rewrite Hrows.
    apply NoDup_labels_filter. exact Hnd.
Qed.

(** The evaluation of [people] in the OR mode on two filters that resolve:
    Martin alone is under 27, Dupont alone has [DUP] in their name, and
    the two rows are returned, in the order of the table. *)
Lemma or_mode_is_union_of_match_sets_witness :
  (exists filtered_df,
      apply_advanced_filters plain no_client people
        (Payload (Some "or") (Some [on "Nom" "contains" "DUP"; on "Age" "less_than" "27"])) None
      = Some filtered_df
      /\ columns filtered_df = columns people
      /\ rows filtered_df
         = filter (fun r => existsb (fun g => label_in (fst r)
                                                       (match_set plain no_client people None g))
                                    [on "Nom" "contains" "DUP"; on "Age" "less_than" "27"])
                  (rows people)
      /\ NoDup (index filtered_df))
  /\ match_set plain no_client people None (on "Nom" "contains" "DUP")
     = [ (0%nat, [("Nom", VStr "Dupont"); ("Age", VInt 30); ("Ville", VStr "Paris")]) ]
  /\ match_set plain no_client people None (on "Age" "less_than" "27")
     = [ (1%nat, [("Nom", VStr "Martin"); ("Age", VInt 25); ("Ville", VStr "Lyon")]) ]
  /\ apply_advanced_filters plain no_client people
       (Payload (Some "or") (Some [on "Nom" "contains" "DUP"; on "Age" "less_than" "27"])) None
     = Some (mk_frame ["Nom"; "Age"; "Ville"]
               [ (0%nat, [("Nom", VStr "Dupont"); ("Age", VInt 30); ("Ville", VStr "Paris")]);
                 (1%nat, [("Nom", VStr "Martin"); ("Age", VInt 25); ("Ville", VStr "Lyon")]) ]).
Proof.
  split; [|split; [|split]; reflexivity].
  apply (or_mode_is_union_of_match_sets plain no_client None people).
  - repeat constructor; cbn; intuition discriminate.
  - reflexivity.
Defined.

(** C5.  A filter whose value is absent or the empty string is passed over
    in every mode and in both shapes of the payload: the evaluation with it,
    wherever it stands among the filters, is the evaluation without it, and
    a specification that has only such filters returns the table itself. *)
Theorem filter_without_value_is_noop :
  forall lib client table_id df mode before after p only,
    falsy (f_value p) = true ->
    forallb (fun f => falsy (f_value f)) only = true ->
    apply_advanced_filters lib client df (Payload mode (Some (before ++ p :: after)%list)) table_id
    = apply_advanced_filters lib client df (Payload mode (Some (before ++ after)%list)) table_id
    /\ apply_advanced_filters lib client df (Legacy (before ++ p :: after)%list) table_id
       = apply_advanced_filters lib client df (Legacy (before ++ after)%list) table_id
    /\ apply_advanced_filters lib client df (Payload mode (Some only)) table_id = Some df
    /\ apply_advanced_filters lib client df (Legacy only) table_id = Some df.
Proof.
  intros lib client table_id df mode before after p only Hp Honly.
  rewrite !apply_advanced_filters_payload, !apply_advanced_filters_legacy.
  rewrite !(evaluate_skip lib client table_id df _ before after p Hp).
  rewrite !(evaluate_without_values lib client table_id df _ only Honly).
  repeat split; reflexivity.
Qed.

(** On [people], in the OR mode, a filter with an empty value between two
    others, and a specification of two filters without a value. *)
Lemma filter_without_value_is_noop_witness :
  let p := mk_filter (Some "Nom") (Some "equals") (Some "") in
  let q := mk_filter (Some "Ville") (Some "contains") None in
  apply_advanced_filters plain no_client people
    (Payload (Some "or") (Some ([on "Age" "less_than" "27"] ++ p :: [on "Nom" "contains" "DUP"])%list))
    None
  = apply_advanced_filters plain no_client people
      (Payload (Some "or") (Some ([on "Age" "less_than" "27"] ++ [on "Nom" "contains" "DUP"])%list))
      None
  /\ apply_advanced_filters plain no_client people
       (Legacy ([on "Age" "less_than" "27"] ++ p :: [on "Nom" "contains" "DUP"])%list) None
     = apply_advanced_filters plain no_client people
         (Legacy ([on "Age" "less_than" "27"] ++ [on "Nom" "contains" "DUP"])%list) None
  /\ apply_advanced_filters plain no_client people (Payload (Some "or") (Some [p; q])) None
     = Some people
  /\ apply_advanced_filters plain no_client people (Legacy [p; q]) None = Some people.
Proof.
  intros p q.
  apply (filter_without_value_is_noop plain no_client None people (Some "or")
           [on "Age" "less_than" "27"] [on "Nom" "contains" "DUP"] p [p; q]);
    reflexivity.
Defined.

(** C10.  The bare list of filters and the dictionary in the AND mode with
    the same list are evaluated alike, and return a table; a dictionary
    whose mode is neither ["and"] nor ["or"] is evaluated as in the AND mode. *)
Theorem legacy_and_unknown_mode_are_and_mode :
  forall lib client table_id df filters mode,
    apply_advanced_filters lib client df (Legacy filters) table_id
    = apply_advanced_filters lib client df (Payload (Some "and") (Some filters)) table_id
    /\ apply_advanced_filters lib client df (Payload (Some mode) (Some filters)) table_id
       = apply_advanced_filters lib client df
           (Payload (Some (if String.eqb mode "or" then "or" else "and")) (Some filters))
           table_id
    /\ exists filtered_df,
         apply_advanced_filters lib client df (Legacy filters) table_id = Some filtered_df.
Proof.
  intros lib client table_id df filters mode.
  rewrite !apply_advanced_filters_payload, !apply_advanced_filters_legacy.
  split; [reflexivity|]. split; [|eexists; reflexivity].
  f_equal. unfold evaluate.
  destruct (String.eqb mode "or") eqn:Hor; [reflexivity|].
  reflexivity.
Qed.

(** ** Filters that degrade to the mask that selects everything *)

Lemma date_filter_mask_unsupported :
  forall lib df date_col operator value,
    date_operator operator = false ->
    date_filter_mask lib df date_col operator value = all_true df.
Proof.
  intros lib df date_col operator value Hop. unfold date_filter_mask.
  unfold date_operator, mem in Hop. cbn [existsb] in Hop.
  rewrite orb_false_r in Hop. rewrite !orb_false_iff in Hop.
  destruct Hop as (He & Hn & Hg & Hl).
  rewrite He, Hn, Hg, Hl. destruct (_parse_date_filter lib value); reflexivity.
Qed.

Lemma date_filter_mask_unparsed :
  forall lib df date_col operator value e,
    _parse_date_filter lib value = Raise e ->
    date_filter_mask lib df date_col operator value = all_true df.
Proof.
  intros lib df date_col operator value e Hp. unfold date_filter_mask.
  rewrite Hp. reflexivity.
Qed.

(** A filter on a date column whose operator is none of the four of
    dates, or whose value is no date, has the mask that selects every
    row. *)
Lemma filter_mask_degraded :
  forall lib client table_id df f date_col,
    incomplete f = false ->
    mem (text (f_column f)) (columns df) = true ->
    date_column_test client table_id (text (f_column f)) = Ok true ->
    _convert_timestamp_to_datetime lib (series df (text (f_column f))) = Ok date_col ->
    date_operator (text (f_operator f)) = false
    \/ (exists e, _parse_date_filter lib (text (f_value f)) = Raise e) ->
    filter_mask lib client df table_id f = Some (all_true df).
Proof.
  intros lib client table_id df f date_col Hf Hcol Hdate Hconv Hbad.
  unfold filter_mask, _create_filter_mask.
  rewrite Hf, Hcol, Hdate. cbn [negb bind]. rewrite Hconv. cbn [bind].
  destruct Hbad as [Hop | [e Hparse]].
  - rewrite (date_filter_mask_unsupported _ _ _ _ _ Hop). reflexivity.
  - rewrite (date_filter_mask_unparsed _ _ _ _ _ e Hparse). reflexivity.
Qed.

Lemma mask_or_true_l :
  forall a b,
    List.length a = List.length b -> forallb id a = true -> forallb id (mask_or a b) = true.
Proof.
  induction a as [|x a IH]; intros b Hlen Ha; destruct b as [|y b]; try discriminate Hlen;
    [reflexivity|].
  cbn [forallb id] in Ha. apply andb_true_iff in Ha as [Hx Ha]. unfold id in Hx. subst x.
  cbn [mask_or forallb id orb]. apply IH; [|exact Ha]. injection Hlen as Hlen. exact Hlen.
Qed.

Lemma mask_or_true_r :
  forall a b,
    List.length a = List.length b -> forallb id b = true -> forallb id (mask_or a b) = true.
Proof.
  induction a as [|x a IH]; intros b Hlen Hb; destruct b as [|y b]; try discriminate Hlen;
    [reflexivity|].
  cbn [forallb id] in Hb. apply andb_true_iff in Hb as [Hy Hb]. unfold id in Hy. subst y.
  cbn [mask_or forallb id]. rewrite orb_true_r. apply IH; [|exact Hb].
  injection Hlen as Hlen. exact Hlen.
Qed.

Lemma fold_mask_or_true :
  forall n others first,
    List.length first = n ->
    Forall (fun m => List.length m = n) others ->
    forallb id first = true \/ Exists (fun m => forallb id m = true) others ->
    forallb id (fold_left mask_or others first) = true.
Proof.
  intros n others. induction others as [|m others IH]; intros first Hfirst Hothers Htrue;
    cbn [fold_left].
  - destruct Htrue as [H|H]; [exact H|inversion H].
  - inversion Hothers as [|m' ms Hm Hothers']; subst.
    apply IH; [apply mask_or_length; [reflexivity|exact Hm] | exact Hothers' |].
    destruct Htrue as [H|H].
    + left. apply mask_or_true_l; [symmetry; exact Hm|exact H].
    + inversion H as [m' ms Hhead|m' ms Htail]; subst.
      * left. apply mask_or_true_r; [symmetry; exact Hm|exact Hhead].
      * right. exact Htail.
Qed.

Lemma select_all :
  forall (A : Type) (l : list A) mask,
    List.length mask = List.length l -> forallb id mask = true -> select l mask = l.
Proof.
  intros A. induction l as [|x l IH]; intros mask Hlen Hall; destruct mask as [|b mask];
    try discriminate Hlen; [reflexivity|].
  cbn [forallb id] in Hall. apply andb_true_iff in Hall as [Hb Hall]. unfold id in Hb. subst b.
  cbn [select]. f_equal. apply IH; [|exact Hall]. injection Hlen as Hlen. exact Hlen.
Qed.

Lemma all_true_holds : forall df, forallb id (all_true df) = true.
Proof.
  intros df. unfold all_true. induction (rows df) as [|r l IH]; [reflexivity|exact IH].
Qed.

Lemma or_loop_masks :
  forall lib client table_id df filters,
    Forall (fun m => List.length m = List.length (rows df))
           (or_loop lib client table_id df filters)
    /\ (forall f m,
          In f filters -> filter_mask lib client df table_id f = Some m ->
          In m (or_loop lib client table_id df filters)).
Proof.
  intros lib client table_id df. induction filters as [|g filters [IHlen IHin]];
    cbn [or_loop]; [split; [constructor|intros f m []]|].
  destruct (filter_mask lib client df table_id g) as [mg|] eqn:Hg; split.
  - constructor; [eapply filter_mask_length; exact Hg|exact IHlen].
  - intros f m [->|Hin] Hm; [left; congruence|right; eapply IHin; eassumption].
  - exact IHlen.
  - intros f m [->|Hin] Hm; [congruence|eapply IHin; eassumption].
Qed.

(** In the OR mode one filter whose mask selects every row makes the
    evaluation return the whole table, whatever the other filters. *)
Lemma or_mode_with_full_mask :
  forall lib client table_id df filters f,
    In f filters ->
    filter_mask lib client df table_id f = Some (all_true df) ->
    apply_advanced_filters lib client df (Payload (Some "or") (Some filters)) table_id
    = Some df.
Proof.
  intros lib client table_id df filters f Hin Hf.
  rewrite apply_advanced_filters_payload. f_equal. unfold evaluate.
  destruct (empty df); [reflexivity|]. cbn [String.eqb Ascii.eqb Bool.eqb andb].
  destruct (or_loop_masks lib client table_id df filters) as [Hlen Hmasks].
  specialize (Hmasks f (all_true df) Hin Hf).
  destruct (or_loop lib client table_id df filters) as [|first others]; [reflexivity|].
  inversion Hlen as [|m ms Hfirst Hothers]; subst.
  unfold loc_mask. rewrite select_all.
  - destruct df; reflexivity.
  - clear Hmasks Hlen. revert first Hfirst.
    induction Hothers as [|m ms Hm Hms IH]; intros first Hfirst; cbn [fold_left];
      [exact Hfirst|].
    apply IH. apply mask_or_length; assumption.
  - apply (fold_mask_or_true (List.length (rows df))); [exact Hfirst|exact Hothers|].
    destruct Hmasks as [Hhead|Hin'].
    + left. rewrite Hhead. apply all_true_holds.
    + right. apply Exists_exists. exists (all_true df). split; [exact Hin'|].
      apply all_true_holds.
Qed.

(** C1, on the code.  In the OR mode a filter on a date column whose
    operator is not one of the four of dates, or whose value is no date,
    is not left out of the union: its mask selects every row, and so does
    the union (see [or_mode_with_full_mask]).  Here the filter on [Nom]
    alone matches the first row only, and with either such filter next to
    it both rows are returned. *)
Theorem or_mode_degraded_filter_selects_every_row :
  forall lib,
    apply_advanced_filters lib visits_client visits
      (Payload (Some "or") (Some [on "Nom" "equals" "Alice"])) (Some "Visites")
    = Some (mk_frame ["Nom"; "Jour"]
              [(0%nat, [("Nom", VStr "Alice"); ("Jour", VInt 1700000000)])])
    /\ apply_advanced_filters lib visits_client visits
         (Payload (Some "or") (Some [on "Nom" "equals" "Alice"; on "Jour" "contains" "2023"]))
         (Some "Visites")
       = Some visits
    /\ apply_advanced_filters plain visits_client visits
         (Payload (Some "or")
                  (Some [on "Nom" "equals" "Alice"; on "Jour" "equals" "pas une date"]))
         (Some "Visites")
       = Some visits.
Proof.
  intros lib. rewrite !apply_advanced_filters_payload.
  split; [reflexivity|]. split; [|reflexivity].
  unfold evaluate. cbn [empty visits rows columns String.eqb Ascii.eqb Bool.eqb andb].
  cbn [or_loop].
  assert (Hdate : filter_mask lib visits_client visits (Some "Visites")
                    (on "Jour" "contains" "2023") = Some [true; true]).
  { unfold filter_mask, _create_filter_mask. cbn -[date_filter_mask].
    rewrite date_filter_mask_unsupported by reflexivity. reflexivity. }
  rewrite Hdate. reflexivity.
Qed.

(** C4, on the code.  [starts_with] and [ends_with] compare the text of the
    cell with the value as they are written: on [people], no name starts
    with ["dup"] and none ends with ["ONT"] for the program, although
    ["Dupont"] does once both sides are put in lower case; [contains]
    does find ["DUP"] in it. *)
Theorem starts_with_and_ends_with_tell_case_apart :
  forall lib,
    _create_filter_mask lib no_client people "Nom" "starts_with" "dup" None
    = Ok [false; false; false]
    /\ _create_filter_mask lib no_client people "Nom" "ends_with" "ONT" None
       = Ok [false; false; false]
    /\ map (fun s => PyStr.startswith (PyStr.lower s) (PyStr.lower "dup"))
           (astype_str people "Nom") = [true; false; false]
    /\ map (fun s => PyStr.endswith (PyStr.lower s) (PyStr.lower "ONT"))
           (astype_str people "Nom") = [true; false; false]
    /\ _create_filter_mask plain no_client people "Nom" "contains" "DUP" None
       = Ok [true; false; false].
Proof. intros lib. repeat split; reflexivity. Qed.

(** ** The file names *)

Lemma length_append :
  forall s t, String.length (s ++ t) = (String.length s + String.length t)%nat.
Proof.
  induction s as [|c s IH]; intros t; cbn [append String.length]; [reflexivity|].
  rewrite IH. reflexivity.
Qed.

Lemma drop_append : forall s t, PyStr.drop (String.length s) (s ++ t) = t.
Proof.
  induction s as [|c s IH]; intros t; cbn [append String.length PyStr.drop].
  - destruct t; reflexivity.
  - apply IH.
Qed.

Lemma endswith_append : forall s t, PyStr.endswith (s ++ t) t = true.
Proof.
  intros s t. unfold PyStr.endswith. rewrite length_append.
  replace (String.length s + String.length t - String.length t)%nat
    with (String.length s) by lia.
  rewrite drop_append, String.eqb_refl.
  apply andb_true_iff. split; [apply Nat.leb_le; lia|reflexivity].
Qed.

(** Every file name ends with [".pdf"]. *)
Lemma export_filename_is_pdf :
  forall filename_pattern filter_value table_id current_date,
    PyStr.endswith
      (Filename.export_filename filename_pattern filter_value table_id current_date)
      ".pdf" = true.
Proof.
  intros filename_pattern filter_value table_id current_date.
  unfold Filename.export_filename. cbv zeta.
  match goal with
  | |- context [if PyStr.endswith ?f ".pdf" then _ else _] =>
      destruct (PyStr.endswith f ".pdf") eqn:He
  end; [exact He|apply endswith_append].
Qed.

(** C3, on the code.  The group key ["Paris / Nord"] becomes
    ["Paris___Nord"], and one pass that replaces each ["__"] it meets leaves
    two underscores out of three. *)
Theorem export_filename_keeps_a_double_underscore :
  Filename.safe_filter_value "Paris / Nord" = "Paris___Nord"
  /\ Filename.export_filename "{filter_value}_{date}.pdf" "Paris / Nord" "Table1"
       (mk_datetime 2024 3 5 10 30 0)
     = "Paris__Nord_20240305.pdf".
Proof. split; reflexivity. Qed.

(* ================================================================== *)
(** * Properties of the record lookup of the upload                    *)
(* ================================================================== *)

Lemma record_matches_timestamp :
  forall lib filter_column filter_value r,
    numeric_or_missing (field_value r filter_column) = true ->
    String.eqb filter_value "nan" = false ->
    record_matches lib true filter_column filter_value r
    = has_key filter_column filter_value r.
Proof.
  intros lib filter_column filter_value r Hnum Hnan.
  unfold record_matches, has_key, key_of_timestamp,
    _convert_timestamp_to_datetime, to_datetime_unit_s.
  cbn [forallb]. rewrite Hnum. cbn [andb map].
  destruct (timestamp_cell (field_value r filter_column)); cbn [formatted_date option_map].
  - reflexivity.
  - rewrite String.eqb_sym. exact Hnan.
Qed.

(* ================================================================== *)
(** * Properties of the date formatter                                 *)
(* ================================================================== *)


(** What the formatter returns on a value that is not a list. *)
Lemma format_date_value_scalar :
  forall lib value,
    PyVal.is_list value = false ->
    format_date_value lib value
    = Ok (if PyVal.isna value then ""
          else match date_obj lib value with
               | Some d => strftime_dmY d
               | None => PyVal.str value
               end).
Proof.
  intros lib value Hlist.
  destruct value; try discriminate Hlist; cbn [format_date_value PyVal.isna];
    try reflexivity; destruct (date_obj lib _); reflexivity.
Qed.



(* ================================================================== *)
(** * Properties of the grouping engine                                *)
(* ================================================================== *)

(** ** Equality of values *)

Lemma present_key : forall v, present v = true -> exists k, key_of v = Some k.
Proof.
  intros v H. destruct v; try discriminate H; cbn [key_of]; eexists; reflexivity.
Qed.

Lemma eq_by_key :
  forall a b,
    PyVal.is_list a = false ->
    present b = true ->
    (PyVal.eq a b = true <-> key_of a = key_of b).
Proof.
  intros a b Ha Hb.
  destruct a as [| |x|x|x|s|l]; try discriminate Ha;
    destruct b as [| |y|y|y|t|m]; try discriminate Hb;
    cbn [PyVal.eq PyVal.num key_of];
    try (split; intros H; discriminate H);
    try (rewrite Z.eqb_eq; split; intros H; [rewrite H; reflexivity | injection H; auto]);
    try (rewrite String.eqb_eq; split; intros H; [rewrite H; reflexivity | injection H; auto]).
Qed.

Lemma eq_present_refl : forall v, present v = true -> PyVal.eq v v = true.
Proof.
  intros v H. apply eq_by_key; [|exact H|reflexivity].
  unfold present in H. apply andb_true_iff in H as [_ H].
  apply negb_true_iff in H. exact H.
Qed.

Lemma present_not_list : forall v, present v = true -> PyVal.is_list v = false.
Proof.
  intros v H. unfold present in H. apply andb_true_iff in H as [_ H].
  apply negb_true_iff in H. exact H.
Qed.

Lemma present_not_missing : forall v, present v = true -> PyVal.isna v = false.
Proof.
  intros v H. unfold present in H. apply andb_true_iff in H as [H _].
  apply negb_true_iff in H. exact H.
Qed.

Lemma eq_present_sym :
  forall a b, present a = true -> present b = true -> PyVal.eq a b = PyVal.eq b a.
Proof.
  intros a b Ha Hb.
  pose proof (eq_by_key a b (present_not_list a Ha) Hb) as Hab.
  pose proof (eq_by_key b a (present_not_list b Hb) Ha) as Hba.
  destruct (PyVal.eq a b) eqn:E1, (PyVal.eq b a) eqn:E2; try reflexivity.
  - assert (K : key_of a = key_of b) by (apply Hab; reflexivity).
    symmetry in K. apply Hba in K. discriminate K.
  - assert (K : key_of b = key_of a) by (apply Hba; reflexivity).
    symmetry in K. apply Hab in K. discriminate K.
Qed.

Lemma eq_present_trans :
  forall a b c,
    present a = true -> present b = true -> present c = true ->
    PyVal.eq a b = true -> PyVal.eq b c = true -> PyVal.eq a c = true.
Proof.
  intros a b c Ha Hb Hc Hab Hbc.
  apply (eq_by_key a b (present_not_list a Ha) Hb) in Hab.
  apply (eq_by_key b c (present_not_list b Hb) Hc) in Hbc.
  apply (eq_by_key a c (present_not_list a Ha) Hc). congruence.
Qed.

Lemma eq_missing :
  forall c x, present c = true -> PyVal.isna x = true -> PyVal.eq c x = false.
Proof.
  intros c x Hc Hx.
  destruct c; try discriminate Hc; destruct x; try discriminate Hx; reflexivity.
Qed.

Lemma cell_eq_present :
  forall v c, present c = true -> cell_eq v c = PyVal.eq c v.
Proof.
  intros v c Hc. unfold cell_eq. rewrite (present_not_missing c Hc). reflexivity.
Qed.

Lemma existsb_eq_trans :
  forall a b seen,
    present a = true -> present b = true -> Forall (fun s => present s = true) seen ->
    PyVal.eq a b = true ->
    existsb (PyVal.eq b) seen = true ->
    existsb (PyVal.eq a) seen = true.
Proof.
  intros a b seen Ha Hb Hseen Hab Hex.
  apply existsb_exists in Hex as [s [Hs Hbs]]. apply existsb_exists. exists s.
  split; [exact Hs|]. rewrite Forall_forall in Hseen.
  exact (eq_present_trans a b s Ha Hb (Hseen s Hs) Hab Hbs).
Qed.

(** ** The values [unique()] keeps *)

Lemma unique_from_in :
  forall xs seen v,
    In v (unique_from seen xs) ->
    In v xs /\ PyVal.isna v = false /\ existsb (PyVal.eq v) seen = false.
Proof.
  induction xs as [|x xs IH]; intros seen v Hin; cbn [unique_from] in Hin; [contradiction|].
  destruct (PyVal.isna x) eqn:Hna.
  - destruct (IH seen v Hin) as (H1 & H2 & H3). repeat split; [right|..]; assumption.
  - destruct (existsb (PyVal.eq x) seen) eqn:Hseen.
    + destruct (IH seen v Hin) as (H1 & H2 & H3). repeat split; [right|..]; assumption.
    + destruct Hin as [<-|Hin].
      * repeat split; [left; reflexivity|..]; assumption.
      * destruct (IH (x :: seen) v Hin) as (H1 & H2 & H3).
        cbn [existsb] in H3. apply orb_false_iff in H3 as [_ H3].
        repeat split; [right|..]; assumption.
Qed.

Lemma unique_from_present :
  forall xs seen,
    Forall (fun x => PyVal.is_list x = false) xs ->
    Forall (fun v => present v = true) (unique_from seen xs).
Proof.
  intros xs seen Hxs. apply Forall_forall. intros v Hv.
  destruct (unique_from_in xs seen v Hv) as (Hin & Hna & _).
  rewrite Forall_forall in Hxs. unfold present.
  rewrite Hna, (Hxs v Hin). reflexivity.
Qed.

(** A value that is present is equal to exactly one of the values kept,
    when it is equal to a cell of the column and to no value seen before. *)
Lemma unique_from_count :
  forall xs seen c,
    present c = true ->
    Forall (fun x => PyVal.is_list x = false) xs ->
    Forall (fun s => present s = true) seen ->
    List.length (filter (fun v => cell_eq v c) (unique_from seen xs))
    = if existsb (PyVal.eq c) seen then 0%nat
      else if existsb (PyVal.eq c) xs then 1%nat else 0%nat.
Proof.
  induction xs as [|x xs IH]; intros seen c Hc Hxs Hseen; cbn [unique_from existsb].
  - cbn. destruct (existsb (PyVal.eq c) seen); reflexivity.
  - inversion Hxs as [|x' xs' Hx Hxs']; subst.
    destruct (PyVal.isna x) eqn:Hna.
    + rewrite (eq_missing c x Hc Hna). cbn [orb]. apply IH; assumption.
    + assert (Hpx : present x = true) by (unfold present; rewrite Hna, Hx; reflexivity).
      destruct (existsb (PyVal.eq x) seen) eqn:Hxseen.
      * rewrite (IH seen c Hc Hxs' Hseen).
        destruct (existsb (PyVal.eq c) seen) eqn:Hcseen; [reflexivity|].
        destruct (PyVal.eq c x) eqn:Hcx; [|reflexivity].
        rewrite (existsb_eq_trans c x seen Hc Hpx Hseen Hcx Hxseen) in Hcseen.
        discriminate Hcseen.
      * cbn [filter]. rewrite (cell_eq_present x c Hc).
        assert (Hseen' : Forall (fun s => present s = true) (x :: seen))
          by (constructor; assumption).
        pose proof (IH (x :: seen) c Hc Hxs' Hseen') as Hrest.
        cbn [existsb] in Hrest.
        destruct (PyVal.eq c x) eqn:Hcx; cbn [orb] in Hrest.
        -- cbn [List.length]. rewrite Hrest.
           destruct (existsb (PyVal.eq c) seen) eqn:Hcseen; [|reflexivity].
           rewrite (eq_present_sym c x Hc Hpx) in Hcx.
           rewrite (existsb_eq_trans x c seen Hpx Hc Hseen Hcx Hcseen) in Hxseen.
           discriminate Hxseen.
        -- rewrite Hrest. cbn [orb]. reflexivity.
Qed.

(** ** The rows of a group *)

Lemma select_map :
  forall (A : Type) (P : A -> bool) (l : list A), select l (map P l) = filter P l.
Proof.
  intros A P. induction l as [|x l IH]; cbn [map select filter]; [reflexivity|].
  rewrite IH. reflexivity.
Qed.

Lemma label_in_filter :
  forall (P : nat * dict value -> bool) l r,
    NoDup (map fst l) -> In r l ->
    label_in (fst r) (filter P l) = P r.
Proof.
  intros P. induction l as [|r0 l IH]; intros r Hnd Hin; [contradiction|].
  cbn [map] in Hnd. inversion Hnd as [|x xs Hnotin Hnd']; subst.
  destruct Hin as [->|Hin].
  - cbn [filter]. destruct (P r) eqn:HP.
    + unfold label_in. cbn. rewrite Nat.eqb_refl. reflexivity.
    + destruct (label_in (fst r) (filter P l)) eqn:Hl; [|reflexivity].
      exfalso. apply Hnotin. apply label_in_In in Hl.
      apply in_map_iff in Hl as [r' [He Hr']]. apply filter_In in Hr' as [Hr' _].
      rewrite <- He. apply in_map. exact Hr'.
  - assert (Hne : Nat.eqb (fst r) (fst r0) = false).
    { apply Nat.eqb_neq. intros He. apply Hnotin. rewrite <- He. apply in_map. exact Hin. }
    cbn [filter]. destruct (P r0).
    + unfold label_in. cbn [map existsb]. rewrite Hne. cbn [orb]. apply (IH r Hnd' Hin).
    + apply (IH r Hnd' Hin).
Qed.

Lemma StronglySorted_filter_labels :
  forall (P : nat * dict value -> bool) l,
    StronglySorted lt (map fst l) -> StronglySorted lt (map fst (filter P l)).
Proof.
  intros P. induction l as [|r l IH]; intros Hs; cbn [filter map]; [constructor|].
  cbn [map] in Hs. inversion Hs as [|x xs Hs' Hall]; subst.
  destruct (P r); [|apply IH; exact Hs'].
  cbn [map]. constructor; [apply IH; exact Hs'|].
  rewrite Forall_forall in *. intros i Hi. apply Hall.
  apply in_map_iff in Hi as [r' [He Hr']]. apply filter_In in Hr' as [Hr' _].
  rewrite <- He. apply in_map. exact Hr'.
Qed.

Lemma StronglySorted_seq : forall n a, StronglySorted lt (seq a n).
Proof.
  induction n as [|n IH]; intros a; cbn [seq]; constructor; [apply IH|].
  apply Forall_forall. intros i Hi. apply in_seq in Hi. lia.
Qed.

Lemma members_of_kept_value :
  forall col l seen v,
    Forall (fun r => PyVal.is_list (cell (snd r) col) = false) l ->
    In v (unique_from seen (map (fun r => cell (snd r) col) l)) ->
    members col l v <> [] /\ In (first_label col l v) (map fst l).
Proof.
  intros col l seen v Hl Hv.
  destruct (unique_from_in _ _ _ Hv) as (Hin & Hna & _).
  apply in_map_iff in Hin as [r [Hr Hrl]].
  assert (Hm : In r (members col l v)).
  { apply filter_In. split; [exact Hrl|]. rewrite Hr. unfold cell_eq. rewrite Hna.
    apply eq_present_refl. unfold present. rewrite Hna.
    rewrite Forall_forall in Hl. rewrite <- Hr, (Hl r Hrl). reflexivity. }
  unfold first_label. destruct (members col l v) as [|m ms] eqn:Hms; [contradiction|].
  split; [discriminate|]. cbn [map hd]. apply in_map.
  assert (Hmem : In m (members col l v)) by (rewrite Hms; left; reflexivity).
  apply filter_In in Hmem as [Hmem _]. exact Hmem.
Qed.

(** The groups come in the order their first rows come in the table. *)
Lemma first_labels_sorted :
  forall col l seen,
    Forall (fun r => PyVal.is_list (cell (snd r) col) = false) l ->
    Forall (fun s => present s = true) seen ->
    StronglySorted lt (map fst l) ->
    StronglySorted lt
      (map (first_label col l) (unique_from seen (map (fun r => cell (snd r) col) l))).
Proof.
  intros col. induction l as [|r0 l IH]; intros seen Hl Hseen Hs; [constructor|].
  inversion Hl as [|r0' l' Hr0 Hl']; subst.
  cbn [map] in Hs. inversion Hs as [|x xs Hs' Hlt]; subst.
  cbn [map unique_from].
  set (x := cell (snd r0) col) in *.
  assert (Hcells : Forall (fun c => PyVal.is_list c = false)
                          (map (fun r => cell (snd r) col) l))
    by (apply Forall_map; exact Hl').
  assert (Hsame : forall vs,
             (forall v, In v vs -> cell_eq v x = false) ->
             map (first_label col (r0 :: l)) vs = map (first_label col l) vs).
  { intros vs Hvs. apply map_ext_in. intros v Hv. unfold first_label, members.
    cbn [filter]. fold x. rewrite (Hvs v Hv). reflexivity. }
  destruct (PyVal.isna x) eqn:Hna.
  - rewrite Hsame; [apply IH; assumption|].
    intros v _. unfold cell_eq. rewrite Hna. reflexivity.
  - assert (Hpx : present x = true) by (unfold present; rewrite Hna, Hr0; reflexivity).
    destruct (existsb (PyVal.eq x) seen) eqn:Hxseen.
    + rewrite Hsame; [apply IH; assumption|].
      intros v Hv. rewrite (cell_eq_present v x Hpx).
      destruct (PyVal.eq x v) eqn:Hxv; [|reflexivity].
      pose proof (unique_from_present _ seen Hcells) as Hpres.
      rewrite Forall_forall in Hpres.
      assert (Hpv : present v = true) by (apply Hpres; exact Hv).
      destruct (unique_from_in _ _ _ Hv) as (_ & _ & Hvseen).
      rewrite (eq_present_sym x v Hpx Hpv) in Hxv.
      rewrite (existsb_eq_trans v x seen Hpv Hpx Hseen Hxv Hxseen) in Hvseen.
      discriminate Hvseen.
    + cbn [map].
      assert (Hfirst : first_label col (r0 :: l) x = fst r0).
      { unfold first_label, members. cbn [filter]. fold x.
        rewrite (cell_eq_present x x Hpx), (eq_present_refl x Hpx). reflexivity. }
      rewrite Hfirst.
      assert (Hrest : forall v,
                 In v (unique_from (x :: seen) (map (fun r => cell (snd r) col) l)) ->
                 cell_eq v x = false).
      { intros v Hv. rewrite (cell_eq_present v x Hpx).
        pose proof (unique_from_present _ (x :: seen) Hcells) as Hpres.
        rewrite Forall_forall in Hpres.
        destruct (unique_from_in _ _ _ Hv) as (_ & _ & Hvseen).
        cbn [existsb] in Hvseen. apply orb_false_iff in Hvseen as [Hvx _].
        rewrite (eq_present_sym x v Hpx (Hpres v Hv)). exact Hvx. }
      rewrite (Hsame _ Hrest).
      constructor.
      * apply IH; [assumption|constructor; assumption|assumption].
      * apply Forall_forall. intros i Hi. apply in_map_iff in Hi as [v [Hi Hv]].
        destruct (members_of_kept_value col l (x :: seen) v Hl' Hv) as [_ Hin].
        rewrite Hi in Hin. rewrite Forall_forall in Hlt. apply Hlt. exact Hin.
Qed.

(** ** The groups of [filter_data_by_column] *)

Lemma kept_row_label :
  forall df selected_columns r, fst (kept_row df selected_columns r) = fst r.
Proof. intros df [|s ss] r; reflexivity. Qed.

Lemma group_of_frame :
  forall df key_column selected_columns v,
    columns (group_of df key_column selected_columns v) = kept_columns df selected_columns
    /\ rows (group_of df key_column selected_columns v)
       = map (kept_row df selected_columns) (members key_column (rows df) v).
Proof.
  intros df key_column selected_columns v. unfold group_of, members.
  assert (Hsel : select (rows df) (map (cell_eq v) (series df key_column))
                 = filter (fun r => cell_eq v (cell (snd r) key_column)) (rows df)).
  { unfold series. rewrite map_map. apply select_map. }
  destruct selected_columns as [|s ss]; cbn [keep_selected kept_columns kept_row].
  - unfold loc_mask. cbn [columns rows]. rewrite Hsel, map_id. split; reflexivity.
  - unfold loc_columns, loc_mask. cbn [columns rows]. rewrite Hsel. split; reflexivity.
Qed.

Lemma group_of_index :
  forall df key_column selected_columns v,
    index (group_of df key_column selected_columns v)
    = map fst (members key_column (rows df) v).
Proof.
  intros df key_column selected_columns v. unfold index.
  destruct (group_of_frame df key_column selected_columns v) as [_ ->].
  rewrite map_map. apply map_ext. intros r. apply kept_row_label.
Qed.

Lemma frame_of_dicts_index :
  forall dicts, index (frame_of_dicts dicts) = seq 0 (List.length dicts).
Proof.
  intros dicts. unfold index, frame_of_dicts. cbn [rows].
  rewrite map_map. cbn [fst]. apply map_id.
Qed.

Lemma filter_map_commute :
  forall (A B : Type) (P : B -> bool) (f : A -> B) (l : list A),
    filter P (map f l) = map f (filter (fun x => P (f x)) l).
Proof.
  intros A B P f. induction l as [|x l IH]; cbn [map filter]; [reflexivity|].
  rewrite IH. destruct (P (f x)); reflexivity.
Qed.

(** C6, on the code.  The rows are grouped by the equality of their
    values and each group is named by the text of its value: the text
    ["1"] and the number [1] are written alike and are not equal, so that
    the two rows, whose values have the same text, are in two groups, both
    under the key ["1"]. *)
Theorem same_text_in_two_groups :
  PyVal.str (VStr "1") = PyVal.str (VInt 1)
  /\ filter_data_by_column plain no_client
       [Bare [("Ville", VStr "1")]; Bare [("Ville", VInt 1)]] "Ville" ["Ville"] None
     = Ok [ ("1", mk_frame ["Ville"] [(0%nat, [("Ville", VStr "1")])]);
            ("1", mk_frame ["Ville"] [(1%nat, [("Ville", VInt 1)])]) ].
Proof. split; reflexivity. Qed.

(** X28.  Grouping on a column that is no date column puts the rows
    in groups by the equality of their values in that column: each group
    is the rows of the table, in their order, whose value is equal to one
    value that is not missing, under the text of that value as its key,
    with the selected columns that the table has, in the order of the
    selection (every column when the selection is empty); a row whose
    value is missing is in no group and every other row is in exactly one;
    no group is empty, and the groups come in the order in which their
    first rows come in the table. *)
Theorem groups_partition_rows_by_value :
  forall lib client data filter_column selected_columns table_id,
    let df := frame_of_dicts (map fields_of data) in
    date_column_test client table_id filter_column = Ok false ->
    mem filter_column (columns df) = true ->
    existsb PyVal.is_list (series df filter_column) = false ->
    exists groups,
      filter_data_by_column lib client data filter_column selected_columns table_id
      = Ok groups
      /\ Forall (fun g =>
                   exists v,
                     present v = true
                     /\ fst g = PyVal.str v
                     /\ columns (snd g) = kept_columns df selected_columns
                     /\ rows (snd g)
                        = map (kept_row df selected_columns)
                              (filter (fun r => cell_eq v (cell (snd r) filter_column))
                                      (rows df)))
                groups
      /\ (forall r,
            In r (rows df) ->
            List.length (filter (fun g => in_index (fst r) (snd g)) groups)
            = if PyVal.isna (cell (snd r) filter_column) then 0%nat else 1%nat)
      /\ Forall (fun g => index (snd g) <> []) groups
      /\ StronglySorted lt (map (fun g => hd 0%nat (index (snd g))) groups).
Proof.
  intros lib client data filter_column selected_columns table_id df Hdate Hcolumn Hlists.
  eexists. split.
  { unfold filter_data_by_column. fold df.
    rewrite Hcolumn, Hdate. cbn [negb bind]. unfold dropna_unique.
    rewrite Hlists. cbn [bind]. reflexivity. }
  assert (Hindex : map fst (rows df) = seq 0 (List.length (map fields_of data)))
    by (apply frame_of_dicts_index).
  clearbody df.
  set (c := fun r : nat * dict value => cell (snd r) filter_column).
  assert (Hcells : Forall (fun x => PyVal.is_list x = false) (series df filter_column)).
  { apply Forall_forall. intros x Hx.
    destruct (PyVal.is_list x) eqn:Hl; [|reflexivity].
    assert (Hex : existsb PyVal.is_list (series df filter_column) = true)
      by (apply existsb_exists; exists x; split; assumption).
    rewrite Hex in Hlists. discriminate Hlists. }
  assert (Hrows : Forall (fun r => PyVal.is_list (c r) = false) (rows df))
    by (exact (proj1 (Forall_map c (fun x => PyVal.is_list x = false) (rows df)) Hcells)).
  assert (Hnd : NoDup (map fst (rows df))) by (rewrite Hindex; apply seq_NoDup).
  assert (Hsorted : StronglySorted lt (map fst (rows df)))
    by (rewrite Hindex; apply StronglySorted_seq).
  pose proof (unique_from_present _ [] Hcells) as Hpresent.
  split; [|split; [|split]].
  - apply Forall_map. apply Forall_forall. intros v Hv. cbn [fst snd].
    exists v. rewrite Forall_forall in Hpresent.
    destruct (group_of_frame df filter_column selected_columns v) as [Hc Hr].
    repeat split; [apply Hpresent; exact Hv | exact Hc | exact Hr].
  - intros r Hr. rewrite filter_map_commute, length_map. cbn [snd].
    assert (Hmember : forall v,
               in_index (fst r) (group_of df filter_column selected_columns v)
               = cell_eq v (c r)).
    { intros v. unfold in_index. rewrite group_of_index.
      apply (label_in_filter (fun r' => cell_eq v (c r')) (rows df) r Hnd Hr). }
    rewrite (filter_ext _ _ Hmember).
    change (cell (snd r) filter_column) with (c r).
    destruct (PyVal.isna (c r)) eqn:Hna.
    + rewrite (filter_ext _ (fun _ => false)).
      * generalize (unique_from [] (series df filter_column)).
        intros vs. induction vs as [|v vs IHv]; [reflexivity | exact IHv].
      * intros v. unfold cell_eq. rewrite Hna. reflexivity.
    + assert (Hpc : present (c r) = true).
      { unfold present. rewrite Hna. rewrite Forall_forall in Hrows.
        rewrite (Hrows r Hr). reflexivity. }
      rewrite (unique_from_count _ [] (c r) Hpc Hcells (Forall_nil _)).
      cbn [existsb].
      assert (Hex : existsb (PyVal.eq (c r)) (series df filter_column) = true).
      { apply existsb_exists. exists (c r). split.
        - unfold series. apply (in_map c). exact Hr.
        - apply eq_present_refl. exact Hpc. }
      rewrite Hex. reflexivity.
  - apply Forall_map. apply Forall_forall. intros v Hv. cbn [snd].
    rewrite group_of_index.
    destruct (members_of_kept_value filter_column (rows df) [] v Hrows Hv) as [Hne _].
    intros Hnil. apply map_eq_nil in Hnil. exact (Hne Hnil).
  - rewrite map_map. cbn [snd].
    rewrite (map_ext _ (first_label filter_column (rows df))).
    + apply (first_labels_sorted filter_column (rows df) [] Hrows (Forall_nil _) Hsorted).
    + intros v. rewrite group_of_index. reflexivity.
Qed.

(** The records of Paris, Lyon and Paris: two groups, Paris with the
    first and the third record, in that order, and Lyon with the second.
    And next to a missing value the integers 2^53 and 2^53 + 1 are one
    floating-point number, and one group. *)
Lemma groups_partition_rows_by_value_witness :
  let df := frame_of_dicts (map fields_of villes) in
  (exists groups,
      filter_data_by_column plain no_client villes "Ville" ["Nom"; "Score"] None = Ok groups
      /\ Forall (fun g =>
                   exists v,
                     present v = true
                     /\ fst g = PyVal.str v
                     /\ columns (snd g) = kept_columns df ["Nom"; "Score"]
                     /\ rows (snd g)
                        = map (kept_row df ["Nom"; "Score"])
                              (filter (fun r => cell_eq v (cell (snd r) "Ville")) (rows df)))
                groups
      /\ (forall r,
            In r (rows df) ->
            List.length (filter (fun g => in_index (fst r) (snd g)) groups)
            = if PyVal.isna (cell (snd r) "Ville") then 0%nat else 1%nat)
      /\ Forall (fun g => index (snd g) <> []) groups
      /\ StronglySorted lt (map (fun g => hd 0%nat (index (snd g))) groups))
  /\ filter_data_by_column plain no_client villes "Ville" ["Nom"; "Score"] None
     = Ok [ ("Paris", mk_frame ["Nom"; "Score"]
                        [ (0%nat, [("Nom", VStr "Dupont"); ("Score", VInt 85)]);
                          (2%nat, [("Nom", VStr "Bernard"); ("Score", VInt 78)]) ]);
            ("Lyon", mk_frame ["Nom"; "Score"]
                       [ (1%nat, [("Nom", VStr "Martin"); ("Score", VInt 92)]) ]) ]
  /\ filter_data_by_column plain no_client
       [ Bare [("N", VInt 9007199254740992)]; Bare [("N", VInt 9007199254740993)];
         Bare [("N", VInt 10000000000000000)]; Bare [("N", VNone)] ] "N" ["N"] None
     = Ok [ ("9007199254740992.0",
             mk_frame ["N"] [ (0%nat, [("N", VFloat 9007199254740992)]);
                              (1%nat, [("N", VFloat 9007199254740992)]) ]);
            ("1e+16", mk_frame ["N"] [ (2%nat, [("N", VFloat 10000000000000000)]) ]) ].
Proof.
  intros df. split; [|split; reflexivity].
  apply (groups_partition_rows_by_value plain no_client villes "Ville" ["Nom"; "Score"] None);
    reflexivity.
Defined.

(* ================================================================== *)
(** * Properties of the widths                                         *)
(* ================================================================== *)


Local Open Scope Q_scope.

Lemma Qltb_lt : forall x y, Qltb x y = true <-> x < y.
Proof.
  intros x y. unfold Qltb. rewrite negb_true_iff.
  split; intros H.
  - apply Qnot_le_lt. intros Hle. apply Qle_bool_iff in Hle. congruence.
  - destruct (Qle_bool y x) eqn:E; [|reflexivity].
    apply Qle_bool_iff in E. exfalso. apply (Qlt_not_le _ _ H E).
Qed.

Lemma Qltb_ge : forall x y, Qltb x y = false <-> y <= x.
Proof.
  intros x y. unfold Qltb. rewrite negb_false_iff. apply Qle_bool_iff.
Qed.

Lemma available_width_positive : 0 < available_width exact.
Proof. vm_compute. reflexivity. Qed.

Lemma cm_exact : cm exact == 7200 # 254.
Proof. vm_compute. reflexivity. Qed.

Lemma width_clamped :
  forall base L,
    0 < base ->
    let lo := base * decimal_lit exact 6 1 in
    let hi := base * decimal_lit exact 15 1 in
    let estimate := inject_Z L * decimal_lit exact 15 2 * cm exact in
    let w := width exact base L in
    (lo <= w /\ w <= hi)
    /\ (lo <= estimate /\ estimate <= hi -> w == estimate)
    /\ (estimate < lo -> w == lo)
    /\ (hi < estimate -> w == hi).
Proof.
  intros base L Hbase lo hi estimate w.
  assert (Hlohi : lo < hi).
  { unfold lo, hi. change (decimal_lit exact 6 1) with (6 # 10).
    change (decimal_lit exact 15 1) with (15 # 10). lra. }
  unfold w, width, py_min, py_max. cbn [ltb exact mul of_int].
  fold lo hi estimate.
  destruct (Qltb lo estimate) eqn:H1; [apply Qltb_lt in H1 | apply Qltb_ge in H1];
    match goal with
    | |- context [Qltb hi ?m] =>
        destruct (Qltb hi m) eqn:H2; [apply Qltb_lt in H2 | apply Qltb_ge in H2]
    end;
    repeat split; intros; try lra.
Qed.

Lemma fold_left_Qplus_from :
  forall l a, fold_left Qplus l a == a + fold_left Qplus l 0.
Proof.
  induction l as [|x l IH]; intros a; cbn [fold_left].
  - ring.
  - rewrite (IH (a + x)), (IH (0 + x)). ring.
Qed.

Lemma py_sum_cons :
  forall x l, py_sum exact (x :: l) == x + py_sum exact l.
Proof.
  intros x l.
  change (py_sum exact (x :: l)) with (fold_left Qplus l (0 + x)).
  change (py_sum exact l) with (fold_left Qplus l 0).
  rewrite fold_left_Qplus_from. ring.
Qed.

Lemma py_sum_scaled :
  forall scale l, py_sum exact (map (fun w => w * scale) l) == py_sum exact l * scale.
Proof.
  intros scale. induction l as [|x l IH]; cbn [map].
  - unfold py_sum. cbn. ring.
  - rewrite !py_sum_cons, IH. ring.
Qed.

Lemma py_sum_positive :
  forall lo x l,
    0 < lo -> Forall (fun w => lo <= w) (x :: l) -> 0 < py_sum exact (x :: l).
Proof.
  intros lo x l Hlo. revert x. induction l as [|y l IH]; intros x Hall;
    inversion Hall as [|x' l' Hx Hl]; subst; rewrite py_sum_cons.
  - change (py_sum exact []) with 0. lra.
  - specialize (IH y Hl). lra.
Qed.

Lemma widths_clamped :
  forall data date_columns base cs,
    0 < base ->
    let lo := base * decimal_lit exact 6 1 in
    let hi := base * decimal_lit exact 15 1 in
    Forall2 (fun c w =>
               let estimate := estimated_width exact data date_columns c in
               (lo <= w /\ w <= hi)
               /\ (lo <= estimate /\ estimate <= hi -> w == estimate)
               /\ (estimate < lo -> w == lo)
               /\ (hi < estimate -> w == hi))
            cs
            (map (fun c => width exact base (max_content_length data date_columns c)) cs).
Proof.
  intros data date_columns base cs Hbase lo hi.
  induction cs as [|c cs IH]; cbn [map]; constructor; [|exact IH].
  apply (width_clamped base (max_content_length data date_columns c) Hbase).
Qed.

Lemma Forall2_Forall_right :
  forall (A B : Type) (P : A -> B -> Prop) (R : B -> Prop) (l : list A) (m : list B),
    (forall a b, P a b -> R b) -> Forall2 P l m -> Forall R m.
Proof.
  intros A B P R l m HPR H. induction H as [|a b l m Hab _ IH]; constructor;
    [exact (HPR a b Hab) | exact IH].
Qed.

Lemma Forall2_scaled :
  forall scale l, Forall2 (fun w f => f == w * scale) l (map (fun w => w * scale) l).
Proof.
  intros scale. induction l as [|w ws IH]; cbn [map]; constructor; [reflexivity|exact IH].
Qed.

Lemma Forall2_unscaled : forall l : list Q, Forall2 (fun w f => f == w * 1) l l.
Proof. induction l as [|w ws IH]; constructor; [ring|exact IH]. Qed.

(** The same computation read with rational numbers, for every selection
    of at least one column: the widths are brought into the interval, every
    width is then multiplied by one factor, and the final widths add up to
    the available width exactly.  What the program departs from it by is
    the rounding of its numbers. *)
Lemma widths_add_up_without_rounding :
  forall data col cols date_columns,
    let columns := (col :: cols)%list in
    let base := available_width exact / inject_Z (Z.of_nat (List.length columns)) in
    let lo := base * decimal_lit exact 6 1 in
    let hi := base * decimal_lit exact 15 1 in
    exists clamped scale final,
      col_widths exact data columns date_columns = Ok final
      /\ Forall2 (fun c w =>
                    let estimate := estimated_width exact data date_columns c in
                    (lo <= w /\ w <= hi)
                    /\ (lo <= estimate /\ estimate <= hi -> w == estimate)
                    /\ (estimate < lo -> w == lo)
                    /\ (hi < estimate -> w == hi))
                 columns clamped
      /\ Forall2 (fun w f => f == w * scale) clamped final
      /\ py_sum exact final == available_width exact.
Proof.
  intros data col cols date_columns columns base lo hi.
  assert (Hn : 0 < inject_Z (Z.of_nat (List.length columns))).
  { unfold columns. cbn [List.length]. rewrite Nat2Z.inj_succ.
    unfold Qlt, inject_Z. cbn. lia. }
  assert (Hbase : 0 < base).
  { unfold base. apply Qlt_shift_div_l; [exact Hn|].
    pose proof available_width_positive. lra. }
  assert (Hlo : 0 < lo).
  { unfold lo. change (decimal_lit exact 6 1) with (6 # 10). lra. }
  set (clamped := map (fun c => width exact base (max_content_length data date_columns c))
                      columns).
  assert (Hclamped : Forall2 (fun c w =>
                    let estimate := estimated_width exact data date_columns c in
                    (lo <= w /\ w <= hi)
                    /\ (lo <= estimate /\ estimate <= hi -> w == estimate)
                    /\ (estimate < lo -> w == lo)
                    /\ (hi < estimate -> w == hi))
                 columns clamped).
  { apply (widths_clamped data date_columns base columns Hbase). }
  assert (Hbounds : Forall (fun w => lo <= w) clamped).
  { apply (Forall2_Forall_right _ _ _ _ _ _ (fun c w Hw => proj1 (proj1 Hw)) Hclamped). }
  assert (Htotal : 0 < py_sum exact clamped).
  { unfold clamped, columns in *. cbn [map] in *.
    apply (py_sum_positive lo); assumption. }
  assert (Hcode : col_widths exact data columns date_columns
                  = if negb (Qeq_bool (py_sum exact clamped) (available_width exact))
                    then Ok (map (fun w => w * (available_width exact / py_sum exact clamped))
                                 clamped)
                    else Ok clamped) by reflexivity.
  destruct (Qeq_bool (py_sum exact clamped) (available_width exact)) eqn:Heq;
    cbn [negb] in Hcode.
  - exists clamped, 1, clamped. split; [exact Hcode|]. split; [exact Hclamped|]. split.
    + apply Forall2_unscaled.
    + apply Qeq_bool_iff. exact Heq.
  - exists clamped, (available_width exact / py_sum exact clamped),
      (map (fun w => w * (available_width exact / py_sum exact clamped)) clamped).
    split; [exact Hcode|]. split; [exact Hclamped|]. split.
    + apply Forall2_scaled.
    + rewrite py_sum_scaled. field. lra.
Qed.

Local Close Scope Q_scope.

(** ** The widths in the arithmetic of the program *)










(* ================================================================== *)
(** * Further properties of the filter evaluator                       *)
(* ================================================================== *)

(** ** What a filtered frame is made of *)

Lemma select_select :
  forall (A : Type) (l : list A) m1 m2,
    List.length m1 = List.length l ->
    List.length m2 = List.length (select l m1) ->
    exists m, List.length m = List.length l /\ select (select l m1) m2 = select l m.
Proof.
  intros A. induction l as [|x l IH]; intros m1 m2 H1 H2; destruct m1 as [|b m1];
    try discriminate H1.
  - exists []. split; reflexivity.
  - injection H1 as H1. destruct b; cbn [select] in *.
    + destruct m2 as [|b2 m2]; [discriminate H2|]. injection H2 as H2.
      destruct (IH m1 m2 H1 H2) as [m [Hm Hs]].
      exists (b2 :: m). split; [cbn; f_equal; exact Hm|].
      cbn [select]. rewrite Hs. reflexivity.
    + destruct (IH m1 m2 H1 H2) as [m [Hm Hs]].
      exists (false :: m). split; [cbn; f_equal; exact Hm|].
      cbn [select]. exact Hs.
Qed.

Lemma fold_mask_or_length :
  forall n others first,
    List.length first = n ->
    Forall (fun m => List.length m = n) others ->
    List.length (fold_left mask_or others first) = n.
Proof.
  intros n others. induction others as [|m others IH]; intros first Hfirst Hothers;
    cbn [fold_left]; [exact Hfirst|].
  inversion Hothers as [|m' ms Hm Hothers']; subst.
  apply IH; [apply mask_or_length; [reflexivity|exact Hm] | exact Hothers'].
Qed.

Lemma and_loop_selects :
  forall lib client table_id filters df,
    exists mask,
      List.length mask = List.length (rows df)
      /\ and_loop lib client table_id filters df
         = mk_frame (columns df) (select (rows df) mask).
Proof.
  intros lib client table_id. induction filters as [|f filters IH]; intros df;
    cbn [and_loop].
  - exists (all_true df). split; [apply all_true_length|].
    rewrite select_all; [destruct df; reflexivity | apply all_true_length | apply all_true_holds].
  - destruct (filter_mask lib client df table_id f) as [m|] eqn:Hm; [|apply IH].
    pose proof (filter_mask_length _ _ _ _ _ _ Hm) as Hlen.
    destruct (IH (loc_mask df m)) as [m2 [Hlen2 Hloop]].
    cbn [loc_mask rows columns] in Hlen2, Hloop.
    destruct (select_select _ (rows df) m m2 Hlen Hlen2) as [m3 [Hlen3 Hsel]].
    exists m3. split; [exact Hlen3|]. rewrite Hloop, Hsel. reflexivity.
Qed.

Lemma evaluate_selects :
  forall lib client table_id df mode filters,
    exists mask,
      List.length mask = List.length (rows df)
      /\ evaluate lib client df table_id mode filters
         = mk_frame (columns df) (select (rows df) mask).
Proof.
  intros lib client table_id df mode filters.
  assert (Hself : exists mask,
             List.length mask = List.length (rows df)
             /\ df = mk_frame (columns df) (select (rows df) mask)).
  { exists (all_true df). split; [apply all_true_length|].
    rewrite select_all; [destruct df; reflexivity | apply all_true_length | apply all_true_holds]. }
  unfold evaluate. destruct (empty df); [exact Hself|].
  destruct (String.eqb mode "or"); [|apply and_loop_selects].
  destruct (or_loop_masks lib client table_id df filters) as [Hlen _].
  destruct (or_loop lib client table_id df filters) as [|first others]; [exact Hself|].
  inversion Hlen as [|m ms Hfirst Hothers]; subst.
  exists (fold_left mask_or others first). split; [|reflexivity].
  apply fold_mask_or_length; assumption.
Qed.

(** X1.  Whatever the payload, the evaluation returns a frame with the
    columns of the table, whose rows are rows of the table, each as it
    was, in the order of the table: the rows a mask over the table
    selects.  No row is added, changed or moved. *)
Theorem filtering_selects_rows_of_the_table :
  forall lib client table_id df filters_data,
    exists filtered_df mask,
      apply_advanced_filters lib client df filters_data table_id = Some filtered_df
      /\ columns filtered_df = columns df
      /\ List.length mask = List.length (rows df)
      /\ rows filtered_df = select (rows df) mask.
Proof.
  intros lib client table_id df filters_data.
  assert (Hframe : forall mode filters,
             exists filtered_df mask,
               Some (evaluate lib client df table_id mode filters) = Some filtered_df
               /\ columns filtered_df = columns df
               /\ List.length mask = List.length (rows df)
               /\ rows filtered_df = select (rows df) mask).
  { intros mode filters.
    destruct (evaluate_selects lib client table_id df mode filters) as [mask [Hlen He]].
    exists (evaluate lib client df table_id mode filters), mask.
    rewrite He. cbn [columns rows]. repeat split; [exact Hlen]. }
  destruct filters_data as [filters | mode [filters|]].
  - rewrite apply_advanced_filters_legacy. apply Hframe.
  - rewrite apply_advanced_filters_payload. apply Hframe.
  - assert (Hnone : apply_advanced_filters lib client df (Payload mode None) table_id
                    = Some df).
    { unfold apply_advanced_filters. cbn [apply_advanced_filters_fuel].
      destruct mode; cbn [orb]; [|reflexivity]. destruct (empty df); reflexivity. }
    rewrite Hnone. exists df, (all_true df).
    repeat split; [apply all_true_length|].
    symmetry. apply select_all; [apply all_true_length | apply all_true_holds].
Qed.

(** ** Filters that compare texts, in the AND mode *)

Lemma filter_mask_compares_text :
  forall lib client table_id df f,
    compares_text client table_id f = true ->
    filter_mask lib client df table_id f
    = option_map (fun t => map t (rows df)) (row_test lib client table_id (columns df) f).
Proof.
  intros lib client table_id df f Hf.
  unfold compares_text in Hf. apply andb_true_iff in Hf as [Hop Hdate].
  unfold filter_mask, row_test.
  destruct (incomplete f); [reflexivity|].
  destruct (negb (mem (text (f_column f)) (columns df))); [reflexivity|].
  unfold _create_filter_mask, no_date_column in *.
  destruct (date_column_test client table_id (text (f_column f))) as [[|]|e];
    [discriminate Hdate| |reflexivity].
  cbn [bind]. unfold text_test, astype_str, series.
  unfold text_operator, mem in Hop. cbn [existsb] in Hop.
  destruct (String.eqb (text (f_operator f)) "equals") eqn:H1.
  { cbn [option_map]. rewrite !map_map. reflexivity. }
  destruct (String.eqb (text (f_operator f)) "contains") eqn:H2.
  { destruct (re_compile_icase lib (text (f_value f))); cbn [option_map];
      [rewrite !map_map|]; reflexivity. }
  destruct (String.eqb (text (f_operator f)) "starts_with") eqn:H3.
  { cbn [option_map]. rewrite !map_map. reflexivity. }
  destruct (String.eqb (text (f_operator f)) "ends_with") eqn:H4.
  { cbn [option_map]. rewrite !map_map. reflexivity. }
  destruct (String.eqb (text (f_operator f)) "not_equals") eqn:H5.
  { cbn [option_map]. rewrite !map_map. reflexivity. }
  discriminate Hop.
Qed.

Lemma filter_filter :
  forall (A : Type) (P Q : A -> bool) (l : list A),
    filter Q (filter P l) = filter (fun x => P x && Q x) l.
Proof.
  intros A P Q. induction l as [|x l IH]; cbn [filter]; [reflexivity|].
  destruct (P x); cbn [filter andb]; [destruct (Q x)|]; rewrite IH; reflexivity.
Qed.

(** In the AND mode filters that compare texts keep the rows that pass
    the test of each. *)
Lemma and_loop_compares_text :
  forall lib client table_id filters df,
    forallb (compares_text client table_id) filters = true ->
    and_loop lib client table_id filters df
    = mk_frame (columns df)
        (filter (fun r => forallb (fun f => passes (row_test lib client table_id (columns df) f) r)
                                  filters)
                (rows df)).
Proof.
  intros lib client table_id. induction filters as [|f filters IH]; intros df Hall;
    cbn [and_loop forallb].
  - rewrite filter_all by reflexivity. destruct df; reflexivity.
  - cbn [forallb] in Hall. apply andb_true_iff in Hall as [Hf Hrest].
    rewrite (filter_mask_compares_text lib client table_id df f Hf).
    destruct (row_test lib client table_id (columns df) f) as [t|]; cbn [option_map passes].
    + rewrite (IH _ Hrest). cbn [loc_mask columns rows].
      rewrite select_map, filter_filter. reflexivity.
    + rewrite (IH _ Hrest). reflexivity.
Qed.

Lemma in_match_set_unresolved :
  forall lib client table_id df f i,
    filter_mask lib client df table_id f = None ->
    in_match_set lib client df table_id f i = label_in i (rows df).
Proof.
  intros lib client table_id df f i Hm. unfold in_match_set.
  rewrite apply_advanced_filters_payload. unfold evaluate.
  destruct (empty df); [reflexivity|].
  cbn [String.eqb Ascii.eqb Bool.eqb andb or_loop]. rewrite Hm. reflexivity.
Qed.

Lemma in_match_set_compares_text :
  forall lib client table_id df f r,
    NoDup (index df) ->
    In r (rows df) ->
    compares_text client table_id f = true ->
    in_match_set lib client df table_id f (fst r)
    = passes (row_test lib client table_id (columns df) f) r.
Proof.
  intros lib client table_id df f r Hnd Hr Hf.
  assert (Hlabel : label_in (fst r) (rows df) = true)
    by (apply label_in_In; apply in_map; exact Hr).
  pose proof (filter_mask_compares_text lib client table_id df f Hf) as Hm.
  destruct (row_test lib client table_id (columns df) f) as [t|]; cbn [option_map passes] in *.
  - destruct (empty df) eqn:He.
    + destruct df as [cols [|r0 l]]; [contradiction|].
      destruct cols; [|discriminate He].
      unfold row_test in *. (* no column: the filter is passed over *)
      rewrite (in_match_set_empty _ _ _ _ _ _ He). rewrite Hlabel.
      exfalso. clear - Hm. unfold filter_mask in Hm. cbn [columns mem existsb negb] in Hm.
      destruct (incomplete f); discriminate Hm.
    + rewrite (in_match_set_resolved _ _ _ _ _ _ _ He Hm).
      rewrite select_map. apply label_in_filter; assumption.
  - rewrite (in_match_set_unresolved _ _ _ _ _ _ Hm). exact Hlabel.
Qed.

(** X2.  In the AND mode, filters that compare texts ([equals],
    [contains], [starts_with], [ends_with], [not_equals], on columns that
    are no date columns) return the rows of the table, in their order,
    that belong to the match set of every filter, each filter being
    evaluated alone on the unfiltered table. *)
Theorem and_mode_is_intersection_of_match_sets :
  forall lib client table_id df filters,
    NoDup (index df) ->
    forallb (compares_text client table_id) filters = true ->
    exists filtered_df,
      apply_advanced_filters lib client df (Payload (Some "and") (Some filters)) table_id
      = Some filtered_df
      /\ columns filtered_df = columns df
      /\ rows filtered_df
         = filter (fun r => forallb (fun g => in_match_set lib client df table_id g (fst r))
                                    filters)
                  (rows df).
Proof.
  intros lib client table_id df filters Hnd Hall.
  rewrite apply_advanced_filters_payload. eexists. split; [reflexivity|].
  unfold evaluate. destruct (empty df) eqn:He.
  - split; [reflexivity|]. symmetry. apply filter_all. intros r Hr.
    apply forallb_forall. intros g _.
    rewrite (in_match_set_empty _ _ _ _ _ _ He).
    apply label_in_In. apply in_map. exact Hr.
  - cbn [String.eqb Ascii.eqb Bool.eqb andb].
    rewrite (and_loop_compares_text lib client table_id filters df Hall).
    cbn [columns rows]. split; [reflexivity|].
    apply filter_ext_in. intros r Hr.
    rewrite forallb_forall in Hall.
    clear He. induction filters as [|g filters IH]; [reflexivity|].
    cbn [forallb].
    rewrite (in_match_set_compares_text lib client table_id df g r Hnd Hr
               (Hall g (or_introl eq_refl))).
    f_equal. apply IH. intros x Hx. apply Hall. right. exact Hx.
Qed.

(** The evaluation of [people] in the AND mode on two filters that compare
    texts: Dupont alone is of Paris and has a [D] in their name. *)
Lemma and_mode_is_intersection_of_match_sets_witness :
  (exists filtered_df,
      apply_advanced_filters plain no_client people
        (Payload (Some "and") (Some [on "Ville" "equals" "Paris"; on "Nom" "contains" "d"])) None
      = Some filtered_df
      /\ columns filtered_df = columns people
      /\ rows filtered_df
         = filter (fun r => forallb (fun g => in_match_set plain no_client people None g (fst r))
                                    [on "Ville" "equals" "Paris"; on "Nom" "contains" "d"])
                  (rows people))
  /\ apply_advanced_filters plain no_client people
       (Payload (Some "and") (Some [on "Ville" "equals" "Paris"; on "Nom" "contains" "d"])) None
     = Some (mk_frame ["Nom"; "Age"; "Ville"]
               [ (0%nat, [("Nom", VStr "Dupont"); ("Age", VInt 30); ("Ville", VStr "Paris")]);
                 (2%nat, [("Nom", VStr "Bernard"); ("Age", VInt 35); ("Ville", VStr "Paris")]) ]).
Proof.
  split; [|reflexivity].
  apply (and_mode_is_intersection_of_match_sets plain no_client None people).
  - repeat constructor; cbn; intuition discriminate.
  - reflexivity.
Defined.

(** ** The order of the filters *)

Lemma existsb_permutation :
  forall (A : Type) (f : A -> bool) (l l' : list A),
    Permutation l l' -> existsb f l = existsb f l'.
Proof.
  intros A f l l' H. induction H as [|x l l' _ IH|x y l|l l' l'' _ IH1 _ IH2]; cbn [existsb].
  - reflexivity.
  - rewrite IH. reflexivity.
  - rewrite !orb_assoc, (orb_comm (f y) (f x)). reflexivity.
  - rewrite IH1. exact IH2.
Qed.

Lemma forallb_permutation :
  forall (A : Type) (f : A -> bool) (l l' : list A),
    Permutation l l' -> forallb f l = forallb f l'.
Proof.
  intros A f l l' H. induction H as [|x l l' _ IH|x y l|l l' l'' _ IH1 _ IH2]; cbn [forallb].
  - reflexivity.
  - rewrite IH. reflexivity.
  - rewrite !andb_assoc, (andb_comm (f y) (f x)). reflexivity.
  - rewrite IH1. exact IH2.
Qed.

Lemma or_loop_permutation :
  forall lib client table_id df filters filters',
    Permutation filters filters' ->
    Permutation (or_loop lib client table_id df filters)
                (or_loop lib client table_id df filters').
Proof.
  intros lib client table_id df filters filters' H.
  induction H as [|f l l' _ IH|f g l|l l' l'' _ IH1 _ IH2]; cbn [or_loop].
  - constructor.
  - destruct (filter_mask lib client df table_id f); [constructor|]; exact IH.
  - destruct (filter_mask lib client df table_id f), (filter_mask lib client df table_id g);
      try apply Permutation_refl. apply perm_swap.
  - eapply Permutation_trans; eassumption.
Qed.

Lemma mask_or_nth :
  forall a b i,
    List.length a = List.length b ->
    nth i (mask_or a b) false = nth i a false || nth i b false.
Proof.
  induction a as [|x a IH]; intros b i Hlen; destruct b as [|y b]; try discriminate Hlen.
  - destruct i; reflexivity.
  - injection Hlen as Hlen. destruct i as [|i]; cbn [mask_or nth]; [reflexivity|].
    apply IH. exact Hlen.
Qed.

Lemma fold_mask_or_nth :
  forall n others first i,
    List.length first = n ->
    Forall (fun m => List.length m = n) others ->
    nth i (fold_left mask_or others first) false
    = existsb (fun m => nth i m false) (first :: others).
Proof.
  intros n others. induction others as [|m others IH]; intros first i Hfirst Hothers;
    cbn [fold_left].
  - cbn [existsb]. rewrite orb_false_r. reflexivity.
  - inversion Hothers as [|m' ms Hm Hothers']; subst.
    rewrite (IH (mask_or first m) i (mask_or_length _ _ _ eq_refl Hm) Hothers').
    cbn [existsb]. rewrite mask_or_nth by (symmetry; exact Hm).
    rewrite orb_assoc. reflexivity.
Qed.

Lemma fold_mask_or_permutation :
  forall n first others first' others',
    Forall (fun m => List.length m = n) (first :: others) ->
    Permutation (first :: others) (first' :: others') ->
    fold_left mask_or others first = fold_left mask_or others' first'.
Proof.
  intros n first others first' others' Hlen Hperm.
  assert (Hlen' : Forall (fun m => List.length m = n) (first' :: others')).
  { rewrite Forall_forall in *. intros m Hm. apply Hlen.
    eapply Permutation_in; [apply Permutation_sym; exact Hperm|exact Hm]. }
  inversion Hlen as [|a b Hf Ho]; subst. inversion Hlen' as [|a b Hf' Ho']; subst.
  apply (nth_ext _ _ false false).
  - rewrite (fold_mask_or_length _ _ _ eq_refl Ho).
    rewrite (fold_mask_or_length _ _ _ Hf' Ho'). reflexivity.
  - intros i _.
    rewrite (fold_mask_or_nth _ _ _ i eq_refl Ho), (fold_mask_or_nth _ _ _ i Hf' Ho').
    apply existsb_permutation. exact Hperm.
Qed.

(** X3.  In the OR mode the order of the filters is of no account: every
    mask is taken on the whole table, and a row is kept when one mask at
    least holds for it. *)
Theorem or_mode_ignores_the_order_of_the_filters :
  forall lib client table_id df filters filters',
    Permutation filters filters' ->
    apply_advanced_filters lib client df (Payload (Some "or") (Some filters)) table_id
    = apply_advanced_filters lib client df (Payload (Some "or") (Some filters')) table_id.
Proof.
  intros lib client table_id df filters filters' Hperm.
  rewrite !apply_advanced_filters_payload. f_equal. unfold evaluate.
  destruct (empty df); [reflexivity|]. cbn [String.eqb Ascii.eqb Bool.eqb andb].
  pose proof (or_loop_permutation lib client table_id df _ _ Hperm) as Hmasks.
  destruct (or_loop_masks lib client table_id df filters) as [Hlen _].
  destruct (or_loop lib client table_id df filters) as [|first others];
    destruct (or_loop lib client table_id df filters') as [|first' others'].
  - reflexivity.
  - apply Permutation_nil in Hmasks. discriminate Hmasks.
  - apply Permutation_sym, Permutation_nil in Hmasks. discriminate Hmasks.
  - f_equal. eapply fold_mask_or_permutation; eassumption.
Qed.

(** Two filters on [people], in one order and in the other. *)
Lemma or_mode_ignores_the_order_of_the_filters_witness :
  apply_advanced_filters plain no_client people
    (Payload (Some "or") (Some [on "Age" "less_than" "27"; on "Nom" "contains" "DUP"])) None
  = apply_advanced_filters plain no_client people
      (Payload (Some "or") (Some [on "Nom" "contains" "DUP"; on "Age" "less_than" "27"])) None.
Proof.
  apply (or_mode_ignores_the_order_of_the_filters plain no_client None people).
  apply perm_swap.
Defined.

(** X4.  In the AND mode the order of filters that compare texts is of no
    account, though each filter is evaluated on the rows the filters
    before it have kept. *)
Theorem and_mode_ignores_the_order_of_text_filters :
  forall lib client table_id df filters filters',
    Permutation filters filters' ->
    forallb (compares_text client table_id) filters = true ->
    apply_advanced_filters lib client df (Payload (Some "and") (Some filters)) table_id
    = apply_advanced_filters lib client df (Payload (Some "and") (Some filters')) table_id.
Proof.
  intros lib client table_id df filters filters' Hperm Hall.
  assert (Hall' : forallb (compares_text client table_id) filters' = true)
    by (rewrite <- (forallb_permutation _ _ _ _ Hperm); exact Hall).
  rewrite !apply_advanced_filters_payload. f_equal. unfold evaluate.
  destruct (empty df); [reflexivity|]. cbn [String.eqb Ascii.eqb Bool.eqb andb].
  rewrite !and_loop_compares_text by assumption. f_equal.
  apply filter_ext. intros r. apply forallb_permutation. exact Hperm.
Qed.

Lemma and_mode_ignores_the_order_of_text_filters_witness :
  apply_advanced_filters plain no_client people
    (Payload (Some "and") (Some [on "Ville" "equals" "Paris"; on "Nom" "starts_with" "B"])) None
  = apply_advanced_filters plain no_client people
      (Payload (Some "and") (Some [on "Nom" "starts_with" "B"; on "Ville" "equals" "Paris"])) None.
Proof.
  apply (and_mode_ignores_the_order_of_text_filters plain no_client None people).
  - apply perm_swap.
  - reflexivity.
Defined.

(** ** Filters that change nothing *)

Lemma loc_mask_all_true : forall df, loc_mask df (all_true df) = df.
Proof.
  intros df. unfold loc_mask.
  rewrite select_all; [destruct df; reflexivity | apply all_true_length | apply all_true_holds].
Qed.

Lemma and_loop_columns :
  forall lib client table_id filters df,
    columns (and_loop lib client table_id filters df) = columns df.
Proof.
  intros lib client table_id filters df.
  destruct (and_loop_selects lib client table_id filters df) as [mask [_ ->]]. reflexivity.
Qed.

(** A filter whose mask, when it has one, selects every row of whatever
    frame it is evaluated on, may be left out of the AND loop. *)
Lemma and_loop_without :
  forall lib client table_id p before after df,
    (forall df', columns df' = columns df ->
                 filter_mask lib client df' table_id p = None
                 \/ filter_mask lib client df' table_id p = Some (all_true df')) ->
    and_loop lib client table_id (before ++ p :: after) df
    = and_loop lib client table_id (before ++ after) df.
Proof.
  intros lib client table_id p. induction before as [|f before IH]; intros after df Hp;
    cbn [app and_loop].
  - destruct (Hp df eq_refl) as [-> | ->]; [reflexivity|].
    rewrite loc_mask_all_true. reflexivity.
  - destruct (filter_mask lib client df table_id f); apply IH; exact Hp.
Qed.

Lemma or_loop_without :
  forall lib client table_id p before after df,
    filter_mask lib client df table_id p = None ->
    or_loop lib client table_id df (before ++ p :: after)
    = or_loop lib client table_id df (before ++ after).
Proof.
  intros lib client table_id p. induction before as [|f before IH]; intros after df Hp;
    cbn [app or_loop].
  - rewrite Hp. reflexivity.
  - rewrite (IH after df Hp). reflexivity.
Qed.

Lemma filter_mask_passed_over :
  forall lib client table_id df df' p,
    passed_over df p = true ->
    columns df' = columns df ->
    filter_mask lib client df' table_id p = None.
Proof.
  intros lib client table_id df df' p Hp Hcols. unfold filter_mask, incomplete.
  unfold passed_over in Hp. rewrite Hcols.
  destruct (falsy (f_column p)); [reflexivity|].
  destruct (falsy (f_operator p)); [rewrite orb_true_r; reflexivity|].
  cbn [orb] in Hp. rewrite Hp. destruct (falsy (f_value p)); reflexivity.
Qed.

(** X5.  A filter that has no column or no operator, or whose column is
    none of the table, is passed over in every mode and in both shapes of
    the payload: the evaluation with it, wherever it stands among the
    filters, is the evaluation without it. *)
Theorem filter_on_an_unknown_column_is_passed_over :
  forall lib client table_id df mode before after p,
    passed_over df p = true ->
    apply_advanced_filters lib client df (Payload mode (Some (before ++ p :: after)%list)) table_id
    = apply_advanced_filters lib client df (Payload mode (Some (before ++ after)%list)) table_id
    /\ apply_advanced_filters lib client df (Legacy (before ++ p :: after)%list) table_id
       = apply_advanced_filters lib client df (Legacy (before ++ after)%list) table_id.
Proof.
  intros lib client table_id df mode before after p Hp.
  rewrite !apply_advanced_filters_payload, !apply_advanced_filters_legacy.
  assert (Hskip : forall m,
             evaluate lib client df table_id m (before ++ p :: after)
             = evaluate lib client df table_id m (before ++ after)).
  { intros m. unfold evaluate.
    rewrite (or_loop_without lib client table_id p before after df
               (filter_mask_passed_over lib client table_id df df p Hp eq_refl)).
    rewrite (and_loop_without lib client table_id p before after df).
    - reflexivity.
    - intros df' Hcols. left. eapply filter_mask_passed_over; eassumption. }
  rewrite !Hskip. split; reflexivity.
Qed.

(** On [people], a filter on a column the table has not, between two
    others. *)
Lemma filter_on_an_unknown_column_is_passed_over_witness :
  let p := on "Pays" "equals" "France" in
  apply_advanced_filters plain no_client people
    (Payload (Some "and") (Some ([on "Age" "less_than" "32"] ++ p :: [on "Nom" "contains" "DUP"])%list))
    None
  = apply_advanced_filters plain no_client people
      (Payload (Some "and") (Some ([on "Age" "less_than" "32"] ++ [on "Nom" "contains" "DUP"])%list))
      None
  /\ apply_advanced_filters plain no_client people
       (Legacy ([on "Age" "less_than" "32"] ++ p :: [on "Nom" "contains" "DUP"])%list) None
     = apply_advanced_filters plain no_client people
         (Legacy ([on "Age" "less_than" "32"] ++ [on "Nom" "contains" "DUP"])%list) None.
Proof.
  intros p.
  apply (filter_on_an_unknown_column_is_passed_over plain no_client None people (Some "and")
           [on "Age" "less_than" "32"] [on "Nom" "contains" "DUP"] p).
  reflexivity.
Defined.

Lemma numeric_filter_mask_without_a_number :
  forall lib op df column value,
    py_float lib value = None ->
    numeric_filter_mask lib op df column value = Ok (all_true df)
    \/ exists e, numeric_filter_mask lib op df column value = Raise e.
Proof.
  intros lib op df column value Hv. unfold numeric_filter_mask, numeric_filter_try.
  destruct (mapM (to_numeric_cell lib) (series df column)) as [nc|e]; cbn [bind].
  - rewrite Hv. left. reflexivity.
  - destruct e; [left; reflexivity | left; reflexivity | right; eexists; reflexivity].
Qed.

Lemma filter_mask_degraded_any :
  forall lib client table_id df p,
    degraded lib client table_id p = true ->
    filter_mask lib client df table_id p = None
    \/ filter_mask lib client df table_id p = Some (all_true df).
Proof.
  intros lib client table_id df p Hp. unfold filter_mask.
  destruct (incomplete p); [left; reflexivity|].
  destruct (negb (mem (text (f_column p)) (columns df))); [left; reflexivity|].
  unfold degraded in Hp. unfold _create_filter_mask.
  destruct (date_column_test client table_id (text (f_column p))) as [[|]|e]; cbn [bind].
  - destruct (_convert_timestamp_to_datetime lib (series df (text (f_column p)))) as [dc|e];
      cbn [bind]; [|left; reflexivity].
    right. f_equal. apply orb_true_iff in Hp as [Hop|Hparse].
    + apply date_filter_mask_unsupported. apply negb_true_iff. exact Hop.
    + destruct (_parse_date_filter lib (text (f_value p))) as [d|e] eqn:Hd;
        [discriminate Hparse|].
      eapply date_filter_mask_unparsed. exact Hd.
  - assert (Hnum : forall op,
               py_float lib (text (f_value p)) = None ->
               match numeric_filter_mask lib op df (text (f_column p)) (text (f_value p)) with
               | Ok mask => Some mask
               | Raise _ => None
               end = None
               \/ match numeric_filter_mask lib op df (text (f_column p)) (text (f_value p)) with
                  | Ok mask => Some mask
                  | Raise _ => None
                  end = Some (all_true df)).
    { intros op Hv.
      destruct (numeric_filter_mask_without_a_number lib op df (text (f_column p)) _ Hv)
        as [-> | [e ->]]; [right|left]; reflexivity. }
    revert Hp. unfold known_operator, numeric_operator, mem. cbn [existsb].
    repeat match goal with
           | |- context [String.eqb (text (f_operator p)) ?s] =>
               lazymatch s with
               | "greater_than" => fail
               | "less_than" => fail
               | _ => destruct (String.eqb (text (f_operator p)) s) eqn:?E
               end
           end;
      try match goal with
          | E : String.eqb (text (f_operator p)) _ = true |- _ =>
              apply String.eqb_eq in E; rewrite E; cbn; intros Hp; discriminate Hp
          end.
    cbn [orb negb].
    destruct (py_float lib (text (f_value p))) as [b|] eqn:Hv.
    + rewrite andb_false_r, orb_false_r. intros Hp. apply negb_true_iff in Hp.
      apply orb_false_iff in Hp as [Hg Hp]. apply orb_false_iff in Hp as [Hl _].
      rewrite Hg, Hl. right. reflexivity.
    + intros _.
      destruct (String.eqb (text (f_operator p)) "greater_than"); [apply Hnum; reflexivity|].
      destruct (String.eqb (text (f_operator p)) "less_than"); [apply Hnum; reflexivity|].
      right. reflexivity.
  - left. reflexivity.
Qed.

(** X6.  In the AND mode a filter that cannot be evaluated as it is written
    removes no row, wherever it stands among the filters: a filter whose
    operator is unknown, a comparison of numbers whose value is no number,
    a filter on a date column whose operator is none of the four of dates
    or whose value is no date, and a filter on a table whose column types
    cannot be fetched. *)
Theorem degraded_filter_is_noop_in_and_mode :
  forall lib client table_id df before after p,
    degraded lib client table_id p = true ->
    apply_advanced_filters lib client df
      (Payload (Some "and") (Some (before ++ p :: after)%list)) table_id
    = apply_advanced_filters lib client df
        (Payload (Some "and") (Some (before ++ after)%list)) table_id.
Proof.
  intros lib client table_id df before after p Hp.
  rewrite !apply_advanced_filters_payload. f_equal. unfold evaluate.
  destruct (empty df); [reflexivity|]. cbn [String.eqb Ascii.eqb Bool.eqb andb].
  apply and_loop_without. intros df' _. apply filter_mask_degraded_any. exact Hp.
Qed.

(** On [people]: ["vingt"] is no number, and ["like"] no operator. *)
Lemma degraded_filter_is_noop_in_and_mode_witness :
  apply_advanced_filters plain no_client people
    (Payload (Some "and")
       (Some ([on "Ville" "equals" "Paris"] ++ on "Age" "greater_than" "vingt" :: [])%list)) None
  = apply_advanced_filters plain no_client people
      (Payload (Some "and") (Some ([on "Ville" "equals" "Paris"] ++ [])%list)) None
  /\ apply_advanced_filters plain no_client people
       (Payload (Some "and")
          (Some ([] ++ on "Nom" "like" "Dup%" :: [on "Ville" "equals" "Paris"])%list)) None
     = apply_advanced_filters plain no_client people
         (Payload (Some "and") (Some ([] ++ [on "Ville" "equals" "Paris"])%list)) None.
Proof.
  split.
  - apply (degraded_filter_is_noop_in_and_mode plain no_client None people
             [on "Ville" "equals" "Paris"] [] (on "Age" "greater_than" "vingt")).
    reflexivity.
  - apply (degraded_filter_is_noop_in_and_mode plain no_client None people
             [] [on "Ville" "equals" "Paris"] (on "Nom" "like" "Dup%")).
    reflexivity.
Defined.

(** ** Comparisons of numbers *)

Lemma mapM_total :
  forall (A B : Type) (f : A -> result B) (g : A -> B) (l : list A),
    (forall x, In x l -> f x = Ok (g x)) -> mapM f l = Ok (map g l).
Proof.
  intros A B f g. induction l as [|x l IH]; intros H; cbn [mapM map]; [reflexivity|].
  rewrite (H x (or_introl eq_refl)). cbn [bind].
  rewrite IH by (intros y Hy; apply H; right; exact Hy). reflexivity.
Qed.

Lemma number_ltb_asym : forall a b, number_ltb a b && number_ltb b a = false.
Proof.
  intros [x|n] [y|m]; cbn [number_ltb].
  - destruct (Qltb x y) eqn:H1; [|reflexivity]. cbn [andb].
    apply Qltb_lt in H1. apply Qltb_ge. apply Qlt_le_weak. exact H1.
  - destruct m; reflexivity.
  - destruct n; reflexivity.
  - destruct n, m; reflexivity.
Qed.

(** The number a cell is compared as; a cell that is no number, or whose
    conversion raises, is compared as none. *)
Lemma to_numeric_cell_scalar :
  forall lib c,
    PyVal.is_list c = false ->
    to_numeric_cell lib c
    = Ok (match to_numeric_cell lib c with Ok n => n | Raise _ => None end).
Proof. intros lib c Hc. destruct c; try discriminate Hc; reflexivity. Qed.

(** The integers up to 2^53 are floating-point numbers. *)
Lemma round_binary64_exact :
  forall z, Z.abs z <= 2 ^ 53 -> PyFloat.round_binary64 z = z.
Proof.
  intros z Hz. unfold PyFloat.round_binary64. cbv zeta.
  destruct (Z.eq_dec (Z.abs z) (2 ^ 53)) as [He|Hne].
  - rewrite He. change (Z.log2 (2 ^ 53) + 1 - 53 <=? 0) with false. cbv iota.
    change (Z.log2 (2 ^ 53) + 1 - 53) with 1.
    change ((2 ^ 53) mod 2 ^ 1 <? 2 ^ 1 / 2) with true. cbv iota.
    change (2 ^ 53 / 2 ^ 1 * 2 ^ 1) with (2 ^ 53). rewrite <- He.
    rewrite Z.mul_comm. apply Z.abs_sgn.
  - assert (Hlog : Z.log2 (Z.abs z) < 53).
    { destruct (Z.eq_dec (Z.abs z) 0) as [H0|H0]; [rewrite H0; reflexivity|].
      apply Z.log2_lt_pow2; lia. }
    destruct (Z.leb_spec (Z.log2 (Z.abs z) + 1 - 53) 0); [reflexivity|lia].
Qed.

(** X7.  On a column that is no date column and has no list, with a value
    that is a number, [greater_than] and [less_than] compare numbers, not
    texts, and strictly: no cell passes both; a cell that is missing
    passes neither; a cell that is a number is compared as the
    floating-point number nearest to it, which is the number itself up to
    2^53, and passes [greater_than] when that is above the value and
    [less_than] when it is below; and no cell passes either when the value
    is the number that is not one (NaN). *)
Theorem numeric_filters_compare_numbers :
  forall lib client table_id df column val bound,
    date_column_test client table_id column = Ok false ->
    existsb PyVal.is_list (series df column) = false ->
    py_float lib val = Some bound ->
    exists above below : value -> bool,
      _create_filter_mask lib client df column "greater_than" val table_id
      = Ok (map above (series df column))
      /\ _create_filter_mask lib client df column "less_than" val table_id
         = Ok (map below (series df column))
      /\ (forall c, above c && below c = false)
      /\ (forall c, PyVal.isna c = true -> above c = false /\ below c = false)
      /\ (forall c z q,
            PyVal.num c = Some z -> bound = Some (Finite q) ->
            (above c = true <-> (q < inject_Z (PyFloat.round_binary64 z))%Q)
            /\ (below c = true <-> (inject_Z (PyFloat.round_binary64 z) < q)%Q))
      /\ (forall z, Z.abs z <= 2 ^ 53 -> PyFloat.round_binary64 z = z)
      /\ (bound = None -> forall c, above c = false /\ below c = false).
Proof.
  intros lib client table_id df column val bound Hdate Hlists Hbound.
  set (number_of := fun c => match to_numeric_cell lib c with Ok n => n | Raise _ => None end).
  exists (fun c => numeric_cell (fun x b => number_ltb b x) bound (number_of c)),
         (fun c => numeric_cell number_ltb bound (number_of c)).
  assert (Hcol : mapM (to_numeric_cell lib) (series df column)
                 = Ok (map number_of (series df column))).
  { apply mapM_total. intros c Hc. apply to_numeric_cell_scalar.
    destruct (PyVal.is_list c) eqn:Hl; [|reflexivity].
    assert (Hex : existsb PyVal.is_list (series df column) = true)
      by (apply existsb_exists; exists c; split; assumption).
    rewrite Hex in Hlists. discriminate Hlists. }
  assert (Hmask : forall op,
             numeric_filter_mask lib op df column val
             = Ok (map (fun c => numeric_cell op bound (number_of c)) (series df column))).
  { intros op. unfold numeric_filter_mask, numeric_filter_try.
    rewrite Hcol. cbn [bind]. rewrite Hbound, map_map. reflexivity. }
  split; [|split; [|split; [|split; [|split; [|split]]]]].
  - unfold _create_filter_mask. rewrite Hdate. cbn. apply Hmask.
  - unfold _create_filter_mask. rewrite Hdate. cbn. apply Hmask.
  - intros c. unfold numeric_cell. destruct (number_of c) as [x|]; [|reflexivity].
    destruct bound as [b|]; [|reflexivity]. apply number_ltb_asym.
  - intros c Hna. unfold number_of.
    destruct c; try discriminate Hna; split; reflexivity.
  - intros c z q Hz Hq. subst bound. unfold number_of.
    assert (Hn : to_numeric_cell lib c
                 = Ok (Some (Finite (inject_Z (PyFloat.round_binary64 z))))).
    { destruct c as [| |b|x|x|s|l]; try discriminate Hz;
        cbn [PyVal.num] in Hz; injection Hz as <-; cbn [to_numeric_cell];
        try reflexivity. destruct b; reflexivity. }
    rewrite Hn. cbn [numeric_cell number_ltb]. split; apply Qltb_lt.
  - exact round_binary64_exact.
  - intros -> c. unfold numeric_cell. destruct (number_of c); split; reflexivity.
Qed.

(** On [people] the ages 30 and 35 are above 27 and 25 is below; were they
    compared as texts, ["9"] would be above ["27"].  And 2^53 + 1 is not
    above 2^53: the floating-point number nearest to it is 2^53. *)
Lemma numeric_filters_compare_numbers_witness :
  (exists above below : value -> bool,
      _create_filter_mask plain no_client people "Age" "greater_than" "27" None
      = Ok (map above (series people "Age"))
      /\ _create_filter_mask plain no_client people "Age" "less_than" "27" None
         = Ok (map below (series people "Age"))
      /\ (forall c, above c && below c = false)
      /\ (forall c, PyVal.isna c = true -> above c = false /\ below c = false)
      /\ (forall c z q,
            PyVal.num c = Some z -> Some (Finite 27%Q) = Some (Finite q) ->
            (above c = true <-> (q < inject_Z (PyFloat.round_binary64 z))%Q)
            /\ (below c = true <-> (inject_Z (PyFloat.round_binary64 z) < q)%Q))
      /\ (forall z, Z.abs z <= 2 ^ 53 -> PyFloat.round_binary64 z = z)
      /\ (Some (Finite 27%Q) = None -> forall c, above c = false /\ below c = false))
  /\ _create_filter_mask plain no_client people "Age" "greater_than" "27" None
     = Ok [true; false; true]
  /\ _create_filter_mask plain no_client people "Age" "less_than" "27" None
     = Ok [false; true; false]
  /\ _create_filter_mask plain no_client
       (mk_frame ["N"] [(0%nat, [("N", VInt 9007199254740993)]);
                        (1%nat, [("N", VInt 9007199254740994)])])
       "N" "greater_than" "9007199254740992" None
     = Ok [false; true].
Proof.
  split; [|split; [|split]; reflexivity].
  apply (numeric_filters_compare_numbers plain no_client None people "Age" "27"
           (Some (Finite 27%Q))); reflexivity.
Defined.

(** ** Comparisons of dates *)

Lemma date_of_seconds :
  forall z, Instant.date (Instant.of_seconds z) = date_of_day (z / 86400).
Proof.
  intros z. unfold Instant.of_seconds, date_of_day.
  destruct (Instant.civil_from_days (z / 86400)) as [[y m] d]. reflexivity.
Qed.

Lemma date_cell_of_day :
  forall op missing filter_date c,
    numeric_or_missing c = true ->
    date_cell op missing filter_date (timestamp_cell c)
    = match day_of c with
      | Some day => op (date_of_day day) (Instant.date filter_date)
      | None => missing
      end.
Proof.
  intros op missing filter_date c Hc.
  destruct c; try discriminate Hc; cbn [timestamp_cell day_of date_cell]; try reflexivity;
    destruct (Instant.in_bounds z); cbn [date_cell]; try reflexivity;
    rewrite date_of_seconds; reflexivity.
Qed.

Lemma date_order :
  forall a b,
    Instant.date_eqb a b = negb (Instant.date_ltb a b) && negb (Instant.date_ltb b a)
    /\ Instant.date_ltb a b && Instant.date_ltb b a = false.
Proof.
  intros [[y1 m1] d1] [[y2 m2] d2]. unfold Instant.date_eqb, Instant.date_ltb.
  destruct (Nat.ltb_spec y1 y2), (Nat.ltb_spec y2 y1), (Nat.eqb_spec y1 y2),
    (Nat.eqb_spec y2 y1); try lia; cbn [andb orb negb]; try (split; reflexivity);
    destruct (Nat.ltb_spec m1 m2), (Nat.ltb_spec m2 m1), (Nat.eqb_spec m1 m2),
      (Nat.eqb_spec m2 m1); try lia; cbn [andb orb negb]; try (split; reflexivity);
    destruct (Nat.ltb_spec d1 d2), (Nat.ltb_spec d2 d1), (Nat.eqb_spec d1 d2);
    try lia; cbn [andb orb negb]; split; reflexivity.
Qed.

(** X8.  On a date column that holds Unix timestamps (or nothing), with a
    value that is read as a date, the four operators of dates look at the
    day of a cell only, not at the time of the day: a cell of a day before
    the date passes [less_than], of a day after it [greater_than], of the
    day itself [equals], one and only one of the three; [not_equals] is
    the contrary of [equals]; and a cell that has no date passes
    [not_equals] alone. *)
Theorem date_filters_compare_days :
  forall lib client table_id df column val filter_date,
    date_column_test client table_id column = Ok true ->
    forallb numeric_or_missing (series df column) = true ->
    _parse_date_filter lib val = Ok filter_date ->
    exists same before after : Z -> bool,
      let verdict (on_day : Z -> bool) (missing : bool) (c : value) :=
        match day_of c with
        | Some day => on_day day
        | None => missing
        end in
      _create_filter_mask lib client df column "equals" val table_id
      = Ok (map (verdict same false) (series df column))
      /\ _create_filter_mask lib client df column "not_equals" val table_id
         = Ok (map (verdict (fun day => negb (same day)) true) (series df column))
      /\ _create_filter_mask lib client df column "less_than" val table_id
         = Ok (map (verdict before false) (series df column))
      /\ _create_filter_mask lib client df column "greater_than" val table_id
         = Ok (map (verdict after false) (series df column))
      /\ (forall day,
            same day = negb (before day) && negb (after day)
            /\ before day && after day = false).
Proof.
  intros lib client table_id df column val filter_date Hdate Hcells Hparse.
  exists (fun day => Instant.date_eqb (date_of_day day) (Instant.date filter_date)),
         (fun day => Instant.date_ltb (date_of_day day) (Instant.date filter_date)),
         (fun day => Instant.date_ltb (Instant.date filter_date) (date_of_day day)).
  cbv zeta.
  assert (Hmask : forall operator,
             _create_filter_mask lib client df column operator val table_id
             = Ok (date_filter_mask lib df (map timestamp_cell (series df column))
                     operator val)).
  { intros operator. unfold _create_filter_mask. rewrite Hdate. cbn [bind].
    unfold _convert_timestamp_to_datetime, to_datetime_unit_s. rewrite Hcells.
    reflexivity. }
  assert (Hcell : forall op missing,
             map (date_cell op missing filter_date) (map timestamp_cell (series df column))
             = map (fun c => match day_of c with
                             | Some day => op (date_of_day day) (Instant.date filter_date)
                             | None => missing
                             end) (series df column)).
  { intros op missing. rewrite map_map. apply map_ext_in. intros c Hc.
    apply date_cell_of_day. rewrite forallb_forall in Hcells. apply Hcells. exact Hc. }
  rewrite !Hmask. unfold date_filter_mask. rewrite Hparse.
  cbn [String.eqb Ascii.eqb Bool.eqb andb]. rewrite !Hcell.
  repeat split; try reflexivity; apply date_order.
Qed.

(** On [visits], whose two rows are of 14 and 15 November 2023, with the
    date 15/11/2023: the second row is of the day, the first of a day
    before. *)
Lemma date_filters_compare_days_witness :
  (exists same before after : Z -> bool,
      let verdict (on_day : Z -> bool) (missing : bool) (c : value) :=
        match day_of c with
        | Some day => on_day day
        | None => missing
        end in
      _create_filter_mask november visits_client visits "Jour" "equals" "15/11/2023"
        (Some "Visites")
      = Ok (map (verdict same false) (series visits "Jour"))
      /\ _create_filter_mask november visits_client visits "Jour" "not_equals" "15/11/2023"
           (Some "Visites")
         = Ok (map (verdict (fun day => negb (same day)) true) (series visits "Jour"))
      /\ _create_filter_mask november visits_client visits "Jour" "less_than" "15/11/2023"
           (Some "Visites")
         = Ok (map (verdict before false) (series visits "Jour"))
      /\ _create_filter_mask november visits_client visits "Jour" "greater_than" "15/11/2023"
           (Some "Visites")
         = Ok (map (verdict after false) (series visits "Jour"))
      /\ (forall day,
            same day = negb (before day) && negb (after day)
            /\ before day && after day = false))
  /\ _create_filter_mask november visits_client visits "Jour" "equals" "15/11/2023"
       (Some "Visites") = Ok [false; true]
  /\ _create_filter_mask november visits_client visits "Jour" "less_than" "15/11/2023"
       (Some "Visites") = Ok [true; false].
Proof.
  split; [|split; reflexivity].
  apply (date_filters_compare_days november visits_client (Some "Visites") visits "Jour"
           "15/11/2023" (mk_datetime 2023 11 15 0 0 0)); reflexivity.
Defined.

(** ** The AND mode, one list of filters after another *)

Lemma and_loop_app :
  forall lib client table_id l1 l2 df,
    and_loop lib client table_id (l1 ++ l2) df
    = and_loop lib client table_id l2 (and_loop lib client table_id l1 df).
Proof.
  intros lib client table_id. induction l1 as [|f l1 IH]; intros l2 df; cbn [app and_loop];
    [reflexivity|].
  destruct (filter_mask lib client df table_id f); apply IH.
Qed.

(** On a frame without rows or without columns the loop changes nothing. *)
Lemma and_loop_empty :
  forall lib client table_id filters df,
    empty df = true -> and_loop lib client table_id filters df = df.
Proof.
  intros lib client table_id. induction filters as [|f filters IH]; intros df He;
    cbn [and_loop]; [reflexivity|].
  destruct (filter_mask lib client df table_id f) as [m|] eqn:Hm; [|apply IH; exact He].
  pose proof (filter_mask_length _ _ _ _ _ _ Hm) as Hlen.
  assert (Hsame : loc_mask df m = df).
  { destruct df as [cols rs]. unfold loc_mask. cbn [columns rows] in *.
    unfold empty in He. cbn [rows columns] in He.
    destruct rs as [|r rs].
    - reflexivity.
    - destruct cols as [|c cols]; [|discriminate He].
      unfold filter_mask in Hm. cbn [columns mem existsb negb] in Hm.
      destruct (incomplete f); discriminate Hm. }
  rewrite Hsame. apply IH. exact He.
Qed.

(** X9.  In the AND mode, one list of filters after another is the two
    lists in turn: the evaluation of the second list on the table the
    first list returns. *)
Theorem and_mode_composes :
  forall lib client table_id df filters1 filters2,
    exists filtered_df,
      apply_advanced_filters lib client df (Payload (Some "and") (Some filters1)) table_id
      = Some filtered_df
      /\ apply_advanced_filters lib client df
           (Payload (Some "and") (Some (filters1 ++ filters2)%list)) table_id
         = apply_advanced_filters lib client filtered_df
             (Payload (Some "and") (Some filters2)) table_id.
Proof.
  intros lib client table_id df filters1 filters2.
  rewrite !apply_advanced_filters_payload. eexists. split; [reflexivity|].
  rewrite apply_advanced_filters_payload. f_equal. unfold evaluate.
  cbn [String.eqb Ascii.eqb Bool.eqb andb].
  destruct (empty df) eqn:He; [rewrite He; reflexivity|].
  rewrite and_loop_app.
  destruct (empty (and_loop lib client table_id filters1 df)) eqn:He1; [|reflexivity].
  apply and_loop_empty. exact He1.
Qed.

(** ** The two modes, on filters that compare texts *)

Lemma mask_or_map :
  forall (A : Type) (f g : A -> bool) (l : list A),
    mask_or (map f l) (map g l) = map (fun x => f x || g x) l.
Proof.
  intros A f g. induction l as [|x l IH]; cbn [map mask_or]; [reflexivity|].
  rewrite IH. reflexivity.
Qed.

Lemma fold_mask_or_map :
  forall (A : Type) (l : list A) (ts : list (A -> bool)) (t : A -> bool),
    fold_left mask_or (map (fun u => map u l) ts) (map t l)
    = map (fun x => existsb (fun u => u x) (t :: ts)) l.
Proof.
  intros A l. induction ts as [|u ts IH]; intros t; cbn [map fold_left].
  - apply map_ext. intros x. cbn [existsb]. rewrite orb_false_r. reflexivity.
  - rewrite mask_or_map, IH. apply map_ext. intros x. cbn [existsb].
    rewrite orb_assoc. reflexivity.
Qed.

(** The tests of the filters that make one. *)
Lemma or_loop_compares_text :
  forall lib client table_id df filters,
    forallb (compares_text client table_id) filters = true ->
    exists tests,
      or_loop lib client table_id df filters = map (fun t => map t (rows df)) tests
      /\ forall r,
           forallb (fun f => passes (row_test lib client table_id (columns df) f) r) filters
           = true ->
           tests = [] \/ existsb (fun t => t r) tests = true.
Proof.
  intros lib client table_id df. induction filters as [|f filters IH]; intros Hall;
    cbn [or_loop forallb].
  - exists []. split; [reflexivity|]. intros r _. left. reflexivity.
  - cbn [forallb] in Hall. apply andb_true_iff in Hall as [Hf Hrest].
    destruct (IH Hrest) as [tests [Hloop Hpass]].
    rewrite (filter_mask_compares_text lib client table_id df f Hf).
    destruct (row_test lib client table_id (columns df) f) as [t|]; cbn [option_map passes].
    + exists (t :: tests). split; [cbn [map]; rewrite Hloop; reflexivity|].
      intros r Hr. apply andb_true_iff in Hr as [Ht _]. right. cbn [existsb].
      rewrite Ht. reflexivity.
    + exists tests. split; [exact Hloop|]. intros r Hr. apply Hpass. exact Hr.
Qed.

(** X10.  On filters that compare texts the AND mode is the narrower of the
    two modes: the rows it returns are rows the OR mode returns, in the
    same order; they are those that pass the test of every filter that
    makes one. *)
Theorem and_mode_is_narrower_than_or_mode :
  forall lib client table_id df filters,
    forallb (compares_text client table_id) filters = true ->
    exists narrow wide,
      apply_advanced_filters lib client df (Payload (Some "and") (Some filters)) table_id
      = Some narrow
      /\ apply_advanced_filters lib client df (Payload (Some "or") (Some filters)) table_id
         = Some wide
      /\ columns narrow = columns wide
      /\ rows narrow
         = filter (fun r => forallb (fun f => passes (row_test lib client table_id
                                                                (columns df) f) r)
                                    filters)
                  (rows wide).
Proof.
  intros lib client table_id df filters Hall.
  rewrite !apply_advanced_filters_payload. do 2 eexists.
  split; [reflexivity|]. split; [reflexivity|].
  unfold evaluate. destruct (empty df) eqn:He.
  - split; [reflexivity|].
    rewrite <- (and_loop_empty lib client table_id filters df He) at 1.
    rewrite (and_loop_compares_text lib client table_id filters df Hall). reflexivity.
  - cbn [String.eqb Ascii.eqb Bool.eqb andb].
    rewrite (and_loop_compares_text lib client table_id filters df Hall).
    destruct (or_loop_compares_text lib client table_id df filters Hall)
      as [tests [Hloop Hpass]].
    rewrite Hloop. destruct tests as [|t tests]; cbn [map columns rows];
      [split; reflexivity|].
    split; [reflexivity|].
    rewrite fold_mask_or_map. unfold loc_mask. cbn [rows].
    rewrite select_map, filter_filter. apply filter_ext. intros r.
    destruct (forallb (fun f => passes (row_test lib client table_id (columns df) f) r)
                      filters) eqn:Hr; [|symmetry; apply andb_false_r].
    destruct (Hpass r Hr) as [Hnil|Hex]; [discriminate Hnil|].
    rewrite Hex. reflexivity.
Qed.

(** On [people]: Dupont and Bernard are of Paris or have a name that
    starts with [B]; Bernard alone is of Paris and has such a name. *)
Lemma and_mode_is_narrower_than_or_mode_witness :
  forallb (compares_text no_client None)
          [on "Ville" "equals" "Paris"; on "Nom" "starts_with" "B"] = true
  /\ exists narrow wide,
       apply_advanced_filters plain no_client people
         (Payload (Some "and") (Some [on "Ville" "equals" "Paris"; on "Nom" "starts_with" "B"]))
         None
       = Some narrow
       /\ apply_advanced_filters plain no_client people
            (Payload (Some "or") (Some [on "Ville" "equals" "Paris"; on "Nom" "starts_with" "B"]))
            None
          = Some wide
       /\ columns narrow = columns wide
       /\ rows narrow
          = filter (fun r => forallb (fun f => passes (row_test plain no_client None
                                                                 (columns people) f) r)
                                     [on "Ville" "equals" "Paris"; on "Nom" "starts_with" "B"])
                   (rows wide).
Proof.
  split; [reflexivity|].
  apply (and_mode_is_narrower_than_or_mode plain no_client None people); reflexivity.
Defined.

(* ================================================================== *)
(** * Further properties of the file names                             *)
(* ================================================================== *)

(** ** The characters of a text *)

Lemma has_char_append :
  forall c a b, has_char c (a ++ b) = has_char c a || has_char c b.
Proof.
  intros c. induction a as [|x a IH]; intros b; [reflexivity|].
  unfold has_char in *. cbn [append list_ascii_of_string existsb].
  rewrite IH, orb_assoc. reflexivity.
Qed.

Lemma has_char_cons :
  forall c x s, has_char c (String x s) = Ascii.eqb c x || has_char c s.
Proof. reflexivity. Qed.

Lemma has_char_replace_skip :
  forall c old new s skip,
    has_char c s = false -> has_char c new = false ->
    has_char c (PyStr.replace_skip old new skip s) = false.
Proof.
  intros c old new. induction s as [|x s IH]; intros skip Hs Hnew; [reflexivity|].
  rewrite has_char_cons in Hs. apply orb_false_iff in Hs as [Hx Hs].
  cbn [PyStr.replace_skip]. destruct skip as [|k]; [|apply IH; assumption].
  destruct (String.prefix old (String x s)).
  - rewrite has_char_append, Hnew. apply IH; assumption.
  - rewrite has_char_cons, Hx. apply IH; assumption.
Qed.

Lemma has_char_interleave :
  forall c new s,
    has_char c s = false -> has_char c new = false ->
    has_char c (PyStr.interleave new s) = false.
Proof.
  intros c new. induction s as [|x s IH]; intros Hs Hnew; cbn [PyStr.interleave];
    [exact Hnew|].
  rewrite has_char_cons in Hs. apply orb_false_iff in Hs as [Hx Hs].
  rewrite has_char_append, Hnew, has_char_cons, Hx. apply IH; assumption.
Qed.

(** A replacement brings in no character that is neither in the text nor
    in what replaces. *)
Lemma has_char_replace :
  forall c s old new,
    has_char c s = false -> has_char c new = false ->
    has_char c (PyStr.replace s old new) = false.
Proof.
  intros c s old new Hs Hnew. unfold PyStr.replace. destruct old.
  - apply has_char_interleave; assumption.
  - apply has_char_replace_skip; assumption.
Qed.

(** Replacing one character leaves none of it. *)
Lemma has_char_replace_char :
  forall c new s,
    has_char c new = false ->
    has_char c (PyStr.replace s (String c "") new) = false.
Proof.
  intros c new s Hnew. unfold PyStr.replace.
  induction s as [|x s IH]; [reflexivity|].
  cbn [PyStr.replace_skip String.prefix String.length Nat.sub].
  destruct (Ascii.ascii_dec c x) as [->|Hne].
  - cbn [String.prefix]. destruct (Ascii.ascii_dec x x); [|contradiction].
    destruct s; cbn [String.prefix]; rewrite has_char_append, Hnew; exact IH.
  - cbn [String.prefix]. destruct (Ascii.ascii_dec c x); [contradiction|].
    rewrite has_char_cons. apply Ascii.eqb_neq in Hne. rewrite Hne. exact IH.
Qed.

(** ** The digits of a number *)

Lemma digit_is_digit : forall n, is_digit (PyStr.digit n) = true.
Proof.
  intros n. unfold PyStr.digit.
  assert (H : (Z.to_nat (n mod 10) < 10)%nat).
  { pose proof (Z.mod_pos_bound n 10 ltac:(lia)). lia. }
  generalize dependent (Z.to_nat (n mod 10)). intros k H.
  do 10 (destruct k as [|k]; [reflexivity|]). lia.
Qed.

Lemma digits_fuel_chars :
  forall c fuel n acc,
    is_digit c = false -> has_char c acc = false ->
    has_char c (PyStr.digits_fuel fuel n acc) = false.
Proof.
  intros c. induction fuel as [|fuel IH]; intros n acc Hc Hacc; cbn [PyStr.digits_fuel];
    [exact Hacc|].
  assert (Hacc' : has_char c (String (PyStr.digit n) acc) = false).
  { rewrite has_char_cons, Hacc, orb_false_r.
    destruct (Ascii.eqb_spec c (PyStr.digit n)) as [->|]; [|reflexivity].
    rewrite digit_is_digit in Hc. discriminate Hc. }
  destruct (n <? 10); [exact Hacc'|]. apply IH; assumption.
Qed.

(** The text of a number has digits only, after a minus sign when the
    number is negative. *)
Lemma of_Z_chars :
  forall c z,
    is_digit c = false -> Ascii.eqb c "-" = false -> has_char c (PyStr.of_Z z) = false.
Proof.
  intros c z Hc Hminus. unfold PyStr.of_Z. cbv zeta.
  assert (Hd : has_char c (PyStr.digits_fuel (S (Z.to_nat (Z.log2 (Z.abs z)))) (Z.abs z) "")
               = false)
    by (apply digits_fuel_chars; [exact Hc|reflexivity]).
  destruct (z <? 0); [|exact Hd].
  rewrite has_char_append, Hd, orb_false_r. unfold has_char. cbn. rewrite Hminus. reflexivity.
Qed.

Lemma zeros_chars :
  forall c n, is_digit c = false -> has_char c (PyStr.zeros n) = false.
Proof.
  intros c. induction n as [|n IH]; intros Hc; [reflexivity|].
  cbn [PyStr.zeros]. rewrite has_char_cons, (IH Hc), orb_false_r.
  destruct (Ascii.eqb_spec c "0") as [->|]; [discriminate Hc|reflexivity].
Qed.

Lemma pad_chars :
  forall c w n,
    is_digit c = false -> Ascii.eqb c "-" = false -> has_char c (PyStr.pad w n) = false.
Proof.
  intros c w n Hc Hminus. unfold PyStr.pad, PyStr.of_nat. cbv zeta.
  rewrite has_char_append, zeros_chars, of_Z_chars by assumption. reflexivity.
Qed.

(** ** The separators of directories *)

Lemma separator_cases : forall c, is_separator c = true -> c = "/"%char \/ c = "\"%char.
Proof.
  intros c H. unfold is_separator in H. apply orb_true_iff in H as [H|H];
    apply Ascii.eqb_eq in H; [left|right]; exact H.
Qed.

Lemma safe_filter_value_chars :
  forall c filter_value,
    is_separator c = true ->
    has_char c (Filename.safe_filter_value filter_value) = false.
Proof.
  intros c filter_value Hc. unfold Filename.safe_filter_value.
  destruct (separator_cases c Hc) as [-> | ->].
  - apply has_char_replace; [|reflexivity]. apply has_char_replace; [|reflexivity].
    apply has_char_replace_char. reflexivity.
  - apply has_char_replace; [|reflexivity]. apply has_char_replace_char. reflexivity.
Qed.

Lemma strftime_Ymd_chars :
  forall c d, is_separator c = true -> has_char c (strftime_Ymd d) = false.
Proof.
  intros c d Hc. unfold strftime_Ymd.
  destruct (separator_cases c Hc) as [-> | ->];
    rewrite !has_char_append, !pad_chars by reflexivity; reflexivity.
Qed.

Lemma strftime_Ymd_HMS_chars :
  forall c d, is_separator c = true -> has_char c (strftime_Ymd_HMS d) = false.
Proof.
  intros c d Hc. unfold strftime_Ymd_HMS.
  rewrite !has_char_append, (strftime_Ymd_chars c d Hc).
  destruct (separator_cases c Hc) as [-> | ->];
    rewrite !pad_chars by reflexivity; reflexivity.
Qed.

Lemma substitute_chars :
  forall c reps filename,
    has_char c filename = false ->
    Forall (fun r => has_char c (snd r) = false) reps ->
    has_char c (Filename.substitute filename reps) = false.
Proof.
  intros c. unfold Filename.substitute.
  induction reps as [|r reps IH]; intros filename Hf Hreps; cbn [fold_left]; [exact Hf|].
  inversion Hreps as [|r' reps' Hr Hreps']; subst.
  apply IH; [|exact Hreps']. apply has_char_replace; assumption.
Qed.

(** X11.  When neither the model of the file names nor the name of the table
    has a separator of directories ([/] or [\]), no file name has one,
    whatever the key of the group: the file is written in the output
    folder itself. *)
Theorem export_filename_has_no_separator :
  forall filename_pattern filter_value table_id current_date c,
    is_separator c = true ->
    has_char c filename_pattern = false ->
    has_char c table_id = false ->
    has_char c (Filename.export_filename filename_pattern filter_value table_id current_date)
    = false.
Proof.
  intros filename_pattern filter_value table_id current_date c Hc Hpattern Htable.
  unfold Filename.export_filename. cbv zeta.
  assert (Hpdf : has_char c ".pdf" = false)
    by (destruct (separator_cases c Hc) as [-> | ->]; reflexivity).
  assert (Hone : has_char c "_" = false /\ has_char c "-" = false /\ has_char c "user" = false)
    by (destruct (separator_cases c Hc) as [-> | ->]; repeat split; reflexivity).
  destruct Hone as (Hunder & Hdash & Huser).
  match goal with
  | |- context [if PyStr.endswith ?f ".pdf" then _ else _] =>
      assert (Hname : has_char c f = false)
  end.
  { apply has_char_replace; [|exact Hdash]. apply has_char_replace; [|exact Hunder].
    apply substitute_chars; [exact Hpattern|].
    unfold Filename.replacements. repeat constructor; cbn [snd].
    - apply safe_filter_value_chars. exact Hc.
    - apply strftime_Ymd_HMS_chars. exact Hc.
    - apply strftime_Ymd_chars. exact Hc.
    - exact Htable.
    - exact Huser. }
  match goal with
  | |- context [if ?b then _ else _] => destruct b
  end; [exact Hname|].
  rewrite has_char_append, Hname, Hpdf. reflexivity.
Qed.

(** The key ["../Paris / Nord"] in the model of the program's default. *)
Lemma export_filename_has_no_separator_witness :
  has_char "/" (Filename.export_filename "{filter_value}_{date}.pdf" "../Paris / Nord" "Table1"
                  (mk_datetime 2024 3 5 10 30 0)) = false
  /\ Filename.export_filename "{filter_value}_{date}.pdf" "../Paris / Nord" "Table1"
       (mk_datetime 2024 3 5 10 30 0) = ".._Paris__Nord_20240305.pdf".
Proof.
  split; [|reflexivity].
  apply (export_filename_has_no_separator "{filter_value}_{date}.pdf" "../Paris / Nord" "Table1"
           (mk_datetime 2024 3 5 10 30 0) "/"%char); reflexivity.
Defined.

(* ================================================================== *)
(** * The text of a number and of a date                               *)
(* ================================================================== *)

(** ** Reading back the text of a number *)

Lemma digit_value :
  forall n, 0 <= n ->
    Z.of_nat (nat_of_ascii (PyStr.digit n) - 48) = n mod 10.
Proof.
  intros n Hn. unfold PyStr.digit.
  assert (H : (Z.to_nat (n mod 10) < 10)%nat).
  { pose proof (Z.mod_pos_bound n 10 ltac:(lia)). lia. }
  rewrite nat_ascii_embedding by lia.
  pose proof (Z.mod_pos_bound n 10 ltac:(lia)). lia.
Qed.

Lemma digits_fuel_value :
  forall fuel n acc,
    0 <= n < 2 ^ Z.of_nat fuel ->
    exists k : Z,
      0 <= k
      /\ forall a, digits_value a (PyStr.digits_fuel fuel n acc)
                   = digits_value (a * 10 ^ k + n) acc.
Proof.
  induction fuel as [|fuel IH]; intros n acc Hn.
  - exists 0. split; [lia|]. intros a. cbn [PyStr.digits_fuel].
    change (2 ^ Z.of_nat 0) with 1 in Hn. f_equal. lia.
  - cbn [PyStr.digits_fuel].
    assert (Hstep : forall a, digits_value a (String (PyStr.digit n) acc)
                              = digits_value (10 * a + n mod 10) acc).
    { intros a. cbn [digits_value]. rewrite digit_is_digit, digit_value by lia.
      reflexivity. }
    destruct (Z.ltb_spec n 10) as [Hlt|Hge].
    + exists 1. split; [lia|]. intros a. rewrite Hstep. f_equal.
      rewrite Z.mod_small by lia. lia.
    + assert (Hdiv : 0 <= n / 10 < 2 ^ Z.of_nat fuel).
      { split; [apply Z.div_pos; lia|].
        rewrite Nat2Z.inj_succ, Z.pow_succ_r in Hn by lia.
        apply Z.div_lt_upper_bound; lia. }
      destruct (IH (n / 10) (String (PyStr.digit n) acc) Hdiv) as [k [Hk Hv]].
      exists (k + 1). split; [lia|]. intros a. rewrite Hv, Hstep. f_equal.
      rewrite Z.pow_add_r by lia. pose proof (Z.div_mod n 10 ltac:(lia)). lia.
Qed.

(** The digits of a natural number are read back as the number. *)
Lemma digits_value_of_nat :
  forall n, digits_value 0 (PyStr.of_nat n) = Some (Z.of_nat n).
Proof.
  intros n. unfold PyStr.of_nat, PyStr.of_Z. cbv zeta.
  destruct (Z.ltb_spec (Z.of_nat n) 0) as [H|_]; [lia|].
  rewrite Z.abs_eq by lia.
  assert (Hn : 0 <= Z.of_nat n < 2 ^ Z.of_nat (S (Z.to_nat (Z.log2 (Z.of_nat n))))).
  { split; [lia|]. rewrite Nat2Z.inj_succ, Z2Nat.id by apply Z.log2_nonneg.
    destruct (Z.eq_dec (Z.of_nat n) 0) as [->|Hne]; [reflexivity|].
    apply Z.log2_spec. lia. }
  destruct (digits_fuel_value _ _ "" Hn) as [k [_ Hv]].
  rewrite Hv. cbn [digits_value]. reflexivity.
Qed.

Lemma digits_value_zeros :
  forall k s, digits_value 0 (PyStr.zeros k ++ s) = digits_value 0 s.
Proof.
  induction k as [|k IH]; intros s; [reflexivity|].
  cbn [PyStr.zeros append digits_value]. exact (IH s).
Qed.

Lemma digits_value_pad :
  forall w n, digits_value 0 (PyStr.pad w n) = Some (Z.of_nat n).
Proof.
  intros w n. unfold PyStr.pad. cbv zeta.
  rewrite digits_value_zeros. apply digits_value_of_nat.
Qed.

Lemma pad_injective : forall w a b, PyStr.pad w a = PyStr.pad w b -> a = b.
Proof.
  intros w a b H. pose proof (digits_value_pad w a) as Ha.
  rewrite H, digits_value_pad in Ha. injection Ha as Ha. lia.
Qed.

(** ** The dates of a group *)

Lemma split_at_first :
  forall c s1 t1 s2 t2,
    has_char c s1 = false -> has_char c s2 = false ->
    s1 ++ String c t1 = s2 ++ String c t2 -> s1 = s2 /\ t1 = t2.
Proof.
  intros c. induction s1 as [|x s1 IH]; intros t1 s2 t2 H1 H2 He;
    destruct s2 as [|y s2]; cbn [append] in He.
  - injection He as He. split; [reflexivity|exact He].
  - injection He as Hc _. subst y. rewrite has_char_cons, Ascii.eqb_refl in H2.
    discriminate H2.
  - injection He as Hc _. subst x. rewrite has_char_cons, Ascii.eqb_refl in H1.
    discriminate H1.
  - injection He as Hxy He. subst y.
    rewrite has_char_cons in H1, H2.
    apply orb_false_iff in H1 as [_ H1]. apply orb_false_iff in H2 as [_ H2].
    destruct (IH t1 s2 t2 H1 H2 He) as [-> ->]. split; reflexivity.
Qed.

(** Two instants are written alike DD/MM/YYYY when they are of the same
    date, and only then. *)
Lemma strftime_dmY_date :
  forall a b, String.eqb (strftime_dmY a) (strftime_dmY b)
              = Instant.date_eqb (Instant.date a) (Instant.date b).
Proof.
  intros a b. unfold strftime_dmY, Instant.date, Instant.date_eqb.
  destruct (String.eqb_spec
              (PyStr.pad 2 (day a) ++ "/" ++ PyStr.pad 2 (month a) ++ "/" ++ PyStr.pad 4 (year a))
              (PyStr.pad 2 (day b) ++ "/" ++ PyStr.pad 2 (month b) ++ "/" ++ PyStr.pad 4 (year b)))
    as [He|Hne].
  - cbn [append] in He.
    apply split_at_first in He as [Hd He]; try (apply pad_chars; reflexivity).
    apply split_at_first in He as [Hm Hy]; try (apply pad_chars; reflexivity).
    apply pad_injective in Hd, Hm, Hy. rewrite Hd, Hm, Hy, !Nat.eqb_refl. reflexivity.
  - destruct (Nat.eqb_spec (year a) (year b)) as [Hy|]; [|reflexivity].
    destruct (Nat.eqb_spec (month a) (month b)) as [Hm|]; [|reflexivity].
    destruct (Nat.eqb_spec (day a) (day b)) as [Hd|]; [|reflexivity].
    exfalso. apply Hne. rewrite Hy, Hm, Hd. reflexivity.
Qed.

(* ================================================================== *)
(** * Properties of the lookup of a record by its key                  *)
(* ================================================================== *)

Lemma first_record_id_target :
  forall lib records filter_column filter_value,
    first_record_id records filter_column filter_value
    = match target_record lib false filter_column filter_value records with
      | Some r => record_id r
      | None => VNone
      end.
Proof.
  intros lib. induction records as [|r records IH]; intros filter_column filter_value;
    cbn [first_record_id target_record record_matches]; [reflexivity|].
  destruct (String.eqb (PyVal.str (field_value r filter_column)) filter_value);
    [reflexivity|apply IH].
Qed.

(** X12.  [get_record_id_by_filter_value] answers with the identifier of
    the record that the upload of the documents attaches a document to on
    a column that is no date column: the first record, in the order of the
    table, whose field is written as the key; and with nothing when there
    is none.  A record that has no such field is written [None]: it is
    found under the key ["None"] when no record before it is. *)
Theorem record_id_lookup_agrees_with_the_upload :
  forall lib tables table_id filter_column filter_value,
    get_record_id_by_filter_value tables table_id filter_column filter_value
    = (records <- get_table_data tables table_id ;;
       Ok (match target_record lib false filter_column filter_value records with
           | Some r => record_id r
           | None => VNone
           end))
    /\ (forall before r after,
          get_table_data tables table_id = Ok (before ++ r :: after)%list ->
          target_record lib false filter_column "None" before = None ->
          field_value r filter_column = VNone ->
          get_record_id_by_filter_value tables table_id filter_column "None"
          = Ok (record_id r)).
Proof.
  intros lib tables table_id filter_column filter_value.
  unfold get_record_id_by_filter_value. split.
  - destruct (get_table_data tables table_id) as [records|e]; cbn [bind]; [|reflexivity].
    rewrite (first_record_id_target lib). reflexivity.
  - intros before r after Hdata Hbefore Hfield. rewrite Hdata. cbn [bind]. f_equal.
    rewrite (first_record_id_target lib). clear Hdata.
    induction before as [|b before IH]; cbn [app target_record record_matches] in *.
    + rewrite Hfield. reflexivity.
    + destruct (String.eqb (PyVal.str (field_value b filter_column)) "None");
        [discriminate Hbefore|]. apply IH. exact Hbefore.
Qed.

Lemma record_id_lookup_agrees_with_the_upload_witness :
  get_table_data partial_tables "Clients"
  = Ok ([Wrapped 21 [("Nom", VStr "Dupont"); ("Ville", VStr "Paris")]]
        ++ Wrapped 22 [("Nom", VStr "Martin")] :: [])%list
  /\ target_record plain false "Ville" "None"
       [Wrapped 21 [("Nom", VStr "Dupont"); ("Ville", VStr "Paris")]] = None
  /\ field_value (Wrapped 22 [("Nom", VStr "Martin")]) "Ville" = VNone
  /\ get_record_id_by_filter_value partial_tables "Clients" "Ville" "None"
     = Ok (VInt 22).
Proof.
  assert (Hdata : get_table_data partial_tables "Clients"
            = Ok ([Wrapped 21 [("Nom", VStr "Dupont"); ("Ville", VStr "Paris")]]
                  ++ Wrapped 22 [("Nom", VStr "Martin")] :: [])%list)
    by reflexivity.
  assert (Hbefore : target_record plain false "Ville" "None"
            [Wrapped 21 [("Nom", VStr "Dupont"); ("Ville", VStr "Paris")]] = None)
    by reflexivity.
  assert (Hfield : field_value (Wrapped 22 [("Nom", VStr "Martin")]) "Ville" = VNone)
    by reflexivity.
  split; [exact Hdata|]. split; [exact Hbefore|]. split; [exact Hfield|].
  exact (proj2 (record_id_lookup_agrees_with_the_upload
                  plain partial_tables "Clients" "Ville" "None")
               _ _ _ Hdata Hbefore Hfield).
Defined.

(* ================================================================== *)
(** * Properties of the cells of a document                            *)
(* ================================================================== *)

Lemma formatted_value_ok :
  forall lib date_columns col v,
    exists text, formatted_value lib date_columns col v = Ok text.
Proof.
  intros lib date_columns col v.
  destruct (PyVal.is_list v) eqn:Hlist.
  - destruct v; try discriminate Hlist. eexists. reflexivity.
  - assert (Hscalar : formatted_value lib date_columns col v
                      = if mem col date_columns then format_date_value lib v
                        else if PyVal.isna v then Ok "" else Ok (PyVal.str v))
      by (destruct v; try discriminate Hlist; reflexivity).
    rewrite Hscalar, (format_date_value_scalar lib v Hlist).
    destruct (mem col date_columns); [|destruct (PyVal.isna v)]; eexists; reflexivity.
Qed.

(** X13.  Computing the text of a cell never raises, in a date column or
    in another, although the date formatter raises on a list: a list is
    written before the date formatter is called.  A missing value is
    written as the empty text in every column. *)
Theorem cell_text_never_raises :
  forall lib date_columns col v,
    exists text,
      formatted_value lib date_columns col v = Ok text
      /\ (PyVal.isna v = true -> text = "").
Proof.
  intros lib date_columns col v.
  destruct (formatted_value_ok lib date_columns col v) as [text Ht].
  exists text. split; [exact Ht|]. intros Hna.
  destruct v; try discriminate Hna; cbn [formatted_value format_date_value PyVal.isna] in Ht;
    destruct (mem col date_columns); injection Ht as <-; reflexivity.
Qed.

Lemma of_Z_is_not_the_marker : forall z, String.eqb (PyStr.of_Z z) "L" = false.
Proof.
  intros z. destruct (String.eqb_spec (PyStr.of_Z z) "L") as [He|]; [|reflexivity].
  pose proof (of_Z_chars "L" z eq_refl eq_refl) as H. rewrite He in H. discriminate H.
Qed.

(** X14.  The cell of attachments that the upload writes, the marker [L]
    before the identifiers, is shown in a document as the identifiers
    alone, separated by commas, in a date column or in another. *)
Theorem attachment_cell_shows_its_identifiers :
  forall lib date_columns col attachment_ids,
    forallb (fun i => negb (i =? 0)) attachment_ids = true ->
    formatted_value lib date_columns col (attachment_cell attachment_ids)
    = Ok (join ", " (map PyStr.of_Z attachment_ids)).
Proof.
  intros lib date_columns col attachment_ids Hids.
  unfold attachment_cell. cbn [formatted_value filter truthy PyVal.str String.eqb Ascii.eqb
                               Bool.eqb andb negb].
  cbv zeta. do 2 f_equal.
  induction attachment_ids as [|i ids IH]; [reflexivity|].
  cbn [forallb] in Hids. apply andb_true_iff in Hids as [Hi Hids].
  cbn [map filter truthy]. rewrite Hi.
  change (PyVal.str (VInt i)) with (PyStr.of_Z i).
  rewrite of_Z_is_not_the_marker. cbn [andb negb map]. f_equal. apply IH. exact Hids.
Qed.

Lemma attachment_cell_shows_its_identifiers_witness :
  formatted_value plain ["Jour"] "Documents" (attachment_cell [12; 7]) = Ok "12, 7".
Proof.
  apply (attachment_cell_shows_its_identifiers plain ["Jour"] "Documents" [12; 7]).
  reflexivity.
Defined.

Lemma filter_length_le :
  forall (A : Type) (P : A -> bool) (l : list A),
    (List.length (filter P l) <= List.length l)%nat
    /\ (List.length (filter P l) = List.length l <-> forallb P l = true).
Proof.
  intros A P. induction l as [|x l [IHle IHeq]]; cbn [filter forallb List.length].
  - split; [lia|]. split; reflexivity.
  - destruct (P x); cbn [List.length andb].
    + split; [lia|]. rewrite <- IHeq. split; intros H; lia.
    + split; [lia|]. split; intros H; [lia|discriminate H].
Qed.

(** X15.  Every row of the table of a document has as many cells as the
    header: one for each requested column that the data have, in the
    order of the request.  The widths are one for each requested column:
    there are as many widths as cells when every requested column is a
    column of the data, and more widths than cells otherwise. *)
Theorem rows_have_the_cells_of_the_header :
  forall lib A date_columns data col cols column_labels row,
    exists cells widths,
      row_data lib date_columns data (col :: cols) row = Ok cells
      /\ col_widths A data (col :: cols) date_columns = Ok widths
      /\ List.length cells = List.length (headers data (col :: cols) column_labels)
      /\ (List.length cells <= List.length widths)%nat
      /\ (List.length cells = List.length widths
          <-> forallb (has_column data) (col :: cols) = true).
Proof.
  intros lib A date_columns data col cols column_labels row.
  assert (Hcells : exists cells,
             row_data lib date_columns data (col :: cols) row = Ok cells
             /\ List.length cells = List.length (filter (has_column data) (col :: cols))).
  { unfold row_data. generalize (filter (has_column data) (col :: cols)) as shown.
    induction shown as [|c shown [cells [Hc Hl]]]; [exists []; split; reflexivity|].
    destruct (formatted_value_ok lib date_columns c (row c)) as [text Ht].
    exists (text :: cells). cbn [mapM]. rewrite Ht. cbn [bind]. rewrite Hc. cbn [bind].
    split; [reflexivity|]. cbn [List.length]. rewrite Hl. reflexivity. }
  destruct Hcells as [cells [Hrow Hlen]].
  assert (Hwidths : exists widths,
             col_widths A data (col :: cols) date_columns = Ok widths
             /\ List.length widths = List.length (col :: cols)).
  { unfold col_widths. cbv zeta.
    match goal with
    | |- context [if ?b then _ else _] => destruct b
    end; eexists; (split; [reflexivity|]); rewrite ?length_map; reflexivity. }
  destruct Hwidths as [widths [Hw Hwlen]].
  exists cells, widths. split; [exact Hrow|]. split; [exact Hw|].
  destruct (filter_length_le _ (has_column data) (col :: cols)) as [Hle Heq].
  split; [|split].
  - unfold headers. rewrite length_map. exact Hlen.
  - rewrite Hlen, Hwlen. exact Hle.
  - rewrite Hlen, Hwlen. exact Heq.
Qed.

(* ================================================================== *)
(** * Properties of the detection of the date columns                  *)
(* ================================================================== *)

(** X16.  With the types of the columns of the table, when the table has a
    column at least, the date columns of a document are the requested
    columns that the client holds for date columns, in the order of the
    request: the columns the filters and the grouping treat as dates are
    the columns written as dates.  The data are not looked at. *)
Theorem detected_date_columns_are_those_of_the_client :
  forall heuristic client table_id data columns column_types,
    get_table_columns_with_types client table_id = Ok column_types ->
    column_types <> [] ->
    detect_date_columns heuristic data columns (Some column_types)
    = filter (fun col =>
                match is_date_column client table_id col with
                | Ok is_date => is_date
                | Raise _ => false
                end)
             columns.
Proof.
  intros heuristic client table_id data columns column_types Htypes Hsome.
  unfold detect_date_columns.
  destruct column_types as [|t types]; [contradiction|].
  apply filter_ext. intros col. unfold is_date_column. rewrite Htypes. cbn [bind].
  destruct (get (t :: types) col) as [ty|]; reflexivity.
Qed.

Lemma detected_date_columns_are_those_of_the_client_witness :
  detect_date_columns (fun _ _ => true) visits ["Jour"; "Nom"; "Age"]
    (Some [("Nom", "Text"); ("Jour", "Date")])
  = filter (fun col =>
              match is_date_column visits_client "Visites" col with
              | Ok is_date => is_date
              | Raise _ => false
              end)
           ["Jour"; "Nom"; "Age"]
  /\ detect_date_columns (fun _ _ => true) visits ["Jour"; "Nom"; "Age"]
       (Some [("Nom", "Text"); ("Jour", "Date")]) = ["Jour"].
Proof.
  split; [|reflexivity].
  apply (detected_date_columns_are_those_of_the_client (fun _ _ => true) visits_client
           "Visites" visits ["Jour"; "Nom"; "Age"]).
  - reflexivity.
  - discriminate.
Defined.

(* ================================================================== *)
(** * Properties of the columns of a table                             *)
(* ================================================================== *)

(** ** Dictionaries *)

Lemma get_set_item :
  forall (A : Type) (d : dict A) k v, get (set_item d k v) k = Some v.
Proof.
  intros A. induction d as [|[k' v'] d IH]; intros k v; cbn [set_item get].
  - rewrite String.eqb_refl. reflexivity.
  - destruct (String.eqb k' k) eqn:He; cbn [get].
    + rewrite String.eqb_refl. reflexivity.
    + rewrite He. apply IH.
Qed.

Lemma get_set_item_other :
  forall (A : Type) (d : dict A) k v k',
    k' <> k -> get (set_item d k v) k' = get d k'.
Proof.
  intros A. induction d as [|[k0 v0] d IH]; intros k v k' Hne; cbn [set_item get].
  - destruct (String.eqb_spec k k'); [congruence|reflexivity].
  - destruct (String.eqb_spec k0 k) as [->|Hk]; cbn [get].
    + destruct (String.eqb_spec k k'); [congruence|reflexivity].
    + destruct (String.eqb k0 k'); [reflexivity|]. apply IH. exact Hne.
Qed.

Lemma in_set_item :
  forall (A : Type) (d : dict A) k v k' v',
    In (k', v') (set_item d k v) -> (k', v') = (k, v) \/ In (k', v') d.
Proof.
  intros A. induction d as [|[k0 v0] d IH]; intros k v k' v' Hin; cbn [set_item] in Hin.
  - destruct Hin as [H|[]]. left. symmetry. exact H.
  - destruct (String.eqb k0 k).
    + destruct Hin as [H|H]; [left; symmetry; exact H|right; right; exact H].
    + destruct Hin as [H|H]; [right; left; exact H|].
      destruct (IH _ _ _ _ H) as [He|Hd]; [left; exact He|right; right; exact Hd].
Qed.

Lemma keys_set_item :
  forall (A : Type) (d : dict A) k v k',
    In k' (map fst (set_item d k v)) <-> k' = k \/ In k' (map fst d).
Proof.
  intros A. induction d as [|[k0 v0] d IH]; intros k v k'; cbn [set_item map fst In].
  - intuition.
  - destruct (String.eqb_spec k0 k) as [->|Hk]; cbn [map fst In].
    + intuition.
    + rewrite IH. intuition.
Qed.

Lemma NoDup_keys_set_item :
  forall (A : Type) (d : dict A) k v,
    NoDup (map fst d) -> NoDup (map fst (set_item d k v)).
Proof.
  intros A. induction d as [|[k0 v0] d IH]; intros k v Hnd; cbn [set_item map fst].
  - constructor; [intros []|constructor].
  - cbn [map fst] in Hnd. inversion Hnd as [|x xs Hnotin Hnd']; subst.
    destruct (String.eqb_spec k0 k) as [->|Hk]; cbn [map fst].
    + constructor; assumption.
    + constructor; [|apply IH; exact Hnd'].
      intros Hin. apply keys_set_item in Hin as [He|Hin]; [congruence|contradiction].
Qed.

Lemma get_in :
  forall (A : Type) (d : dict A) k v, get d k = Some v -> In (k, v) d.
Proof.
  intros A. induction d as [|[k0 v0] d IH]; intros k v H; cbn [get] in H; [discriminate H|].
  destruct (String.eqb_spec k0 k) as [->|Hk].
  - injection H as <-. left. reflexivity.
  - right. apply IH. exact H.
Qed.

Lemma in_keys_get :
  forall (A : Type) (d : dict A) k, In k (map fst d) -> exists v, get d k = Some v.
Proof.
  intros A. induction d as [|[k0 v0] d IH]; intros k H; cbn [map fst In get] in *;
    [contradiction|].
  destruct (String.eqb_spec k0 k) as [->|Hk]; [eexists; reflexivity|].
  destruct H as [H|H]; [contradiction|]. apply IH. exact H.
Qed.

(** ** The cache of the types *)

Lemma cache_key_injective :
  forall doc t1 t2 : string, doc ++ "_" ++ t1 = doc ++ "_" ++ t2 -> t1 = t2.
Proof.
  induction doc as [|c doc IH]; intros t1 t2 H; cbn [append] in H.
  - injection H as H. exact H.
  - injection H as H. apply IH. exact H.
Qed.

(** X17.  The types of the columns of a table are fetched once: after a
    call that answered, every call for the same table gives the same
    answer and leaves the client as it is, whatever the API would answer
    then, be it other types or an error.  A call whose request fails
    leaves the client as it was, and what the client holds for another
    table is never touched. *)
Theorem column_types_are_fetched_once :
  forall request self table_id answer self',
    Columns.get_table_columns_with_types request self table_id = (answer, self') ->
    (forall column_types request',
       answer = Ok column_types ->
       Columns.get_table_columns_with_types request' self' table_id
       = (Ok column_types, self'))
    /\ (forall e, answer = Raise e -> self' = self)
    /\ (forall other,
          other <> table_id ->
          get (Columns._column_types_cache self') (Columns.doc_id self' ++ "_" ++ other)
          = get (Columns._column_types_cache self) (Columns.doc_id self ++ "_" ++ other)).
Proof.
  intros request self table_id answer self' Hcall.
  unfold Columns.get_table_columns_with_types in Hcall. cbv zeta in Hcall.
  destruct (get (Columns._column_types_cache self) (Columns.doc_id self ++ "_" ++ table_id))
    as [cached|] eqn:Hcache.
  - injection Hcall as <- <-. split; [|split].
    + intros column_types request' Hanswer. injection Hanswer as <-.
      unfold Columns.get_table_columns_with_types. cbv zeta. rewrite Hcache. reflexivity.
    + intros e Hanswer. discriminate Hanswer.
    + reflexivity.
  - destruct (request table_id) as [columns_data|e0].
    + injection Hcall as <- <-. split; [|split].
      * intros column_types request' Hanswer. injection Hanswer as <-.
        unfold Columns.get_table_columns_with_types. cbv zeta.
        cbn [Columns.doc_id Columns._column_types_cache]. rewrite get_set_item. reflexivity.
      * intros e Hanswer. discriminate Hanswer.
      * intros other Hother. cbn [Columns.doc_id Columns._column_types_cache].
        apply get_set_item_other. intros He. apply Hother.
        exact (cache_key_injective _ _ _ He).
    + injection Hcall as <- <-. split; [|split].
      * intros column_types request' Hanswer. discriminate Hanswer.
      * reflexivity.
      * reflexivity.
Qed.

(** ** The keys of the dictionaries *)

Lemma column_types_loop :
  forall columns_data l acc,
    incl l columns_data ->
    Forall (typed_entry columns_data) acc /\ NoDup (map fst acc) ->
    let types :=
      fold_left
        (fun column_types col =>
           match Columns.col_id_of col with
           | Some col_id =>
               if Columns.empty_text (Some col_id) then column_types
               else if Columns.is_helper col_id then column_types
               else set_item column_types col_id (Columns.col_type_of col)
           | None => column_types
           end) l acc in
    Forall (typed_entry columns_data) types /\ NoDup (map fst types).
Proof.
  intros columns_data.
  induction l as [|col l IH]; intros acc Hincl Hacc; cbn [fold_left]; [exact Hacc|].
  apply IH; [intros x Hx; apply Hincl; right; exact Hx|].
  destruct (Columns.col_id_of col) as [col_id|] eqn:Hid; [|exact Hacc].
  destruct (Columns.empty_text (Some col_id)) eqn:Hempty; [exact Hacc|].
  destruct (Columns.is_helper col_id) eqn:Hhelper; [exact Hacc|].
  destruct Hacc as [Hall Hnd]. split; [|apply NoDup_keys_set_item; exact Hnd].
  apply Forall_forall. intros [k t] Hin.
  apply in_set_item in Hin as [He|Hin]; [|rewrite Forall_forall in Hall; apply Hall; exact Hin].
  injection He as -> ->. unfold typed_entry. cbn [fst snd].
  split; [intros ->; discriminate Hempty|]. split; [exact Hhelper|].
  exists col. split; [apply Hincl; left; reflexivity|]. split; [exact Hid|reflexivity].
Qed.

Lemma typed_entries_of_the_answer :
  forall columns_data,
    Forall (typed_entry columns_data) (Columns.column_types_of columns_data)
    /\ NoDup (map fst (Columns.column_types_of columns_data)).
Proof.
  intros columns_data. unfold Columns.column_types_of.
  apply (column_types_loop columns_data columns_data []).
  - apply incl_refl.
  - split; constructor.
Qed.

(** X18.  The dictionary of the types of the columns has each identifier
    once, none is empty and none is of a helper column of Grist
    ([gristHelper_...]); each entry is the identifier and the type of a
    column of the answer of the API; and [get_table_columns] lists these
    identifiers. *)
Theorem column_types_have_no_helper_column :
  forall request self table_id columns_data,
    get (Columns._column_types_cache self) (Columns.doc_id self ++ "_" ++ table_id) = None ->
    request table_id = Ok columns_data ->
    exists column_types self',
      Columns.get_table_columns_with_types request self table_id = (Ok column_types, self')
      /\ Columns.get_table_columns request self table_id = (Ok (map fst column_types), self')
      /\ Forall (typed_entry columns_data) column_types
      /\ NoDup (map fst column_types).
Proof.
  intros request self table_id columns_data Hcache Hrequest.
  destruct (typed_entries_of_the_answer columns_data) as [Hall Hnd].
  unfold Columns.get_table_columns, Columns.get_table_columns_with_types. cbv zeta.
  rewrite Hcache, Hrequest. cbn [bind].
  eexists. eexists. repeat split; [exact Hall|exact Hnd].
Qed.

(** The answer [visit_columns]: three columns have a type, the helper
    column has none. *)
Lemma column_types_have_no_helper_column_witness :
  (exists column_types self',
      Columns.get_table_columns_with_types (fun _ => Ok visit_columns) new_client "Visites"
      = (Ok column_types, self')
      /\ Columns.get_table_columns (fun _ => Ok visit_columns) new_client "Visites"
         = (Ok (map fst column_types), self')
      /\ Forall (typed_entry visit_columns) column_types
      /\ NoDup (map fst column_types))
  /\ fst (Columns.get_table_columns_with_types (fun _ => Ok visit_columns) new_client "Visites")
     = Ok [("Jour", "Date"); ("Nom", "Text"); ("Ville", "Text")].
Proof.
  split; [|reflexivity].
  apply (column_types_have_no_helper_column (fun _ => Ok visit_columns) new_client "Visites"
           visit_columns); reflexivity.
Defined.


Lemma column_labels_loop :
  forall l acc,
    Forall (fun entry : string * string => snd entry <> "") acc ->
    let labels :=
      fold_left
        (fun column_labels col =>
           match Columns.col_id_or col with
           | Some col_id =>
               if negb (Columns.empty_text (Some col_id)) && negb (Columns.is_helper col_id)
               then set_item column_labels col_id (Columns.label_of col col_id)
               else column_labels
           | None => column_labels
           end) l acc in
    Forall (fun entry : string * string => snd entry <> "") labels
    /\ (forall k, In k (map fst acc) -> In k (map fst labels))
    /\ (forall col k,
          In col l -> Columns.col_id_of col = Some k ->
          Columns.empty_text (Some k) = false -> Columns.is_helper k = false ->
          In k (map fst labels)).
Proof.
  induction l as [|col l IH]; intros acc Hacc; cbn [fold_left].
  - split; [exact Hacc|]. split; [auto|]. intros col k [].
  - set (acc' := match Columns.col_id_or col with
                 | Some col_id =>
                     if negb (Columns.empty_text (Some col_id))
                        && negb (Columns.is_helper col_id)
                     then set_item acc col_id (Columns.label_of col col_id)
                     else acc
                 | None => acc
                 end).
    assert (Hacc' : Forall (fun entry : string * string => snd entry <> "") acc').
    { unfold acc'. destruct (Columns.col_id_or col) as [col_id|]; [|exact Hacc].
      destruct (negb (Columns.empty_text (Some col_id))) eqn:Hne; [|exact Hacc].
      destruct (negb (Columns.is_helper col_id)); [|exact Hacc]. cbn [andb].
      apply Forall_forall. intros [k label] Hin.
      apply in_set_item in Hin as [He|Hin];
        [|rewrite Forall_forall in Hacc; apply Hacc; exact Hin].
      injection He as -> ->. cbn [snd]. unfold Columns.label_of. cbv zeta.
      apply negb_true_iff in Hne.
      match goal with
      | |- (if Columns.empty_text (Some ?l) then _ else _) <> _ =>
          destruct l as [|c l'] eqn:Hl; cbn [Columns.empty_text]
      end.
      - intros ->. discriminate Hne.
      - discriminate. }
    assert (Hkeys : forall k, In k (map fst acc) -> In k (map fst acc')).
    { intros k Hk. unfold acc'. destruct (Columns.col_id_or col) as [col_id|]; [|exact Hk].
      destruct (negb (Columns.empty_text (Some col_id)) && negb (Columns.is_helper col_id));
        [|exact Hk].
      apply keys_set_item. right. exact Hk. }
    destruct (IH acc' Hacc') as (Hall & Hkept & Hnew). fold acc'.
    split; [exact Hall|]. split; [intros k Hk; apply Hkept, Hkeys; exact Hk|].
    intros c k [<-|Hin] Hid Hempty Hhelper; [|eapply Hnew; eassumption].
    apply Hkept. unfold acc'.
    assert (Hor : Columns.col_id_or col = Some k).
    { unfold Columns.col_id_of in Hid. unfold Columns.col_id_or.
      destruct (Columns.id col) as [i|]; [injection Hid as ->; rewrite Hempty|]; assumption
      || reflexivity. }
    rewrite Hor, Hempty, Hhelper. cbn [negb andb]. apply keys_set_item. left. reflexivity.
Qed.

(** X19.  Every column that has a type has a label, and no label is empty:
    the header of a document has a text for every column whose type the
    client knows. *)
Theorem every_typed_column_has_a_label :
  forall columns_data col_id,
    In col_id (map fst (Columns.column_types_of columns_data)) ->
    exists label,
      get (Columns.column_labels_of columns_data) col_id = Some label
      /\ label <> "".
Proof.
  intros columns_data col_id Hin.
  apply in_map_iff in Hin as [[k t] [Hk Hentry]]. cbn [fst] in Hk. subst k.
  destruct (typed_entries_of_the_answer columns_data) as [Htypes _].
  rewrite Forall_forall in Htypes.
  destruct (Htypes _ Hentry) as (Hne & Hhelper & col & Hcol & Hid & _). cbn [fst] in *.
  destruct (column_labels_loop columns_data [] (Forall_nil _)) as (Hall & _ & Hnew).
  assert (Hempty : Columns.empty_text (Some col_id) = false)
    by (destruct col_id; [contradiction|reflexivity]).
  pose proof (Hnew col col_id Hcol Hid Hempty Hhelper) as Hkey.
  destruct (in_keys_get _ _ _ Hkey) as [label Hlabel].
  exists label. split; [exact Hlabel|].
  rewrite Forall_forall in Hall. exact (Hall _ (get_in _ _ _ _ Hlabel)).
Qed.

(** The answer [visit_columns]: the column [Nom], whose label is empty,
    is labelled by its identifier. *)
Lemma every_typed_column_has_a_label_witness :
  (exists label,
      get (Columns.column_labels_of visit_columns) "Nom" = Some label /\ label <> "")
  /\ Columns.column_labels_of visit_columns
     = [("Jour", "Jour de visite"); ("Nom", "Nom"); ("Ville", "Ville")].
Proof.
  split; [|reflexivity].
  apply (every_typed_column_has_a_label visit_columns "Nom").
  cbn. right. left. reflexivity.
Defined.

(** A first call that answers [visit_columns], then the API in error. *)
Lemma column_types_are_fetched_once_witness :
  let first := Columns.get_table_columns_with_types (fun _ => Ok visit_columns)
                 new_client "Visites" in
  ((forall column_types request',
      fst first = Ok column_types ->
      Columns.get_table_columns_with_types request' (snd first) "Visites"
      = (Ok column_types, snd first))
   /\ (forall e, fst first = Raise e -> snd first = new_client)
   /\ (forall other,
         other <> "Visites" ->
         get (Columns._column_types_cache (snd first))
             (Columns.doc_id (snd first) ++ "_" ++ other)
         = get (Columns._column_types_cache new_client)
               (Columns.doc_id new_client ++ "_" ++ other)))
  /\ fst (Columns.get_table_columns_with_types (fun _ => Raise OtherError) (snd first)
            "Visites")
     = Ok [("Jour", "Date"); ("Nom", "Text"); ("Ville", "Text")].
Proof.
  intros first. split; [|reflexivity].
  apply (column_types_are_fetched_once (fun _ => Ok visit_columns) new_client "Visites"
           (fst first) (snd first)).
  reflexivity.
Defined.

(* ================================================================== *)
(** * Properties of the files a user may upload                        *)
(* ================================================================== *)

Lemma contains_char :
  forall c s, PyStr.contains s (String c "") = has_char c s.
Proof.
  intros c. induction s as [|x s IH]; [reflexivity|].
  cbn [PyStr.contains String.prefix]. rewrite has_char_cons, IH.
  destruct (Ascii.ascii_dec c x) as [->|Hne].
  - rewrite Ascii.eqb_refl. destruct s; reflexivity.
  - apply Ascii.eqb_neq in Hne. rewrite Hne. reflexivity.
Qed.

Lemma rsplit1_without :
  forall c s, has_char c s = false -> rsplit1 c s = [s].
Proof.
  intros c. induction s as [|x s IH]; intros H; [reflexivity|].
  rewrite has_char_cons in H. apply orb_false_iff in H as [Hx Hs].
  cbn [rsplit1]. rewrite (IH Hs). rewrite Ascii.eqb_sym in Hx. rewrite Hx. reflexivity.
Qed.

Lemma rsplit1_last :
  forall c stem extension,
    has_char c extension = false ->
    rsplit1 c (stem ++ String c extension) = [stem; extension].
Proof.
  intros c. induction stem as [|x stem IH]; intros extension H; cbn [append rsplit1].
  - rewrite (rsplit1_without c extension H), Ascii.eqb_refl. reflexivity.
  - rewrite (IH extension H). reflexivity.
Qed.

Lemma split_at_last :
  forall c s,
    has_char c s = true ->
    exists stem extension, s = stem ++ String c extension /\ has_char c extension = false.
Proof.
  intros c. induction s as [|x s IH]; intros H; [discriminate H|].
  rewrite has_char_cons in H.
  destruct (has_char c s) eqn:Hs.
  - destruct (IH eq_refl) as (stem & extension & -> & Hext).
    exists (String x stem), extension. split; [reflexivity|exact Hext].
  - rewrite orb_false_r in H. apply Ascii.eqb_eq in H. subst x.
    exists "", s. split; [reflexivity|exact Hs].
Qed.

Lemma allowed_extension :
  forall extensions stem extension,
    has_char "." extension = false ->
    allowed extensions (stem ++ "." ++ extension)
    = Ok (mem (PyStr.lower extension) extensions).
Proof.
  intros extensions stem extension H. unfold allowed.
  rewrite contains_char, has_char_append. cbn [append].
  rewrite has_char_cons, Ascii.eqb_refl, orb_true_r.
  rewrite (rsplit1_last "." stem extension H). reflexivity.
Qed.

(** X20.  Whether a file may be uploaded is read in what follows its last
    point, whatever the case of the letters: a name that ends with a point
    and an extension without a point is accepted as a signature when the
    extension in lower case is [png], [jpg] or [jpeg], and as a logo when
    it is one of these or [svg]; a name without a point is refused. *)
Theorem allowed_file_reads_the_last_extension :
  forall stem extension filename,
    has_char "." extension = false ->
    has_char "." filename = false ->
    allowed_file (stem ++ "." ++ extension)
    = Ok (mem (PyStr.lower extension) ["png"; "jpg"; "jpeg"])
    /\ allowed_logo_file (stem ++ "." ++ extension)
       = Ok (mem (PyStr.lower extension) ["png"; "jpg"; "jpeg"; "svg"])
    /\ allowed_file filename = Ok false
    /\ allowed_logo_file filename = Ok false.
Proof.
  intros stem extension filename Hext Hname.
  split; [apply allowed_extension; exact Hext|].
  split; [apply allowed_extension; exact Hext|].
  unfold allowed_file, allowed_logo_file, allowed.
  rewrite contains_char, Hname. split; reflexivity.
Qed.

Lemma allowed_file_reads_the_last_extension_witness :
  (allowed_file ("signature.old" ++ "." ++ "PNG") = Ok (mem (PyStr.lower "PNG") ["png"; "jpg"; "jpeg"])
   /\ allowed_logo_file ("signature.old" ++ "." ++ "PNG")
      = Ok (mem (PyStr.lower "PNG") ["png"; "jpg"; "jpeg"; "svg"])
   /\ allowed_file "png" = Ok false
   /\ allowed_logo_file "png" = Ok false)
  /\ allowed_file "signature.old.PNG" = Ok true
  /\ allowed_file "signature.png.exe" = Ok false
  /\ allowed_file "logo.svg" = Ok false
  /\ allowed_logo_file "logo.svg" = Ok true.
Proof.
  split; [|repeat split; reflexivity].
  apply (allowed_file_reads_the_last_extension "signature.old" "PNG" "png"); reflexivity.
Defined.

(** X21.  The test of a file name never raises: the index of the extension
    is read only in a name that has a point.  And a file that is accepted
    as a signature is accepted as a logo. *)
Theorem allowed_file_never_raises :
  forall filename,
    exists signature logo,
      allowed_file filename = Ok signature
      /\ allowed_logo_file filename = Ok logo
      /\ (signature = true -> logo = true).
Proof.
  intros filename. unfold allowed_file, allowed_logo_file.
  destruct (has_char "." filename) eqn:H.
  - destruct (split_at_last "." filename H) as (stem & extension & -> & Hext).
    change (stem ++ String "." extension) with (stem ++ "." ++ extension).
    rewrite !(allowed_extension _ stem extension Hext).
    eexists. eexists. split; [reflexivity|]. split; [reflexivity|].
    unfold ALLOWED_EXTENSIONS, ALLOWED_LOGO_EXTENSIONS, mem. cbn [existsb].
    intros Hs. rewrite !orb_false_r in *.
    repeat (apply orb_true_iff in Hs as [Hs|Hs]; [rewrite Hs, ?orb_true_r; reflexivity|]).
    rewrite Hs, ?orb_true_r. reflexivity.
  - unfold allowed. rewrite contains_char, H.
    exists false, false. split; [reflexivity|]. split; [reflexivity|]. intros Hs. exact Hs.
Qed.

(* ================================================================== *)
(** * Properties of the configuration of a document                    *)
(* ================================================================== *)

(** X22.  [from_dict] undoes [to_dict]: the configuration read in the
    dictionary of a configuration is that configuration, the three
    entries [has_...] being left aside; and the configuration read in the
    empty dictionary is that of the defaults of the class. *)
Theorem from_dict_undoes_to_dict :
  forall os self data,
    to_dict os self = Ok data ->
    from_dict data = self /\ from_dict [] = default_config.
Proof.
  intros os self data H. unfold to_dict in H.
  destruct (has_signature os self) as [signature|e]; [|discriminate H]. cbn [bind] in H.
  destruct (has_custom_logo os self) as [custom_logo|e]; [|discriminate H]. cbn [bind] in H.
  injection H as <-. destruct self. repeat split; reflexivity.
Qed.

Lemma from_dict_undoes_to_dict_witness :
  let os := {| path_exists := fun _ => false; fd_exists := fun _ => false |} in
  let self := mk_config (VStr "Service") (VStr "Jean") (VStr "Dupont") (VStr "")
                        (VStr "uploads/signatures/s.png") VNone in
  exists data,
    to_dict os self = Ok data
    /\ (from_dict data = self /\ from_dict [] = default_config).
Proof.
  intros os self. eexists. split; [reflexivity|].
  apply (from_dict_undoes_to_dict os self). reflexivity.
Defined.

(* ================================================================== *)
(** * Properties of the grouping on a date column                      *)
(* ================================================================== *)

(** ** The frame with its two added columns *)

Lemma set_key_set_item : forall d k v, set_key d k v = set_item d k v.
Proof.
  induction d as [|[k' v'] d IH]; intros k v; cbn [set_key set_item]; [reflexivity|].
  rewrite IH. reflexivity.
Qed.

Lemma cell_set_key :
  forall d k v k',
    cell (set_key d k v) k' = if String.eqb k' k then v else cell d k'.
Proof.
  intros d k v k'. unfold cell. rewrite set_key_set_item.
  destruct (String.eqb_spec k' k) as [->|Hne].
  - rewrite get_set_item. reflexivity.
  - rewrite get_set_item_other by exact Hne. reflexivity.
Qed.

Lemma set_cells_map :
  forall (A : Type) (h : A -> nat * dict value) (g : A -> value) (rs : list A) k,
    set_cells (map h rs) k (map g rs)
    = map (fun r => (fst (h r), set_key (snd (h r)) k (g r))) rs.
Proof.
  intros A h g. induction rs as [|r rs IH]; intros k; cbn [map set_cells]; [reflexivity|].
  destruct (h r) as [i d]. cbn [fst snd]. rewrite IH. reflexivity.
Qed.

Lemma mem_app :
  forall x l m, mem x (l ++ m)%list = mem x l || mem x m.
Proof. intros x l m. unfold mem. apply existsb_app. Qed.

Lemma mem_assign :
  forall df name cells c,
    mem c (columns (assign df name cells)) = mem c (columns df) || String.eqb c name.
Proof.
  intros df name cells c. unfold assign. cbn [columns].
  destruct (mem name (columns df)) eqn:Hn.
  - destruct (String.eqb_spec c name) as [->|]; [rewrite Hn|rewrite orb_false_r]; reflexivity.
  - rewrite mem_app. unfold mem at 2. cbn [existsb]. rewrite orb_false_r. reflexivity.
Qed.


Lemma filter_columns_assign :
  forall (P : string -> bool) df name cells,
    P name = false ->
    filter P (columns (assign df name cells)) = filter P (columns df).
Proof.
  intros P df name cells HP. unfold assign. cbn [columns].
  destruct (mem name (columns df)); [reflexivity|].
  rewrite filter_app. cbn [filter]. rewrite HP. apply app_nil_r.
Qed.

Lemma date_frame :
  forall df filter_column,
    let date_temp := map timestamp_cell (series df filter_column) in
    let df1 := assign df "_date_temp" (map (fun _ => VNaN) date_temp) in
    let df2 := assign df1 "_date_formatted" (map date_formatted date_temp) in
    rows df2 = map (dated filter_column) (rows df)
    /\ (forall c, mem c (columns df2) = mem c (columns df) || mem c temporary)
    /\ filter (fun c => negb (mem c temporary)) (columns df2)
       = filter (fun c => negb (mem c temporary)) (columns df).
Proof.
  intros df filter_column date_temp df1 df2. split; [|split].
  - unfold df2, df1, date_temp, assign, series. cbn [rows].
    rewrite !map_map.
    rewrite <- (map_id (rows df)) at 1.
    rewrite (set_cells_map _ (fun r => r) (fun _ => VNaN) (rows df) "_date_temp").
    rewrite (set_cells_map _ (fun r => (fst r, set_key (snd r) "_date_temp" VNaN))
               (fun r => date_formatted (timestamp_cell (cell (snd r) filter_column)))
               (rows df) "_date_formatted").
    reflexivity.
  - intros c. unfold df2, df1. rewrite !mem_assign. unfold temporary, mem at 3.
    cbn [existsb]. rewrite orb_false_r, orb_assoc. reflexivity.
  - unfold df2, df1. rewrite !filter_columns_assign by reflexivity. reflexivity.
Qed.

Lemma cell_dated_formatted :
  forall filter_column r,
    cell (snd (dated filter_column r)) "_date_formatted"
    = date_formatted (timestamp_cell (cell (snd r) filter_column)).
Proof.
  intros filter_column r. unfold dated. cbn [snd]. rewrite cell_set_key. reflexivity.
Qed.

Lemma cell_dated_other :
  forall filter_column r c,
    mem c temporary = false ->
    cell (snd (dated filter_column r)) c = cell (snd r) c.
Proof.
  intros filter_column r c Hc. unfold dated. cbn [snd].
  unfold temporary, mem in Hc. cbn [existsb] in Hc.
  apply orb_false_iff in Hc as [H1 Hc]. apply orb_false_iff in Hc as [H2 _].
  rewrite !cell_set_key, H1, H2. reflexivity.
Qed.

Lemma cell_eq_date_formatted :
  forall filter_column key r,
    cell_eq (VStr key) (cell (snd (dated filter_column r)) "_date_formatted")
    = of_day filter_column key r.
Proof.
  intros filter_column key r. rewrite cell_dated_formatted.
  unfold of_day, key_of_timestamp.
  destruct (timestamp_cell (cell (snd r) filter_column)); reflexivity.
Qed.

Lemma mem_filter_false :
  forall (P : string -> bool) x l, mem x l = false -> mem x (filter P l) = false.
Proof.
  intros P x. induction l as [|y l IH]; intros H; [reflexivity|].
  unfold mem in *. cbn [existsb] in H. apply orb_false_iff in H as [Hy Hl].
  cbn [filter]. destruct (P y); [cbn [existsb]; rewrite Hy|]; apply IH; exact Hl.
Qed.

Lemma mem_In : forall x l, mem x l = true <-> In x l.
Proof.
  intros x l. unfold mem. rewrite existsb_exists. split.
  - intros [y [Hy He]]. apply String.eqb_eq in He. subst. exact Hy.
  - intros H. exists x. split; [exact H|apply String.eqb_refl].
Qed.

Lemma mem_false_of_In :
  forall x y l, mem y l = false -> In x l -> String.eqb x y = false.
Proof.
  intros x y l Hy Hx. destruct (String.eqb_spec x y) as [->|]; [|reflexivity].
  apply mem_In in Hx. congruence.
Qed.

(** One group of the date branch, once its added columns are dropped. *)
Lemma date_group :
  forall df filter_column selected_columns key,
    mem "_date_temp" selected_columns = false ->
    mem "_date_formatted" selected_columns = false ->
    let date_temp := map timestamp_cell (series df filter_column) in
    let df1 := assign df "_date_temp" (map (fun _ => VNaN) date_temp) in
    let df2 := assign df1 "_date_formatted" (map date_formatted date_temp) in
    let group_df := group_of df2 "_date_formatted" selected_columns (VStr key) in
    (if mem "_date_temp" (columns group_df)
     then drop_columns group_df ["_date_temp"; "_date_formatted"]
     else Ok group_df)
    = Ok (mk_frame (date_kept_columns df selected_columns)
            (map (restricted (date_kept_columns df selected_columns))
                 (filter (of_day filter_column key) (rows df)))).
Proof.
  intros df filter_column selected_columns key Htemp Hformatted date_temp df1 df2 group_df.
  destruct (date_frame df filter_column) as (Hrows & Hcols & Hfilter).
  fold date_temp df1 df2 in Hrows, Hcols, Hfilter.
  destruct (group_of_frame df2 "_date_formatted" selected_columns (VStr key)) as [Hgc Hgr].
  fold group_df in Hgc, Hgr.
  assert (Hmembers : members "_date_formatted" (rows df2) (VStr key)
                     = map (dated filter_column) (filter (of_day filter_column key) (rows df))).
  { unfold members. rewrite Hrows, filter_map_commute. f_equal.
    apply filter_ext. intros r. apply cell_eq_date_formatted. }
  rewrite Hmembers, map_map in Hgr.
  destruct selected_columns as [|s ss].
  - cbn [kept_columns kept_row] in Hgc, Hgr.
    assert (Hin : mem "_date_temp" (columns group_df) = true)
      by (rewrite Hgc, Hcols; apply orb_true_r).
    rewrite Hin. unfold drop_columns. cbn [forallb]. rewrite Hin.
    assert (Hin2 : mem "_date_formatted" (columns group_df) = true)
      by (rewrite Hgc, Hcols; apply orb_true_r).
    rewrite Hin2. cbn [andb]. f_equal. unfold loc_columns. rewrite Hgc, Hgr.
    fold temporary. rewrite Hfilter. cbn [date_kept_columns]. f_equal.
    rewrite map_map. apply map_ext. intros r. unfold restricted. cbn [fst].
    f_equal. apply map_ext_in. intros c Hc. f_equal.
    apply cell_dated_other. apply filter_In in Hc as [_ Hc].
    apply negb_true_iff in Hc. exact Hc.
  - assert (Hkept : kept_columns df2 (s :: ss) = date_kept_columns df (s :: ss)).
    { cbn [kept_columns date_kept_columns]. apply filter_ext_in. intros c Hc.
      rewrite Hcols. unfold temporary, mem at 2. cbn [existsb].
      rewrite (mem_false_of_In c _ _ Htemp Hc), (mem_false_of_In c _ _ Hformatted Hc).
      rewrite !orb_false_r. reflexivity. }
    assert (Hout : mem "_date_temp" (columns group_df) = false).
    { rewrite Hgc. cbn [kept_columns]. apply mem_filter_false. exact Htemp. }
    rewrite Hout. f_equal.
    destruct group_df as [gc gr]. cbn [columns rows] in Hgc, Hgr. subst gc gr.
    rewrite Hkept. f_equal. apply map_ext. intros r.
    cbn [kept_row]. rewrite Hkept. unfold restricted, dated at 1. cbn [fst]. f_equal.
    apply map_ext_in. intros c Hc. f_equal. apply cell_dated_other.
    cbn [date_kept_columns] in Hc. apply filter_In in Hc as [Hc _].
    unfold temporary, mem. cbn [existsb].
    rewrite (mem_false_of_In c _ _ Htemp Hc), (mem_false_of_In c _ _ Hformatted Hc).
    reflexivity.
Qed.

(** ** The keys of the groups *)

Lemma is_text_present :
  forall v, (exists s, v = VStr s) -> present v = true.
Proof. intros v [s ->]. reflexivity. Qed.

Lemma unique_from_texts :
  forall xs seen,
    Forall (fun x => PyVal.isna x = true \/ exists s, x = VStr s) xs ->
    NoDup (map PyVal.str (unique_from seen xs))
    /\ Forall (fun v => exists s, v = VStr s) (unique_from seen xs).
Proof.
  induction xs as [|x xs IH]; intros seen Hxs; cbn [unique_from].
  - split; constructor.
  - inversion Hxs as [|x' xs' Hx Hxs']; subst.
    destruct (PyVal.isna x) eqn:Hna; [apply IH; exact Hxs'|].
    destruct (existsb (PyVal.eq x) seen); [apply IH; exact Hxs'|].
    destruct Hx as [Hx|[s ->]]; [congruence|].
    destruct (IH (VStr s :: seen) Hxs') as [Hnd Htexts].
    split; [|constructor; [exists s; reflexivity|exact Htexts]].
    cbn [map PyVal.str]. constructor; [|exact Hnd].
    intros Hin. apply in_map_iff in Hin as [v [Hv Hin]].
    destruct (unique_from_in _ _ _ Hin) as (_ & _ & Hseen).
    cbn [existsb] in Hseen. apply orb_false_iff in Hseen as [Hne _].
    rewrite Forall_forall in Htexts. destruct (Htexts v Hin) as [t ->].
    cbn [PyVal.str] in Hv. subst t. cbn [PyVal.eq] in Hne.
    rewrite String.eqb_refl in Hne. discriminate Hne.
Qed.

Lemma date_formatted_cases :
  forall c, PyVal.isna (date_formatted c) = true \/ exists s, date_formatted c = VStr s.
Proof. intros [d|]; [right; eexists; reflexivity|left; reflexivity]. Qed.

Lemma label_in_map_restricted :
  forall cols i l, label_in i (map (restricted cols) l) = label_in i l.
Proof.
  intros cols i l. unfold label_in. rewrite map_map. reflexivity.
Qed.

(** X23.  Grouping on a date column that holds Unix timestamps (or
    nothing) puts the rows in groups by the date of their timestamp: each
    group has for key a date written DD/MM/YYYY and for rows the rows of
    the table, in their order, whose timestamp is of that date, with the
    selected columns that the table has, in the order of the selection
    (every column of the table when the selection is empty), and without
    the two columns the grouping adds to the table; a row that has no
    date is in no group and every other row is in exactly one; no two
    groups have the same key; no group is empty, and the groups come in
    the order in which their first rows come in the table. *)
Theorem date_groups_partition_rows_by_day :
  forall lib client data filter_column selected_columns table_id,
    let df := frame_of_dicts (map fields_of data) in
    date_column_test client table_id filter_column = Ok true ->
    mem filter_column (columns df) = true ->
    forallb numeric_or_missing (series df filter_column) = true ->
    mem "_date_temp" selected_columns = false ->
    mem "_date_formatted" selected_columns = false ->
    exists groups,
      filter_data_by_column lib client data filter_column selected_columns table_id
      = Ok groups
      /\ Forall (fun g =>
                   exists d,
                     fst g = strftime_dmY d
                     /\ columns (snd g) = date_kept_columns df selected_columns
                     /\ rows (snd g)
                        = map (restricted (date_kept_columns df selected_columns))
                              (filter (on_date filter_column (Instant.date d)) (rows df)))
                groups
      /\ (forall r,
            In r (rows df) ->
            List.length (filter (fun g => in_index (fst r) (snd g)) groups)
            = match timestamp_cell (cell (snd r) filter_column) with
              | Some _ => 1%nat
              | None => 0%nat
              end)
      /\ NoDup (map fst groups)
      /\ Forall (fun g => index (snd g) <> []) groups
      /\ StronglySorted lt (map (fun g => hd 0%nat (index (snd g))) groups).
Proof.
  intros lib client data filter_column selected_columns table_id df
    Hdate Hcolumn Hcells Htemp Hformatted.
  assert (Hindex : map fst (rows df) = seq 0 (List.length (map fields_of data)))
    by (apply frame_of_dicts_index).
  set (kept := date_kept_columns df selected_columns).
  set (group := fun key : string =>
                  mk_frame kept (map (restricted kept)
                                     (filter (of_day filter_column key) (rows df)))).
  set (c2 := fun r : nat * dict value =>
               date_formatted (timestamp_cell (cell (snd r) filter_column))).
  set (values := unique_from [] (map c2 (rows df))).
  assert (Hxs : Forall (fun x => PyVal.isna x = true \/ exists s, x = VStr s)
                       (map c2 (rows df))).
  { apply Forall_map. apply Forall_forall. intros r _. apply date_formatted_cases. }
  destruct (unique_from_texts _ [] Hxs) as [Hkeys Htexts]. fold values in Hkeys, Htexts.
  assert (Hlists : Forall (fun x => PyVal.is_list x = false) (map c2 (rows df))).
  { apply Forall_map. apply Forall_forall. intros r _. unfold c2.
    destruct (timestamp_cell (cell (snd r) filter_column)); reflexivity. }
  assert (Hflow : filter_data_by_column lib client data filter_column selected_columns
                    table_id
                  = Ok (map (fun v => (PyVal.str v, group (PyVal.str v))) values)).
  { unfold filter_data_by_column. fold df. rewrite Hcolumn, Hdate. cbn [negb bind].
    unfold _convert_timestamp_to_datetime, to_datetime_unit_s. rewrite Hcells. cbn [bind].
    fold date_formatted.
    destruct (date_frame df filter_column) as (Hrows & _ & _). cbv zeta in Hrows.
    assert (Hseries : series
                        (assign
                           (assign df "_date_temp"
                              (map (fun _ => VNaN) (map timestamp_cell (series df filter_column))))
                           "_date_formatted"
                           (map date_formatted (map timestamp_cell (series df filter_column))))
                        "_date_formatted"
                      = map c2 (rows df)).
    { unfold series at 1. rewrite Hrows, map_map. apply map_ext. intros r.
      apply cell_dated_formatted. }
    rewrite Hseries. unfold dropna_unique.
    assert (Hno : existsb PyVal.is_list (map c2 (rows df)) = false).
    { destruct (existsb PyVal.is_list (map c2 (rows df))) eqn:He; [|reflexivity].
      apply existsb_exists in He as [x [Hx Hl]]. rewrite Forall_forall in Hlists.
      rewrite (Hlists x Hx) in Hl. discriminate Hl. }
    rewrite Hno. cbn [bind]. fold values.
    apply mapM_total. intros v Hv. rewrite Forall_forall in Htexts.
    destruct (Htexts v Hv) as [key ->]. cbn [PyVal.str].
    rewrite (date_group df filter_column selected_columns key Htemp Hformatted).
    reflexivity. }
  exists (map (fun v => (PyVal.str v, group (PyVal.str v))) values).
  split; [exact Hflow|]. clear Hflow.
  assert (Hnd : NoDup (map fst (rows df))) by (rewrite Hindex; apply seq_NoDup).
  assert (Hsorted : StronglySorted lt (map fst (rows df)))
    by (rewrite Hindex; apply StronglySorted_seq).
  clearbody df. clear Hindex.
  assert (Hgroup_index : forall key,
             index (group key) = map fst (filter (of_day filter_column key) (rows df))).
  { intros key. unfold index, group. cbn [rows]. rewrite map_map. reflexivity. }
  assert (Hof_day : forall v r, In v values -> of_day filter_column (PyVal.str v) r
                                               = cell_eq v (c2 r)).
  { intros v r Hv. rewrite Forall_forall in Htexts. destruct (Htexts v Hv) as [key ->].
    cbn [PyVal.str]. unfold c2. rewrite <- cell_dated_formatted.
    symmetry. apply cell_eq_date_formatted. }
  split; [|split; [|split; [|split]]].
  - apply Forall_map. apply Forall_forall. intros v Hv. cbn [fst snd].
    destruct (unique_from_in _ _ _ Hv) as (Hin & Hna & _).
    apply in_map_iff in Hin as [r [Hr _]]. unfold c2 in Hr.
    destruct (timestamp_cell (cell (snd r) filter_column)) as [d|];
      cbn [date_formatted] in Hr; subst v; [|discriminate Hna].
    exists d. cbn [PyVal.str]. split; [reflexivity|]. split; [reflexivity|].
    unfold group. cbn [rows]. f_equal. apply filter_ext. intros r'.
    unfold of_day, on_date, key_of_timestamp.
    destruct (timestamp_cell (cell (snd r') filter_column)); cbn [option_map];
      [apply strftime_dmY_date|reflexivity].
  - intros r Hr. rewrite filter_map_commute, length_map. cbn [snd].
    assert (Hmember : forall v,
               In v values ->
               in_index (fst r) (group (PyVal.str v)) = cell_eq v (c2 r)).
    { intros v Hv. unfold in_index. rewrite Hgroup_index.
      change (existsb (Nat.eqb (fst r))
                (map fst (filter (of_day filter_column (PyVal.str v)) (rows df))))
        with (label_in (fst r) (filter (of_day filter_column (PyVal.str v)) (rows df))).
      rewrite (label_in_filter _ (rows df) r Hnd Hr). apply Hof_day. exact Hv. }
    rewrite (filter_ext_in _ _ _ Hmember).
    destruct (timestamp_cell (cell (snd r) filter_column)) as [d|] eqn:Hd.
    + assert (Hc2 : c2 r = VStr (strftime_dmY d)) by (unfold c2; rewrite Hd; reflexivity).
      unfold values.
      rewrite (unique_from_count _ [] (c2 r)); [| rewrite Hc2; reflexivity | exact Hlists
                                                | constructor].
      cbn [existsb].
      assert (Hex : existsb (PyVal.eq (c2 r)) (map c2 (rows df)) = true).
      { apply existsb_exists. exists (c2 r). split; [apply in_map; exact Hr|].
        rewrite Hc2. cbn [PyVal.eq]. apply String.eqb_refl. }
      rewrite Hex. reflexivity.
    + assert (Hc2 : c2 r = VNaN) by (unfold c2; rewrite Hd; reflexivity).
      rewrite (filter_ext _ (fun _ => false)).
      * generalize values. intros vs. induction vs as [|v vs IHv]; [reflexivity|exact IHv].
      * intros v. rewrite Hc2. reflexivity.
  - rewrite map_map. cbn [fst]. exact Hkeys.
  - apply Forall_map. apply Forall_forall. intros v Hv. cbn [snd].
    rewrite Hgroup_index.
    destruct (unique_from_in _ _ _ Hv) as (Hin & Hna & _).
    apply in_map_iff in Hin as [r [Hr Hrl]].
    assert (Hm : In r (filter (of_day filter_column (PyVal.str v)) (rows df))).
    { apply filter_In. split; [exact Hrl|]. rewrite (Hof_day v r Hv), Hr.
      unfold cell_eq. rewrite Hna. rewrite Forall_forall in Htexts.
      destruct (Htexts v Hv) as [key ->]. cbn [PyVal.eq]. apply String.eqb_refl. }
    intros Hnil. apply map_eq_nil in Hnil. rewrite Hnil in Hm. exact Hm.
  - rewrite map_map. cbn [snd].
    pose proof (first_labels_sorted "_date_formatted" (map (dated filter_column) (rows df)) [])
      as Hfirst.
    rewrite !map_map in Hfirst.
    rewrite (map_ext (fun r => cell (snd (dated filter_column r)) "_date_formatted") c2)
      in Hfirst by (intros r; apply cell_dated_formatted).
    fold values in Hfirst.
    rewrite (map_ext_in _ (first_label "_date_formatted"
                             (map (dated filter_column) (rows df)))).
    + apply Hfirst; [|constructor|exact Hsorted].
      apply Forall_map. apply Forall_forall. intros r _. rewrite cell_dated_formatted.
      destruct (timestamp_cell (cell (snd r) filter_column)); reflexivity.
    + intros v Hv. rewrite Hgroup_index. unfold first_label, members.
      rewrite filter_map_commute, map_map. cbn [dated fst].
      do 2 f_equal. apply filter_ext. intros r.
      rewrite (Hof_day v r Hv). unfold c2. rewrite cell_dated_formatted. reflexivity.
Qed.

(** Three records of two days, the second without a date: two groups. *)
Lemma date_groups_partition_rows_by_day_witness :
  let data := [ Wrapped 11 [("Nom", VStr "Alice"); ("Jour", VInt 1705276800)];
                Wrapped 12 [("Nom", VStr "Bob"); ("Jour", VNone)];
                Wrapped 13 [("Nom", VStr "Chloe"); ("Jour", VInt 1700000000)];
                Wrapped 14 [("Nom", VStr "David"); ("Jour", VInt 1705280400)] ] in
  let df := frame_of_dicts (map fields_of data) in
  (exists groups,
      filter_data_by_column plain visits_client data "Jour" ["Nom"] (Some "Visites")
      = Ok groups
      /\ Forall (fun g =>
                   exists d,
                     fst g = strftime_dmY d
                     /\ columns (snd g) = date_kept_columns df ["Nom"]
                     /\ rows (snd g)
                        = map (restricted (date_kept_columns df ["Nom"]))
                              (filter (on_date "Jour" (Instant.date d)) (rows df)))
                groups
      /\ (forall r,
            In r (rows df) ->
            List.length (filter (fun g => in_index (fst r) (snd g)) groups)
            = match timestamp_cell (cell (snd r) "Jour") with
              | Some _ => 1%nat
              | None => 0%nat
              end)
      /\ NoDup (map fst groups)
      /\ Forall (fun g => index (snd g) <> []) groups
      /\ StronglySorted lt (map (fun g => hd 0%nat (index (snd g))) groups))
  /\ filter_data_by_column plain visits_client data "Jour" ["Nom"] (Some "Visites")
     = Ok [ ("15/01/2024", mk_frame ["Nom"] [ (0%nat, [("Nom", VStr "Alice")]);
                                              (3%nat, [("Nom", VStr "David")]) ]);
            ("14/11/2023", mk_frame ["Nom"] [ (2%nat, [("Nom", VStr "Chloe")]) ]) ].
Proof.
  intros data df. split; [|reflexivity].
  apply (date_groups_partition_rows_by_day plain visits_client data "Jour" ["Nom"]
           (Some "Visites")); reflexivity.
Defined.

(* ================================================================== *)
(** * The column of a grouping                                         *)
(* ================================================================== *)

Lemma mem_cons : forall k x l, mem k (x :: l) = String.eqb k x || mem k l.
Proof. reflexivity. Qed.

Lemma mem_keys_from :
  forall k ks seen, mem k (keys_from seen ks) = mem k ks && negb (mem k seen).
Proof.
  intros k. induction ks as [|x ks IH]; intros seen; [reflexivity|].
  cbn [keys_from]. rewrite mem_cons. destruct (mem x seen) eqn:Hx.
  - rewrite IH. destruct (String.eqb_spec k x) as [->|]; [|reflexivity].
    rewrite Hx, !andb_false_r. reflexivity.
  - rewrite mem_cons, IH, mem_cons.
    destruct (String.eqb_spec k x) as [->|]; [rewrite Hx; reflexivity|reflexivity].
Qed.

Lemma mem_columns_frame_of_dicts :
  forall k dicts,
    mem k (columns (frame_of_dicts dicts)) = existsb (fun d => mem k (map fst d)) dicts.
Proof.
  intros k dicts. unfold frame_of_dicts. cbn [columns].
  rewrite mem_keys_from. cbn [mem existsb negb]. rewrite andb_true_r.
  induction dicts as [|d dicts IH]; [reflexivity|].
  cbn [flat_map existsb]. rewrite mem_app, IH. reflexivity.
Qed.

(** X24.  The grouping raises [ValueError] when no record has the column
    among its fields, whatever the table and its types; so it does on a
    table without records, for every column. *)
Theorem grouping_needs_a_record_with_the_column :
  forall lib client data filter_column selected_columns table_id,
    existsb (fun r => mem filter_column (map fst (fields_of r))) data = false ->
    filter_data_by_column lib client data filter_column selected_columns table_id
    = Raise ValueError
    /\ filter_data_by_column lib client [] filter_column selected_columns table_id
       = Raise ValueError.
Proof.
  intros lib client data filter_column selected_columns table_id Hnone.
  split; [|reflexivity].
  unfold filter_data_by_column.
  rewrite mem_columns_frame_of_dicts, existsb_map_compose, Hnone. reflexivity.
Qed.

Lemma grouping_needs_a_record_with_the_column_witness :
  filter_data_by_column plain no_client villes "Pays" ["Nom"] None = Raise ValueError
  /\ filter_data_by_column plain no_client [] "Pays" ["Nom"] None = Raise ValueError.
Proof.
  apply (grouping_needs_a_record_with_the_column plain no_client villes "Pays" ["Nom"] None).
  reflexivity.
Defined.

(* ================================================================== *)
(** * Properties of the count of the documents                         *)
(* ================================================================== *)

Lemma unique_dates_length :
  forall date_series seen_dates seen,
    Forall2 (fun t v => exists d, t = Instant.date d /\ v = VStr (strftime_dmY d))
            seen_dates seen ->
    List.length (unique_dates seen_dates date_series)
    = List.length (unique_from seen (map date_formatted date_series)).
Proof.
  induction date_series as [|[d|] r IH]; intros seen_dates seen Hseen;
    cbn [map date_formatted unique_dates unique_from PyVal.isna]; [reflexivity| |apply IH; exact Hseen].
  assert (Hex : existsb (Instant.date_eqb (Instant.date d)) seen_dates
                = existsb (PyVal.eq (VStr (strftime_dmY d))) seen).
  { clear IH. induction Hseen as [|t v ts vs [d' [-> ->]] _ IHs]; [reflexivity|].
    cbn [existsb PyVal.eq]. rewrite IHs, strftime_dmY_date. reflexivity. }
  rewrite Hex. destruct (existsb (PyVal.eq (VStr (strftime_dmY d))) seen);
    [apply IH; exact Hseen|].
  cbn [List.length]. f_equal. apply IH. constructor; [|exact Hseen].
  exists d. split; reflexivity.
Qed.

(** ** The frame with its added columns, whatever the instants *)

Lemma set_cells_length :
  forall rs k cells, List.length (set_cells rs k cells) = List.length rs.
Proof.
  induction rs as [|[i d] rs IH]; intros k cells; [reflexivity|].
  destruct cells as [|c cells]; [reflexivity|]. cbn [set_cells List.length]. rewrite IH.
  reflexivity.
Qed.

Lemma series_set_cells :
  forall rs k cells,
    List.length cells = List.length rs ->
    map (fun r : nat * dict value => cell (snd r) k) (set_cells rs k cells) = cells.
Proof.
  induction rs as [|[i d] rs IH]; intros k cells Hlen; destruct cells as [|c cells];
    try discriminate Hlen; [reflexivity|].
  cbn [set_cells map snd]. rewrite cell_set_key, String.eqb_refl. f_equal.
  apply IH. injection Hlen as Hlen. exact Hlen.
Qed.

Lemma mapM_ok_length :
  forall (A B : Type) (f : A -> result B) (l : list A),
    (forall x, In x l -> exists y, f x = Ok y) ->
    exists ys, mapM f l = Ok ys /\ List.length ys = List.length l.
Proof.
  intros A B f. induction l as [|x l IH]; intros H; [exists []; split; reflexivity|].
  destruct (H x (or_introl eq_refl)) as [y Hy].
  destruct (IH (fun z Hz => H z (or_intror Hz))) as [ys [Hys Hlen]].
  exists (y :: ys). cbn [mapM]. rewrite Hy. cbn [bind]. rewrite Hys. cbn [bind].
  split; [reflexivity|]. cbn [List.length]. rewrite Hlen. reflexivity.
Qed.

Lemma frame_of_dicts_length :
  forall dicts, List.length (rows (frame_of_dicts dicts)) = List.length dicts.
Proof.
  intros dicts. unfold frame_of_dicts. cbn [rows]. rewrite length_map. apply length_seq.
Qed.

(** The groups of a date column are as many as the dates of its
    instants. *)
Lemma date_groups_length :
  forall df selected_columns date_temp,
    List.length date_temp = List.length (rows df) ->
    mem "_date_temp" selected_columns = false ->
    let df1 := assign df "_date_temp" (map (fun _ => VNaN) date_temp) in
    let df2 := assign df1 "_date_formatted" (map date_formatted date_temp) in
    exists groups,
      (values <- dropna_unique (series df2 "_date_formatted") ;;
       mapM (fun date_value =>
               let group_df := group_of df2 "_date_formatted" selected_columns date_value in
               group_df <-
                 (if mem "_date_temp" (columns group_df)
                  then drop_columns group_df ["_date_temp"; "_date_formatted"]
                  else Ok group_df) ;;
               Ok (PyVal.str date_value, group_df))
            values)
      = Ok groups
      /\ List.length groups = List.length (unique_dates [] date_temp).
Proof.
  intros df selected_columns date_temp Hlen Htemp df1 df2.
  assert (Hseries : series df2 "_date_formatted" = map date_formatted date_temp).
  { unfold series, df2, df1, assign. cbn [rows]. apply series_set_cells.
    rewrite set_cells_length, length_map. exact Hlen. }
  rewrite Hseries. unfold dropna_unique.
  assert (Hno : existsb PyVal.is_list (map date_formatted date_temp) = false).
  { clear. induction date_temp as [|[d|] r IH]; [reflexivity|exact IH|exact IH]. }
  rewrite Hno. cbn [bind].
  rewrite (unique_dates_length date_temp [] []) by constructor.
  apply mapM_ok_length. intros v _. cbv zeta.
  destruct (group_of_frame df2 "_date_formatted" selected_columns v) as [Hgc _].
  assert (Hcols : forall c, mem c (columns df2) = mem c (columns df) || mem c temporary).
  { intros c. unfold df2, df1. rewrite !mem_assign. unfold temporary, mem at 3.
    cbn [existsb]. rewrite orb_false_r, orb_assoc. reflexivity. }
  destruct selected_columns as [|s ss].
  - cbn [kept_columns] in Hgc.
    assert (H1 : mem "_date_temp" (columns (group_of df2 "_date_formatted" [] v)) = true)
      by (rewrite Hgc, Hcols; apply orb_true_r).
    assert (H2 : mem "_date_formatted" (columns (group_of df2 "_date_formatted" [] v)) = true)
      by (rewrite Hgc, Hcols; apply orb_true_r).
    rewrite H1. unfold drop_columns. cbn [forallb]. rewrite H1, H2. cbn [andb bind].
    eexists. reflexivity.
  - assert (H1 : mem "_date_temp" (columns (group_of df2 "_date_formatted" (s :: ss) v))
                 = false)
      by (rewrite Hgc; cbn [kept_columns]; apply mem_filter_false; exact Htemp).
    rewrite H1. cbn [bind]. eexists. reflexivity.
Qed.

(** X25.  Without filters, the count the route announces is the number of
    groups the export makes documents of, on a date column as on another,
    though the route makes no group and counts the values of the column
    itself.  The route answers 404 when no record has the column, where
    the grouping raises [ValueError], and 500 when the grouping raises. *)
Theorem count_pdfs_counts_the_groups :
  forall lib client tables table_id filter_column selected_columns mode records,
    falsy (Some table_id) = false ->
    falsy (Some filter_column) = false ->
    get_table_data tables table_id = Ok records ->
    mem "_date_temp" selected_columns = false ->
    let df := frame_of_dicts (map fields_of records) in
    let groups := filter_data_by_column lib client records filter_column selected_columns
                    (Some table_id) in
    count_pdfs lib (Some (client, tables)) (Some table_id) (Some filter_column)
               (Payload mode None)
    = (if mem filter_column (columns df) then
         match groups with
         | Ok groups =>
             Counted (List.length groups) filter_column (List.length records)
                     (match mode with Some m => m | None => "and" end)
         | Raise _ => Refused 500
         end
       else Refused 404)
    /\ (mem filter_column (columns df) = false -> groups = Raise ValueError).
Proof.
  intros lib client tables table_id filter_column selected_columns mode records
    Htable Hfilter Hdata Htemp df groups.
  assert (Htest : date_column_test client (Some table_id) filter_column
                  = is_date_column client table_id filter_column)
    by (destruct table_id; [discriminate Htable|reflexivity]).
  unfold groups, filter_data_by_column. fold df. rewrite Htest.
  unfold count_pdfs. rewrite Htable, Hfilter. cbn [orb text].
  unfold count_pdfs_try, get_table_records. rewrite Hdata. cbn [bind]. fold df.
  destruct (mem filter_column (columns df)) eqn:Hcolumn; cbn [negb];
    [|split; reflexivity].
  split; [|discriminate].
  destruct (is_date_column client table_id filter_column) as [[|]|e]; cbn [bind];
    [| |reflexivity].
  - destruct (_convert_timestamp_to_datetime lib (series df filter_column))
      as [date_temp|e] eqn:Hconv; cbn [bind]; [|reflexivity].
    assert (Hlen : List.length date_temp = List.length (rows df)).
    { rewrite (convert_timestamp_length lib _ _ Hconv). apply series_length. }
    destruct (date_groups_length df selected_columns date_temp Hlen Htemp)
      as [gs [Hgs Hcount]].
    cbv zeta in Hgs. fold date_formatted. rewrite Hgs, Hcount.
    unfold df at 1. rewrite frame_of_dicts_length, length_map. reflexivity.
  - destruct (dropna_unique (series df filter_column)) as [values|e]; cbn [bind];
      [|reflexivity].
    rewrite length_map. unfold df at 1. rewrite frame_of_dicts_length, length_map.
    reflexivity.
Qed.

(** The three records of [dated_records] are of two days. *)
Lemma count_pdfs_counts_the_groups_witness :
  let df := frame_of_dicts (map fields_of dated_records) in
  let groups := filter_data_by_column plain visits_client dated_records "Jour" ["Nom"]
                  (Some "Visites") in
  (count_pdfs plain (Some (visits_client, dated_tables)) (Some "Visites") (Some "Jour")
              (Payload None None)
   = (if mem "Jour" (columns df) then
        match groups with
        | Ok groups => Counted (List.length groups) "Jour" (List.length dated_records) "and"
        | Raise _ => Refused 500
        end
      else Refused 404)
   /\ (mem "Jour" (columns df) = false -> groups = Raise ValueError))
  /\ count_pdfs plain (Some (visits_client, dated_tables)) (Some "Visites") (Some "Jour")
                (Payload None None)
     = Counted 2 "Jour" 3 "and"
  /\ count_pdfs plain (Some (visits_client, dated_tables)) (Some "Visites") (Some "Ville")
                (Payload None None)
     = Refused 404.
Proof.
  intros df groups. split; [|split; reflexivity].
  apply (count_pdfs_counts_the_groups plain visits_client dated_tables "Visites" "Jour"
           ["Nom"] None dated_records); reflexivity.
Defined.

(** X26.  The route never answers a count for the payload in its former
    shape, the bare list of filters, which [apply_advanced_filters] still
    accepts: the list has no mode to be read. *)
Theorem count_pdfs_refuses_the_bare_list :
  forall lib grist_client table_id filter_column filters,
    exists status,
      count_pdfs lib grist_client table_id filter_column (Legacy filters) = Refused status.
Proof.
  intros lib grist_client table_id filter_column filters. unfold count_pdfs.
  destruct grist_client as [[client tables]|]; [|eexists; reflexivity].
  destruct (falsy table_id || falsy filter_column); [eexists; reflexivity|].
  unfold count_pdfs_try.
  destruct (get_table_records tables (text table_id)) as [records|e]; cbn [bind];
    [|eexists; reflexivity].
  destruct filters as [|f filters]; cbn [bind]; [|eexists; reflexivity].
  destruct (mem (text filter_column) (columns (frame_of_dicts records)));
    [|eexists; reflexivity].
  destruct (is_date_column client (text table_id) (text filter_column)) as [[|]|e];
    cbn [bind]; [| |eexists; reflexivity].
  - destruct (_convert_timestamp_to_datetime lib _); cbn [bind]; eexists; reflexivity.
  - destruct (dropna_unique _); cbn [bind]; eexists; reflexivity.
Qed.

(* ================================================================== *)
(** * Properties of the upload of the documents                        *)
(* ================================================================== *)

Lemma attach_key :
  forall (World : Type) lib (server : Upload.Server World) is_date table_id
         filter_column attachment_column all_records w info,
    Upload.key (fst (Upload.attach lib server is_date table_id filter_column
                       attachment_column all_records w info))
    = Upload.filter_value info.
Proof.
  intros. unfold Upload.attach.
  destruct (negb (Upload.exists_ server w (Upload.filepath info))); [reflexivity|].
  destruct (Upload.upload_attachment server w (Upload.filepath info)) as [[a|e] w'];
    [|reflexivity].
  destruct (target_record lib is_date filter_column (Upload.filter_value info)
              all_records) as [[id fields|[|x fields]]|]; try reflexivity;
    (destruct (Upload.getitem_id _); [|reflexivity]);
    (destruct (Upload.patch server w' _ _ _ _) as [[u|e] w'']; reflexivity).
Qed.

Lemma loop_accounts :
  forall (World : Type) lib (server : Upload.Server World) is_date table_id
         filter_column attachment_column all_records pdf_files w results
         success_count error_count,
    success_count = List.length (filter Upload.is_success results) ->
    (success_count + error_count = List.length results)%nat ->
    let '(results', success_count', error_count', _) :=
      Upload.loop lib server is_date table_id filter_column attachment_column
                  all_records pdf_files w results success_count error_count in
    map Upload.key results'
    = (map Upload.key results ++ map Upload.filter_value pdf_files)%list
    /\ success_count' = List.length (filter Upload.is_success results')
    /\ (success_count' + error_count' = List.length results')%nat.
Proof.
  intros World lib server is_date table_id filter_column attachment_column
    all_records.
  induction pdf_files as [|info rest IH]; intros w results success_count error_count Hs Hsum;
    cbn [Upload.loop].
  - rewrite app_nil_r. repeat split; assumption.
  - pose proof (attach_key World lib server is_date table_id filter_column
                  attachment_column all_records w info) as Hkey.
    destruct (Upload.attach lib server is_date table_id filter_column
                attachment_column all_records w info) as [o w'].
    cbn [fst] in Hkey.
    assert (Hlen : List.length (results ++ [o]) = S (List.length results))
      by (rewrite length_app; cbn; lia).
    assert (Hkeys : (map Upload.key (results ++ [o]) ++ map Upload.filter_value rest
                     = map Upload.key results ++ map Upload.filter_value (info :: rest))%list).
    { rewrite map_app, <- app_assoc. cbn [map app]. rewrite Hkey. reflexivity. }
    destruct (Upload.is_success o) eqn:Ho.
    + specialize (IH w' (results ++ [o])%list (S success_count) error_count).
      destruct (Upload.loop _ _ _ _ _ _ _ rest w' _ _ _) as [[[r' s'] e'] w''].
      rewrite <- Hkeys. apply IH.
      * rewrite filter_app, length_app. cbn [filter]. rewrite Ho. cbn [List.length]. lia.
      * lia.
    + specialize (IH w' (results ++ [o])%list success_count (S error_count)).
      destruct (Upload.loop _ _ _ _ _ _ _ rest w' _ _ _) as [[[r' s'] e'] w''].
      rewrite <- Hkeys. apply IH.
      * rewrite filter_app, length_app. cbn [filter]. rewrite Ho. cbn [List.length]. lia.
      * lia.
Qed.

(** ** The record a document of a date is attached to *)

(** No date is written as the missing instant is. *)
Lemma strftime_dmY_is_not_nan :
  forall d, String.eqb (strftime_dmY d) "nan" = false.
Proof.
  intros d. destruct (String.eqb_spec (strftime_dmY d) "nan") as [He|]; [|reflexivity].
  assert (H : has_char "/" (strftime_dmY d) = true).
  { unfold strftime_dmY. rewrite has_char_append. cbn [append].
    rewrite has_char_cons. cbn [Ascii.eqb Bool.eqb andb orb]. apply orb_true_r. }
  rewrite He in H. discriminate H.
Qed.

Lemma target_record_first_of_key :
  forall lib filter_column filter_value before target after,
    forallb (fun r => numeric_or_missing (field_value r filter_column)
                      && negb (has_key filter_column filter_value r)) before = true ->
    has_key filter_column filter_value target = true ->
    target_record lib true filter_column filter_value (before ++ target :: after)%list
    = Some target.
Proof.
  intros lib filter_column filter_value before target after Hbefore Htarget.
  assert (Hnum : numeric_or_missing (field_value target filter_column) = true).
  { unfold has_key, key_of_timestamp in Htarget.
    destruct (field_value target filter_column); try discriminate Htarget; reflexivity. }
  assert (Hnan : String.eqb filter_value "nan" = false).
  { unfold has_key, key_of_timestamp in Htarget.
    destruct (timestamp_cell (field_value target filter_column)) as [d|];
      [|discriminate Htarget].
    cbn [option_map] in Htarget. apply String.eqb_eq in Htarget. subst filter_value.
    apply strftime_dmY_is_not_nan. }
  induction before as [|r before IH]; cbn [app target_record].
  - rewrite (record_matches_timestamp lib _ _ target Hnum Hnan), Htarget. reflexivity.
  - cbn [forallb] in Hbefore. apply andb_true_iff in Hbefore as [Hr Hrest].
    apply andb_true_iff in Hr as [Hr Hno]. apply negb_true_iff in Hno.
    rewrite (record_matches_timestamp lib _ _ r Hr Hnan), Hno. apply IH. exact Hrest.
Qed.

(** The loop adds its results and its counts to those it is given. *)
Lemma loop_from_empty :
  forall (World : Type) lib (server : Upload.Server World) is_date table_id
         filter_column attachment_column all_records pdf_files w results
         success_count error_count,
    Upload.loop lib server is_date table_id filter_column attachment_column
                all_records pdf_files w results success_count error_count
    = let '(results', success_count', error_count', w') :=
        Upload.loop lib server is_date table_id filter_column attachment_column
                    all_records pdf_files w [] 0%nat 0%nat in
      ((results ++ results')%list, (success_count + success_count')%nat,
       (error_count + error_count')%nat, w').
Proof.
  intros World lib server is_date table_id filter_column attachment_column all_records.
  induction pdf_files as [|info rest IH]; intros w results success_count error_count;
    cbn [Upload.loop].
  - rewrite app_nil_r, !Nat.add_0_r. reflexivity.
  - destruct (Upload.attach lib server is_date table_id filter_column
                attachment_column all_records w info) as [o w1].
    destruct (Upload.is_success o).
    + rewrite (IH w1 (results ++ [o])%list (S success_count) error_count).
      rewrite (IH w1 ([] ++ [o])%list 1%nat 0%nat).
      destruct (Upload.loop _ _ _ _ _ _ _ rest w1 [] 0%nat 0%nat) as [[[r' s'] e'] w'].
      rewrite <- app_assoc. cbn [app Nat.add]. rewrite Nat.add_succ_r. reflexivity.
    + rewrite (IH w1 (results ++ [o])%list success_count (S error_count)).
      rewrite (IH w1 ([] ++ [o])%list 0%nat 1%nat).
      destruct (Upload.loop _ _ _ _ _ _ _ rest w1 [] 0%nat 0%nat) as [[[r' s'] e'] w'].
      rewrite <- app_assoc. cbn [app Nat.add]. rewrite Nat.add_succ_r. reflexivity.
Qed.

(** C9.  On a date column, a document whose file exists and is uploaded is
    attached to the first record, in the order of the record set, whose
    Unix timestamp, turned into an instant and written DD/MM/YYYY, is the
    key of the document, the records before it holding timestamps of other
    days or nothing: that record is the one the lookup finds; the cell of
    attachments is written in that record, with the identifier of the
    uploaded file, and the document is reported attached to it when the
    request succeeds; and this outcome is the first the route reports
    when the document is the first of the request. *)
Theorem document_is_attached_to_first_record_of_its_date :
  forall (World : Type) lib (server : Upload.Server World) client tables
         table_id filter_column attachment_column before id fields after
         info pdf_files w attachment_id w1,
    let key := Upload.filter_value info in
    let all_records := (before ++ Wrapped id fields :: after)%list in
    let outcome :=
      let '(patched, w2) :=
        Upload.patch server w1 table_id (VInt id) attachment_column
                     (attachment_cell [attachment_id]) in
      (match patched with
       | Ok _ => Upload.Success key (VInt id) attachment_id
       | Raise _ => Upload.Failure key
       end, w2) in
    falsy (Some table_id) = false ->
    falsy (Some filter_column) = false ->
    falsy (Some attachment_column) = false ->
    get_table_data tables table_id = Ok all_records ->
    is_date_column client table_id filter_column = Ok true ->
    forallb (fun r => numeric_or_missing (field_value r filter_column)
                      && negb (has_key filter_column key r)) before = true ->
    has_key filter_column key (Wrapped id fields) = true ->
    Upload.exists_ server w (Upload.filepath info) = true ->
    Upload.upload_attachment server w (Upload.filepath info) = (Ok attachment_id, w1) ->
    target_record lib true filter_column key all_records = Some (Wrapped id fields)
    /\ Upload.attach lib server true table_id filter_column attachment_column
                     all_records w info
       = outcome
    /\ exists success_count error_count others w',
         Upload.upload_pdfs_to_grist lib server (Some (client, tables)) (Some table_id)
           (Some filter_column) (Some attachment_column) (info :: pdf_files) w
         = (Upload.Report success_count error_count (fst outcome :: others), w').
Proof.
  intros World lib server client tables table_id filter_column attachment_column
    before id fields after info pdf_files w attachment_id w1 key all_records outcome
    Htable Hfilter Hattachment Hdata Hdate Hbefore Htarget Hexists Hupload.
  assert (Hfound : target_record lib true filter_column key all_records
                   = Some (Wrapped id fields))
    by (apply target_record_first_of_key; assumption).
  assert (Hattach : Upload.attach lib server true table_id filter_column attachment_column
                      all_records w info = outcome).
  { unfold Upload.attach. rewrite Hexists. cbn [negb]. rewrite Hupload.
    fold key. rewrite Hfound. cbn [Upload.getitem_id]. unfold outcome.
    destruct (Upload.patch server w1 table_id (VInt id) attachment_column
                (attachment_cell [attachment_id])) as [[u|e] w2]; reflexivity. }
  split; [exact Hfound|]. split; [exact Hattach|].
  unfold Upload.upload_pdfs_to_grist.
  rewrite Htable, Hfilter, Hattachment. cbn [orb text]. rewrite Hdata, Hdate.
  cbn [Upload.loop]. rewrite Hattach.
  destruct outcome as [o w2]. cbn [fst].
  destruct (Upload.is_success o).
  - rewrite loop_from_empty.
    destruct (Upload.loop lib server true table_id filter_column attachment_column
                all_records pdf_files w2 [] 0%nat 0%nat) as [[[r' s'] e'] w'].
    exists (1 + s')%nat, (0 + e')%nat, r', w'. reflexivity.
  - rewrite loop_from_empty.
    destruct (Upload.loop lib server true table_id filter_column attachment_column
                all_records pdf_files w2 [] 0%nat 0%nat) as [[[r' s'] e'] w'].
    exists (0 + s')%nat, (1 + e')%nat, r', w'. reflexivity.
Qed.

(** The document of 15 January 2024 for [dated_records]: the record 11 is
    of another day, the records 12 and 13 hold timestamps of that day, at
    0 h and at 1 h, and the cell is written in the record 12. *)
Lemma document_is_attached_to_first_record_of_its_date_witness :
  let info := Upload.mk_pdf_info "15/01/2024" "out/15_01_2024.pdf" in
  let before := [Wrapped 11 [("Nom", VStr "Alice"); ("Jour", VInt 1700000000)]] in
  let fields := [("Nom", VStr "Bob"); ("Jour", VInt 1705276800)] in
  let after := [Wrapped 13 [("Nom", VStr "Chloe"); ("Jour", VInt 1705280400)]] in
  let all_records := (before ++ Wrapped 12 fields :: after)%list in
  let outcome :=
    let '(patched, w2) :=
      Upload.patch recording_server [] "Visites" (VInt 12) "Documents"
                   (attachment_cell [1]) in
    (match patched with
     | Ok _ => Upload.Success "15/01/2024" (VInt 12) 1
     | Raise _ => Upload.Failure "15/01/2024"
     end, w2) in
  (target_record plain true "Jour" "15/01/2024" all_records = Some (Wrapped 12 fields)
   /\ Upload.attach plain recording_server true "Visites" "Jour" "Documents"
                    all_records [] info
      = outcome
   /\ exists success_count error_count others w',
        Upload.upload_pdfs_to_grist plain recording_server
          (Some (visits_client, dated_tables)) (Some "Visites") (Some "Jour")
          (Some "Documents") [info] []
        = (Upload.Report success_count error_count (fst outcome :: others), w'))
  /\ key_of_timestamp (VInt 1705276800) = Some "15/01/2024"
  /\ Upload.upload_pdfs_to_grist plain recording_server
       (Some (visits_client, dated_tables)) (Some "Visites") (Some "Jour")
       (Some "Documents") [info] []
     = (Upload.Report 1 0 [Upload.Success "15/01/2024" (VInt 12) 1],
        [("Visites", VInt 12, "Documents", VList [VStr "L"; VInt 1])]).
Proof.
  intros info before fields after all_records outcome.
  split; [|split; reflexivity].
  apply (document_is_attached_to_first_record_of_its_date
           _ plain recording_server visits_client dated_tables "Visites" "Jour"
           "Documents" before 12 fields after info [] [] 1 []); reflexivity.
Defined.

(** X27.  Once the records and the type of the column are fetched, the
    upload reports every document of the request, given with its key and
    its path, once, in the order of the request, under its key, as
    attached or as failed, whatever fails for a document: the two counts
    add up to the number of documents, and the count of successes is the
    number of documents reported attached. *)
Theorem upload_reports_every_document_once :
  forall (World : Type) lib (server : Upload.Server World) client tables
         table_id filter_column attachment_column info pdf_files w all_records is_date,
    falsy (Some table_id) = false ->
    falsy (Some filter_column) = false ->
    falsy (Some attachment_column) = false ->
    get_table_data tables table_id = Ok all_records ->
    is_date_column client table_id filter_column = Ok is_date ->
    exists success_count error_count results w',
      Upload.upload_pdfs_to_grist lib server (Some (client, tables)) (Some table_id)
        (Some filter_column) (Some attachment_column) (info :: pdf_files) w
      = (Upload.Report success_count error_count results, w')
      /\ map Upload.key results = map Upload.filter_value (info :: pdf_files)
      /\ success_count = List.length (filter Upload.is_success results)
      /\ (success_count + error_count = List.length (info :: pdf_files))%nat.
Proof.
  intros World lib server client tables table_id filter_column attachment_column info
    pdf_files w all_records is_date Htable Hfilter Hattachment Hdata Hdate.
  unfold Upload.upload_pdfs_to_grist.
  rewrite Htable, Hfilter, Hattachment. cbn [orb text]. rewrite Hdata, Hdate.
  pose proof (loop_accounts World lib server is_date table_id filter_column
                attachment_column all_records (info :: pdf_files) w [] 0%nat 0%nat
                eq_refl eq_refl) as Hloop.
  destruct (Upload.loop lib server is_date table_id filter_column attachment_column
              all_records (info :: pdf_files) w [] 0 0) as [[[results s] e] w'].
  destruct Hloop as (Hkeys & Hs & Hsum).
  exists s, e, results, w'. split; [reflexivity|]. split; [exact Hkeys|].
  split; [exact Hs|]. rewrite Hsum.
  rewrite <- (length_map Upload.key results), Hkeys. apply length_map.
Qed.

(** Two documents for [dated_records]: the first is attached to the record
    12, the first of its day; no record is of the day of the second, which
    has been uploaded all the same. *)
Lemma upload_reports_every_document_once_witness :
  let pdf_files := [ Upload.mk_pdf_info "15/01/2024" "out/15_01_2024.pdf";
                     Upload.mk_pdf_info "01/01/2000" "out/01_01_2000.pdf" ] in
  (exists success_count error_count results w',
      Upload.upload_pdfs_to_grist plain counting_server (Some (visits_client, dated_tables))
        (Some "Visites") (Some "Jour") (Some "Documents") pdf_files 0
      = (Upload.Report success_count error_count results, w')
      /\ map Upload.key results = map Upload.filter_value pdf_files
      /\ success_count = List.length (filter Upload.is_success results)
      /\ (success_count + error_count = List.length pdf_files)%nat)
  /\ Upload.upload_pdfs_to_grist plain counting_server (Some (visits_client, dated_tables))
       (Some "Visites") (Some "Jour") (Some "Documents") pdf_files 0
     = (Upload.Report 1 1 [Upload.Success "15/01/2024" (VInt 12) 1;
                           Upload.Failure "01/01/2000"], 2).
Proof.
  intros pdf_files. split; [|reflexivity].
  apply (upload_reports_every_document_once Z plain counting_server visits_client
           dated_tables "Visites" "Jour" "Documents" _ _ 0 dated_records true);
    reflexivity.
Defined.
